(** * DAO governance simulation (dao_simulation_ganache.py)

    A shallow embedding of the simulation engine and of the Solidity
    contract it drives, with the properties of its specification.

    Conventions of the embedding.
    - A Python [int] is a [Z].  A Python [float] is modelled by the rational
      number it denotes ([Q]): comparisons are exact, and the last step of
      [round(x, n)] (taking the binary64 value nearest to the decimal
      result) is not modelled.  The program computes with floats in one
      place, the division of line 177, which is modelled as the binary64
      division that it is ([gas_cost_of]).  Python refuses to convert an
      [int] of [2^1024 - 2^970] or more to a float (OverflowError); the
      amounts of gas and the gas prices of a ledger are 256-bit quantities,
      and this refusal is not represented.
    - The module [random] is a value of an abstract type [R] with the two
      operations the program uses ([RandomSource]).
    - The Web3 connection, the compiler, the clock, the file system and the
      spreadsheet writer are one abstract world [W] with the operations the
      program calls ([Collaborators]); each returns the new world, and the
      fallible ones a [result].  Building the call object of line 169 and
      sending it at line 171 are one operation, [executeDecision_transact],
      placed where the transaction is sent.
    - [while True] is unrolled with a fuel argument: the Python call returns
      [x] exactly when some amount of fuel gives [Ok x]; a call that gives
      [Diverge] for every amount of fuel never returns. *)

From Stdlib Require Import ZArith QArith Qround Qabs Lia Lqa List.
From Stdlib Require SpecFloat.
From stdpp Require Import base option list strings gmap.

#[local] Open Scope string_scope.
#[local] Open Scope Z_scope.

(** ** Python values and rows *)

Inductive pyval : Type :=
  | PInt (z : Z)
  | PFloat (q : Q)
  | PStr (s : string).

(** A dict literal keeps its keys in the order they are written. *)
Definition row : Type := list (string * pyval).

Fixpoint row_get (k : string) (r : row) : option pyval :=
  match r with
  | [] => None
  | (k', v) :: r' => if String.eqb k k' then Some v else row_get k r'
  end.

Definition row_keys (r : row) : list string := map fst r.

(** ** Exceptions and results *)

Inductive exn : Type :=
  | ConnectionError (msg : string)
  | RuntimeError (msg : string)
  | KeyError (key : string)
  | IndexError
  | CollaboratorError (msg : string).

Inductive result (A : Type) : Type :=
  | Ok (a : A)
  | Raise (e : exn)
  | Diverge.

Arguments Ok {A} a.
Arguments Raise {A} e.
Arguments Diverge {A}.

(** ** Numbers *)

Definition Qltb (x y : Q) : bool := negb (Qle_bool y x).

(** [round(x)] on a float: the nearest integer, ties to the even one. *)
Definition round_half_even (q : Q) : Z :=
  let f := Qfloor q in
  match (q - inject_Z f ?= 1 # 2)%Q with
  | Lt => f
  | Gt => f + 1
  | Eq => if Z.even f then f else f + 1
  end.

(** [round(x, ndigits)] on a float, for the [ndigits >= 0] the program uses:
    the multiple of [10^-ndigits] nearest to [x], ties to the even one. *)
Definition py_round (x : Q) (ndigits : nat) : Q :=
  Qred (round_half_even (x * inject_Z (10 ^ Z.of_nat ndigits))
        # Z.to_pos (10 ^ Z.of_nat ndigits)).

(** ** Binary64 *)

(** The floats of line 177 are those of the standard library's
    specification of IEEE 754 arithmetic, with 53 bits of precision and
    the maximal exponent 1024. *)
Definition float : Type := SpecFloat.spec_float.

(** [float(z)] for an [int]: the nearest float, ties to even.  Where this
    is an infinity Python raises OverflowError instead. *)
Definition float_of_int (z : Z) : float :=
  SpecFloat.binary_normalize 53 1024 z 0 false.

(** [x / y] for floats, [y] not being zero: the float nearest to the
    quotient, ties to even. *)
Definition float_truediv (x y : float) : float :=
  SpecFloat.SFdiv 53 1024 x y.

Definition float_is_finite (x : float) : bool :=
  match x with
  | SpecFloat.S754_zero _ | SpecFloat.S754_finite _ _ _ => true
  | _ => false
  end.

(** The rational that a finite float denotes. *)
Definition float_value (x : float) : Q :=
  match x with
  | SpecFloat.S754_finite s m e =>
      ((if s then - inject_Z (Zpos m) else inject_Z (Zpos m)) * Qpower 2 e)%Q
  | _ => 0%Q
  end.

(** The literal [1e18], a value that binary64 holds exactly. *)
Definition float_1e18 : float := float_of_int (10 ^ 18).

(** [n / 1e18] for an [int] [n], as line 177 computes it: [n] is converted
    to a float, and the two floats are divided. *)
Definition int_truediv_1e18 (n : Z) : Q :=
  float_value (float_truediv (float_of_int n) float_1e18).

(** ** Lists the way Python indexes them *)

(** [l * k] *)
Definition py_list_mul {A} (l : list A) (k : Z) : list A :=
  concat (replicate (Z.to_nat k) l).

(** [l[:n]] *)
Definition py_slice_to {A} (l : list A) (n : Z) : list A :=
  if 0 <=? n then take (Z.to_nat n) l
  else take (length l - Z.to_nat (- n)) l.

(** [l[i]] *)
Definition py_index {A} (l : list A) (i : Z) : option A :=
  if 0 <=? i then l !! Z.to_nat i
  else if 0 <=? Z.of_nat (length l) + i then l !! Z.to_nat (Z.of_nat (length l) + i)
  else None.

(** [range(a, b)] *)
Definition py_range (a b : Z) : list Z :=
  map (fun k => a + Z.of_nat k) (seq 0 (Z.to_nat (b - a))).

(** ** Configuration constants *)

Definition GANACHE_URL : string := "http://127.0.0.1:7545".
Definition SOLC_VERSION : string := "0.8.20".
Definition NUM_RUNS : Z := 1000.
Definition OUTPUT_XLSX : string := "data/Simulation_Results_DAO_1000_Runs.xlsx".
Definition RANDOM_SEED : Z := 42.

(** One value of [DAO_STATS]; the two cost fields are Python ints. *)
Record profile : Type := {
  id : Z;
  lat_mean : Q;
  lat_std : Q;
  comp_mean : Q;
  comp_std : Q;
  total_cost_mean : Z;
  total_cost_std : Z;
  roi_mean : Q;
  roi_std : Q
}.

Definition DAO_1_0 : profile :=
  {| id := 1; lat_mean := 15.8; lat_std := 1.0; comp_mean := 71.0;
     comp_std := 3.0; total_cost_mean := 119000; total_cost_std := 5600;
     roi_mean := 1.02; roi_std := 0.5 |}.

Definition DAO_2_0 : profile :=
  {| id := 2; lat_mean := 9.4; lat_std := 1.0; comp_mean := 83.0;
     comp_std := 3.0; total_cost_mean := 90000; total_cost_std := 4500;
     roi_mean := 4.0; roi_std := 0.5 |}.

Definition DAO_3_0 : profile :=
  {| id := 3; lat_mean := 4.2; lat_std := 1.1; comp_mean := 97.5;
     comp_std := 2.4; total_cost_mean := 55000; total_cost_std := 2600;
     roi_mean := 7.5; roi_std := 0.5 |}.

Definition DAO_STATS : gmap string profile :=
  <["DAO 3.0" := DAO_3_0]> (<["DAO 2.0" := DAO_2_0]> (<["DAO 1.0" := DAO_1_0]> ∅)).

Definition OFFCHAIN_MEAN : Z := 300.
Definition OFFCHAIN_STD : Z := 40.
Definition OFFCHAIN_MIN : Z := 170.
Definition OFFCHAIN_MAX : Z := 420.

Definition LATENCY_MIN : Q := 1.5.
Definition LATENCY_MAX : Q := 19.0.

Definition COMPLIANCE_MIN : Z := 60.
Definition COMPLIANCE_MAX : Z := 100.

Definition ROI_MIN : Q := -0.5.
Definition ROI_MAX : Q := 9.0.

Definition COMPLIANCE_VIOLATION_THRESHOLD : Q := 80.0.

(** The text handed to the Solidity compiler. *)
Definition CONTRACT_SOURCE : string := "
// SPDX-License-Identifier: MIT
pragma solidity ^0.8.20;

contract DAOGovernance {

    struct Decision {
        uint256 proposalId;
        uint8 daoVersion;
        uint256 timestamp;
        address executor;
    }

    uint256 public decisionCount;
    mapping(uint256 => Decision) public decisions;

    event DecisionExecuted(
        uint256 indexed decisionId,
        uint256 indexed proposalId,
        uint8 indexed daoVersion,
        address executor,
        uint256 timestamp
    );

    function executeDecision(uint256 proposalId, uint8 daoVersion)
        external
        returns (uint256)
    {
        decisionCount += 1;

        decisions[decisionCount] = Decision({
            proposalId: proposalId,
            daoVersion: daoVersion,
            timestamp: block.timestamp,
            executor: msg.sender
        });

        emit DecisionExecuted(decisionCount, proposalId, daoVersion, msg.sender, block.timestamp);
        return decisionCount;
    }
}
".

(** ** The random stream *)

(** [random.seed(seed)] replaces the whole generator state by a function of
    the seed; [random.gauss(mu, sigma)] returns a draw and advances it. *)
Class RandomSource (R : Type) : Type := {
  random_seed : Z -> R;
  random_gauss : Q -> Q -> R -> Q * R
}.

(** ** The collaborators *)

Definition address : Type := Z.
Definition tx_hash : Type := Z.

Record receipt : Type := {
  gasUsed : Z;
  contractAddress : address
}.

(** What [w3.eth.contract(address=..., abi=...)] binds together. *)
Record contract_handle : Type := {
  contract_address : address;
  contract_abi : string
}.

Class Collaborators (W : Type) : Type := {
  (** [w3.is_connected()] *)
  w3_is_connected : W -> bool * W;
  (** [w3.eth.accounts] *)
  w3_eth_accounts : W -> result (list address) * W;
  (** [w3.eth.gas_price] *)
  w3_eth_gas_price : W -> result Z * W;
  (** [w3.eth.wait_for_transaction_receipt(tx_hash)] *)
  w3_eth_wait_for_transaction_receipt : tx_hash -> W -> result receipt * W;
  (** [Contract.constructor().transact({"from": sender})] *)
  constructor_transact : string -> string -> address -> W -> result tx_hash * W;
  (** [contract.functions.executeDecision(proposal_id, dao_id).transact({"from": sender})] *)
  executeDecision_transact :
    contract_handle -> Z -> Z -> address -> W -> result tx_hash * W;
  (** [install_solc(version)] *)
  install_solc : string -> W -> result unit * W;
  (** [compile_standard(...)], then the ["abi"] and the bytecode ["object"]
      of [DAOGovernance] read from its output *)
  compile_standard : string -> string -> W -> result (string * string) * W;
  (** [time.time()] *)
  time_time : W -> Q * W;
  (** [Path(p).mkdir(exist_ok=True)] *)
  path_mkdir : string -> W -> result unit * W;
  (** [pd.DataFrame(rows).to_excel(path, index=False)] *)
  to_excel : list row -> string -> W -> result unit * W
}.

(** ** Functions that touch no collaborator *)

Section Sampler.
Context {R : Type} {RS : RandomSource R}.

(** [truncated_normal(mu, sigma, low, high)]: one unrolling of the loop per
    unit of fuel. *)
Fixpoint truncated_normal (fuel : nat) (mu sigma low high : Q) (r : R)
  : result Q * R :=
  match fuel with
  | O => (Diverge, r)
  | S fuel' =>
      let (x, r') := random_gauss mu sigma r in
      if Qle_bool low x && Qle_bool x high then (Ok x, r')
      else truncated_normal fuel' mu sigma low high r'
  end.
End Sampler.

(** [dao_sequence(n)] *)
Definition dao_sequence (n : Z) : list string :=
  let seq := ["DAO 1.0"; "DAO 2.0"; "DAO 3.0"] in
  py_slice_to (py_list_mul seq (n / 3 + 1)) n.

(** ** Computations *)

(** A computation over a state [S] changes the state and returns, raises or
    runs forever; the state reached when an exception is raised is kept. *)
Definition M (S A : Type) : Type := S -> result A * S.

Definition ret {S A} (a : A) : M S A := fun s => (Ok a, s).

Definition raise {S A} (e : exn) : M S A := fun s => (Raise e, s).

Definition bind {S A B} (m : M S A) (k : A -> M S B) : M S B :=
  fun s =>
    match m s with
    | (Ok a, s') => k a s'
    | (Raise e, s') => (Raise e, s')
    | (Diverge, s') => (Diverge, s')
    end.

(** A call that cannot fail. *)
Definition total {S A} (f : S -> A * S) : M S A :=
  fun s => let (a, s') := f s in (Ok a, s').

Declare Scope engine_scope.
Delimit Scope engine_scope with engine.

Notation "x <- c1 ;; c2" := (bind c1 (fun x => c2))
  (at level 100, c1 at next level, right associativity) : engine_scope.
Notation "c1 ;; c2" := (bind c1 (fun _ => c2))
  (at level 100, right associativity) : engine_scope.

(** [d[k]] on a dict with string keys *)
Definition dict_item {S A} (d : gmap string A) (k : string) : M S A :=
  match d !! k with
  | Some v => ret v
  | None => raise (KeyError k)
  end.

(** [l[i]] *)
Definition list_item {S A} (l : list A) (i : Z) : M S A :=
  match py_index l i with
  | Some v => ret v
  | None => raise IndexError
  end.

(** ** The engine *)

Section Engine.
Context {R : Type} {RS : RandomSource R} {W : Type} {CO : Collaborators W}.

(** The process state: the module-level generator and the outside world. *)
Record state : Type := { rng : R; world : W }.

(** A computation on the generator alone, run in the process. *)
Definition lift_rng {A} (f : M R A) : M state A :=
  fun st => let (a, r') := f (rng st) in (a, {| rng := r'; world := world st |}).

(** A computation on the world alone, run in the process. *)
Definition lift_world {A} (f : M W A) : M state A :=
  fun st => let (a, w') := f (world st) in (a, {| rng := rng st; world := w' |}).

Definition lift_total {A} (f : W -> A * W) : M state A :=
  lift_world (total f).

#[local] Open Scope engine_scope.

(** [set_seed(seed)] *)
Definition set_seed (seed : Z) : M state unit :=
  fun st => (Ok tt, {| rng := random_seed seed; world := world st |}).

(** [connect_ganache()]; the handle it returns is the world itself. *)
Definition connect_ganache : M state unit :=
  connected <- lift_total w3_is_connected ;;
  if negb connected then raise (ConnectionError "Could not connect to Ganache.")
  else ret tt.

(** [compile_contract()] *)
Definition compile_contract : M state (string * string) :=
  lift_world (install_solc SOLC_VERSION) ;;
  lift_world (compile_standard CONTRACT_SOURCE SOLC_VERSION).

(** [deploy_contract(w3, abi, bytecode, sender)] *)
Definition deploy_contract (abi bytecode : string) (sender : address)
  : M state contract_handle :=
  tx_hash <- lift_world (constructor_transact abi bytecode sender) ;;
  receipt <- lift_world (w3_eth_wait_for_transaction_receipt tx_hash) ;;
  ret {| contract_address := contractAddress receipt; contract_abi := abi |}.

(** [simulate_one(w3, contract, idx, label, sender)] *)
Definition simulate_one (fuel : nat) (contract : contract_handle) (idx : Z)
    (label : string) (sender : address) : M state row :=
  s <- dict_item DAO_STATS label ;;
  let dao_id := id s in
  let proposal_id := idx in
  start <- lift_total time_time ;;
  tx_hash <- lift_world (executeDecision_transact contract proposal_id dao_id sender) ;;
  receipt <- lift_world (w3_eth_wait_for_transaction_receipt tx_hash) ;;
  end_ <- lift_total time_time ;;
  let gas_used := gasUsed receipt in
  gas_price <- lift_world w3_eth_gas_price ;;
  let gas_cost := int_truediv_1e18 (gas_used * gas_price) in
  lat <- lift_rng (truncated_normal fuel (lat_mean s) (lat_std s)
                     LATENCY_MIN LATENCY_MAX) ;;
  comp <- lift_rng (truncated_normal fuel (comp_mean s) (comp_std s)
                      (inject_Z COMPLIANCE_MIN) (inject_Z COMPLIANCE_MAX)) ;;
  offchain <- lift_rng (truncated_normal fuel (inject_Z OFFCHAIN_MEAN)
                          (inject_Z OFFCHAIN_STD) (inject_Z OFFCHAIN_MIN)
                          (inject_Z OFFCHAIN_MAX)) ;;
  total <- lift_rng (truncated_normal fuel
                       (inject_Z (total_cost_mean s))
                       (inject_Z (total_cost_std s))
                       (inject_Z (total_cost_mean s - 3 * total_cost_std s))
                       (inject_Z (total_cost_mean s + 3 * total_cost_std s))) ;;
  roi <- lift_rng (truncated_normal fuel (roi_mean s) (roi_std s)
                     ROI_MIN ROI_MAX) ;;
  let violation :=
    if Qltb comp COMPLIANCE_VIOLATION_THRESHOLD then "Y" else "N" in
  let decision_outcome :=
    if Qltb roi 0 || Qltb comp 65 then "Rejected" else "Accepted" in
  ret [ ("Simulation ID", PInt idx);
        ("DAO Gen", PStr label);
        ("Latency (s)", PFloat (py_round lat 2));
        ("Compliance (%)", PFloat (py_round comp 1));
        ("Gas Cost (ETH)", PFloat (py_round gas_cost 6));
        ("Off-Chain Cost", PInt (round_half_even offchain));
        ("Total Cost (AED)", PInt (round_half_even total));
        ("Decision Outcome", PStr decision_outcome);
        ("ROI (%)", PFloat (py_round roi 2));
        ("Compliance Violation", PStr violation) ].

(** The [for] loop of [run_full]: [indices] are the values of [i] still to
    come, [rows] the list built so far. *)
Fixpoint run_full_loop (fuel : nat) (contract : contract_handle)
    (sender : address) (seq : list string) (indices : list Z)
    (rows : list row) : M state (list row) :=
  match indices with
  | [] => ret rows
  | i :: indices' =>
      label <- list_item seq (i - 1) ;;
      r <- simulate_one fuel contract i label sender ;;
      run_full_loop fuel contract sender seq indices' (rows ++ [r])
  end.

(** The body of [run_full], with the two module constants it reads as
    arguments. *)
Definition run_all (fuel : nat) (seed_value num_runs : Z) : M state unit :=
  set_seed seed_value ;;
  connect_ganache ;;
  accounts <- lift_world w3_eth_accounts ;;
  match accounts with
  | [] => raise (RuntimeError "No accounts available in Ganache.")
  | sender :: _ =>
      compiled <- compile_contract ;;
      let '(abi, bytecode) := compiled in
      contract <- deploy_contract abi bytecode sender ;;
      lift_world (path_mkdir "data") ;;
      let seq := dao_sequence num_runs in
      rows <- run_full_loop fuel contract sender seq
                (py_range 1 (num_runs + 1)) [] ;;
      lift_world (to_excel rows OUTPUT_XLSX)
  end.

(** [run_full()] *)
Definition run_full (fuel : nat) : M state unit :=
  run_all fuel RANDOM_SEED NUM_RUNS.
End Engine.

Arguments state : clear implicits.

(** ** Observing the calls made to the collaborators *)

(** One entry per call, with its arguments and what it answered. *)
Inductive event : Type :=
  | EvIsConnected (answer : bool)
  | EvAccounts (answer : result (list address))
  | EvGasPrice (answer : result Z)
  | EvWaitReceipt (h : tx_hash) (answer : result receipt)
  | EvDeploy (abi bytecode : string) (sender : address) (answer : result tx_hash)
  | EvExecuteDecision (contract : contract_handle) (proposal_id dao_version : Z)
      (sender : address) (answer : result tx_hash)
  | EvInstallSolc (version : string) (answer : result unit)
  | EvCompile (source version : string) (answer : result (string * string))
  | EvTime (answer : Q)
  | EvMkdir (path : string) (answer : result unit)
  | EvToExcel (rows : list row) (path : string) (answer : result unit).

Definition logging {W A} (f : W -> A * W) (ev : A -> event)
  : W * list event -> A * (W * list event) :=
  fun wl => let (a, w') := f (fst wl) in (a, (w', (snd wl ++ [ev a])%list)).

(** Any collaborators, with a log of the calls kept beside their world: the
    answers are theirs, unchanged. *)
#[export] Instance Logged (W : Type) {CO : Collaborators W}
  : Collaborators (W * list event) := {
  w3_is_connected := logging w3_is_connected EvIsConnected;
  w3_eth_accounts := logging w3_eth_accounts EvAccounts;
  w3_eth_gas_price := logging w3_eth_gas_price EvGasPrice;
  w3_eth_wait_for_transaction_receipt h :=
    logging (w3_eth_wait_for_transaction_receipt h) (EvWaitReceipt h);
  constructor_transact abi bytecode sender :=
    logging (constructor_transact abi bytecode sender)
      (EvDeploy abi bytecode sender);
  executeDecision_transact c proposal_id dao_version sender :=
    logging (executeDecision_transact c proposal_id dao_version sender)
      (EvExecuteDecision c proposal_id dao_version sender);
  install_solc v := logging (install_solc v) (EvInstallSolc v);
  compile_standard src v := logging (compile_standard src v) (EvCompile src v);
  time_time := logging time_time EvTime;
  path_mkdir p := logging (path_mkdir p) (EvMkdir p);
  to_excel rows p := logging (to_excel rows p) (EvToExcel rows p)
}.

Definition is_decision (ev : event) : bool :=
  match ev with EvExecuteDecision _ _ _ _ _ => true | _ => false end.

Definition is_transaction (ev : event) : bool :=
  match ev with
  | EvExecuteDecision _ _ _ _ _ | EvDeploy _ _ _ _ => true
  | _ => false
  end.

(** The tables written, oldest first. *)
Fixpoint tables_written (log : list event) : list (list row) :=
  match log with
  | [] => []
  | EvToExcel rows _ (Ok _) :: log' => rows :: tables_written log'
  | _ :: log' => tables_written log'
  end.

(** ** A scripted random stream *)

(** The state is the list of standard scores still to come; a draw is
    [mu + z * sigma], and [z = 0] once the script is used up.  Seeding
    starts the script [seed_script seed]. *)
Definition scripted (seed_script : Z -> list Q) : RandomSource (list Q) := {|
  random_seed := seed_script;
  random_gauss mu sigma zs :=
    match zs with
    | [] => (mu, [])
    | z :: zs' => ((mu + z * sigma)%Q, zs')
    end
|}.

(** ** A single-node chain running the contract *)

Module Ganache.

(** [struct Decision] *)
Record Decision : Type := {
  proposalId : Z;
  daoVersion : Z;
  timestamp : Z;
  executor : address
}.

(** The node: whether it answers, its accounts, its block time and gas
    price, the storage of the one [DAOGovernance] it hosts, the receipts
    of the transactions it has mined (a transaction's hash is its position
    there), the gas it charges, the wall clock, and the table written. *)
Record chain : Type := {
  reachable : bool;
  accounts : list address;
  block_timestamp : Z;
  gas_price : Z;
  deployed_at : option address;
  decisionCount : Z;
  decisions : gmap Z Decision;
  receipts : list receipt;
  gas_deploy : Z;
  gas_decision : Z;
  clock : Q;
  table : option (list row)
}.

Definition uint256_max : Z := 2 ^ 256 - 1.
Definition uint8_max : Z := 2 ^ 8 - 1.

Definition mine (rc : receipt) (c : chain) (count : Z)
    (store : gmap Z Decision) (at_ : option address) : chain :=
  {| reachable := reachable c; accounts := accounts c;
     block_timestamp := block_timestamp c + 1; gas_price := gas_price c;
     deployed_at := at_; decisionCount := count; decisions := store;
     receipts := receipts c ++ [rc];
     gas_deploy := gas_deploy c; gas_decision := gas_decision c;
     clock := clock c; table := table c |}.

(** Deployment: fresh storage at a new address. *)
Definition deploy (abi bytecode : string) (sender : address) (c : chain)
  : result tx_hash * chain :=
  if negb (reachable c) then (Raise (CollaboratorError "unreachable"), c)
  else
    let addr := Z.of_nat (length (receipts c)) + 1000 in
    (Ok (Z.of_nat (length (receipts c))),
     mine {| gasUsed := gas_deploy c; contractAddress := addr |} c 0 ∅
          (Some addr)).

(** [executeDecision(proposalId, daoVersion)]: the arguments must fit
    their types, and [decisionCount += 1] reverts on overflow. *)
Definition executeDecision (h : contract_handle) (proposal_id dao_version : Z)
    (sender : address) (c : chain) : result tx_hash * chain :=
  if negb (reachable c) then (Raise (CollaboratorError "unreachable"), c)
  else if negb (bool_decide (deployed_at c = Some (contract_address h)))
  then (Raise (CollaboratorError "no contract"), c)
  else if negb ((0 <=? proposal_id) && (proposal_id <=? uint256_max)
                && (0 <=? dao_version) && (dao_version <=? uint8_max))
  then (Raise (CollaboratorError "argument out of range"), c)
  else if uint256_max <? decisionCount c + 1
  then (Raise (CollaboratorError "revert"), c)
  else
    let count := decisionCount c + 1 in
    let d := {| proposalId := proposal_id; daoVersion := dao_version;
                timestamp := block_timestamp c; executor := sender |} in
    (Ok (Z.of_nat (length (receipts c))),
     mine {| gasUsed := gas_decision c; contractAddress := 0 |} c count
          (<[count := d]> (decisions c)) (deployed_at c)).

Definition wait_for_receipt (h : tx_hash) (c : chain) : result receipt * chain :=
  match py_index (receipts c) h with
  | Some rc => if 0 <=? h then (Ok rc, c)
               else (Raise (CollaboratorError "unknown transaction"), c)
  | None => (Raise (CollaboratorError "unknown transaction"), c)
  end.

Definition tick (c : chain) : Q * chain :=
  (clock c,
   {| reachable := reachable c; accounts := accounts c;
      block_timestamp := block_timestamp c; gas_price := gas_price c;
      deployed_at := deployed_at c; decisionCount := decisionCount c;
      decisions := decisions c; receipts := receipts c;
      gas_deploy := gas_deploy c; gas_decision := gas_decision c;
      clock := (clock c + 1)%Q; table := table c |}).

Definition write_table (rows : list row) (path : string) (c : chain)
  : result unit * chain :=
  (Ok tt,
   {| reachable := reachable c; accounts := accounts c;
      block_timestamp := block_timestamp c; gas_price := gas_price c;
      deployed_at := deployed_at c; decisionCount := decisionCount c;
      decisions := decisions c; receipts := receipts c;
      gas_deploy := gas_deploy c; gas_decision := gas_decision c;
      clock := clock c; table := Some rows |}).

#[export] Instance node : Collaborators chain := {
  w3_is_connected c := (reachable c, c);
  w3_eth_accounts c := (Ok (accounts c), c);
  w3_eth_gas_price c := (Ok (gas_price c), c);
  w3_eth_wait_for_transaction_receipt := wait_for_receipt;
  constructor_transact := deploy;
  executeDecision_transact := executeDecision;
  install_solc _ c := (Ok tt, c);
  compile_standard _ _ c := (Ok ("abi", "6080"), c);
  time_time := tick;
  path_mkdir _ c := (Ok tt, c);
  to_excel := write_table
}.

(** A node that answers, with one account and nothing mined yet. *)
Definition fresh : chain :=
  {| reachable := true; accounts := [7]; block_timestamp := 1700000000;
     gas_price := 20000000000; deployed_at := None; decisionCount := 0;
     decisions := ∅; receipts := []; gas_deploy := 250000;
     gas_decision := 113000; clock := 0; table := None |}.

Definition unreachable : chain :=
  {| reachable := false; accounts := [7]; block_timestamp := 1700000000;
     gas_price := 20000000000; deployed_at := None; decisionCount := 0;
     decisions := ∅; receipts := []; gas_deploy := 250000;
     gas_decision := 113000; clock := 0; table := None |}.

Definition no_account : chain :=
  {| reachable := true; accounts := []; block_timestamp := 1700000000;
     gas_price := 20000000000; deployed_at := None; decisionCount := 0;
     decisions := ∅; receipts := []; gas_deploy := 250000;
     gas_decision := 113000; clock := 0; table := None |}.

(** The same chain charging another amount of gas for a decision. *)
Definition with_gas_decision (g : Z) (c : chain) : chain :=
  {| reachable := reachable c; accounts := accounts c;
     block_timestamp := block_timestamp c; gas_price := gas_price c;
     deployed_at := deployed_at c; decisionCount := decisionCount c;
     decisions := decisions c; receipts := receipts c;
     gas_deploy := gas_deploy c; gas_decision := g;
     clock := clock c; table := table c |}.

(** Another node that answers: other accounts, gas price, gas charges and
    clock. *)
Definition busy : chain :=
  {| reachable := true; accounts := [9; 7]; block_timestamp := 1800000000;
     gas_price := 35000000000; deployed_at := None; decisionCount := 0;
     decisions := ∅; receipts := []; gas_deploy := 260000;
     gas_decision := 98000; clock := 12.5; table := None |}.

End Ganache.

(** ** The contract [DAOGovernance] by itself *)

Module DAOGovernance.
Import Ganache.

(** The storage: [decisionCount] and the mapping [decisions]. *)
Record storage : Type := {
  count : Z;
  mapping : gmap Z Decision
}.

(** A key never written reads as the struct of zeros. *)
Definition zero : Decision :=
  {| proposalId := 0; daoVersion := 0; timestamp := 0; executor := 0 |}.

(** The getter [decisions(k)] of the public mapping. *)
Definition decisions_at (s : storage) (k : Z) : Decision :=
  default zero (mapping s !! k).

(** [event DecisionExecuted] *)
Record DecisionExecuted : Type := {
  ev_decisionId : Z;
  ev_proposalId : Z;
  ev_daoVersion : Z;
  ev_executor : address;
  ev_timestamp : Z
}.

(** The storage of a contract just deployed. *)
Definition deployed : storage := {| count := 0; mapping := ∅ |}.

(** A call of [executeDecision] with its environment.  The call carries
    no value, as those of the engine, which are sent with their sender
    alone: the function is not payable. *)
Record call : Type := {
  msg_sender : address;
  block_timestamp : Z;
  arg_proposalId : Z;
  arg_daoVersion : Z
}.

Definition fits (c : call) : bool :=
  (0 <=? arg_proposalId c) && (arg_proposalId c <=? uint256_max)
  && (0 <=? arg_daoVersion c) && (arg_daoVersion c <=? uint8_max).

(** [executeDecision(proposalId, daoVersion)] on a call without value:
    the value returned, the event emitted and the new storage; [None] when
    the call reverts, for arguments that do not fit [uint256] and [uint8]
    or because [decisionCount += 1] overflows (arithmetic is checked from
    0.8 on). *)
Definition executeDecision (c : call) (s : storage)
  : option (Z * DecisionExecuted * storage) :=
  if negb (fits c) then None
  else if uint256_max <? count s + 1 then None
  else
    let decisionCount := count s + 1 in
    let d := {| proposalId := arg_proposalId c;
                daoVersion := arg_daoVersion c;
                timestamp := block_timestamp c;
                executor := msg_sender c |} in
    Some (decisionCount,
          {| ev_decisionId := decisionCount;
             ev_proposalId := arg_proposalId c;
             ev_daoVersion := arg_daoVersion c;
             ev_executor := msg_sender c;
             ev_timestamp := block_timestamp c |},
          {| count := decisionCount;
             mapping := <[decisionCount := d]> (mapping s) |}).

(** Calls made one after the other; a revert stops the sequence. *)
Fixpoint execute_all (calls : list call) (s : storage) : option storage :=
  match calls with
  | [] => Some s
  | c :: calls' =>
      match executeDecision c s with
      | Some (_, _, s') => execute_all calls' s'
      | None => None
      end
  end.

(** What a call stores. *)
Definition decision_of (c : call) : Decision :=
  {| proposalId := arg_proposalId c; daoVersion := arg_daoVersion c;
     timestamp := block_timestamp c; executor := msg_sender c |}.

End DAOGovernance.

(** A record without one of its fields. *)
Fixpoint row_without (k : string) (r : row) : row :=
  match r with
  | [] => []
  | (k', v) :: r' =>
      if String.eqb k k' then row_without k r' else (k', v) :: row_without k r'
  end.

(** ** The guard of the rejection loop *)

(** [low <= x <= high] *)
Definition accepted (low high x : Q) : bool :=
  Qle_bool low x && Qle_bool x high.

(** The [k]-th call of [random.gauss(mu, sigma)] from generator state [r]
    (counting from 0): the draw and the state it leaves. *)
Fixpoint nth_draw {R : Type} {RS : RandomSource R} (mu sigma : Q) (k : nat)
    (r : R) : Q * R :=
  match k with
  | O => random_gauss mu sigma r
  | S k' => nth_draw mu sigma k' (snd (random_gauss mu sigma r))
  end.

(** ** The stages of one run *)

(** [simulate_one] does four things in a row: it talks to the ledger, it
    draws five values, it classifies two of them, and it builds the row.
    They are named here one by one, and [simulate_one_stages] shows that
    [simulate_one] is their composition. *)

Record metrics : Type := {
  m_lat : Q;
  m_comp : Q;
  m_offchain : Q;
  m_total : Q;
  m_roi : Q
}.

Definition violation_of (comp : Q) : string :=
  if Qltb comp COMPLIANCE_VIOLATION_THRESHOLD then "Y" else "N".

Definition outcome_of (roi comp : Q) : string :=
  if Qltb roi 0 || Qltb comp 65 then "Rejected" else "Accepted".

Definition gas_cost_of (gas_used gas_price : Z) : Q :=
  int_truediv_1e18 (gas_used * gas_price).

Definition build_record (idx : Z) (label : string) (gas_used gas_price : Z)
    (m : metrics) : row :=
  [ ("Simulation ID", PInt idx);
    ("DAO Gen", PStr label);
    ("Latency (s)", PFloat (py_round (m_lat m) 2));
    ("Compliance (%)", PFloat (py_round (m_comp m) 1));
    ("Gas Cost (ETH)", PFloat (py_round (gas_cost_of gas_used gas_price) 6));
    ("Off-Chain Cost", PInt (round_half_even (m_offchain m)));
    ("Total Cost (AED)", PInt (round_half_even (m_total m)));
    ("Decision Outcome", PStr (outcome_of (m_roi m) (m_comp m)));
    ("ROI (%)", PFloat (py_round (m_roi m) 2));
    ("Compliance Violation", PStr (violation_of (m_comp m))) ].

Section Stages.
Context {R : Type} {RS : RandomSource R} {W : Type} {CO : Collaborators W}.
#[local] Open Scope engine_scope.

(** Lines 169-176: the transaction, its receipt and the gas price. *)
Definition orchestrate (contract : contract_handle) (proposal_id dao_id : Z)
    (sender : address) : M W (receipt * Z) :=
  start <- total time_time ;;
  tx_hash <- executeDecision_transact contract proposal_id dao_id sender ;;
  receipt <- w3_eth_wait_for_transaction_receipt tx_hash ;;
  end_ <- total time_time ;;
  gas_price <- w3_eth_gas_price ;;
  ret (receipt, gas_price).

(** Lines 179-188: the five draws, in the order they are made. *)
Definition synthesize (fuel : nat) (s : profile) : M R metrics :=
  lat <- truncated_normal fuel (lat_mean s) (lat_std s)
           LATENCY_MIN LATENCY_MAX ;;
  comp <- truncated_normal fuel (comp_mean s) (comp_std s)
            (inject_Z COMPLIANCE_MIN) (inject_Z COMPLIANCE_MAX) ;;
  offchain <- truncated_normal fuel (inject_Z OFFCHAIN_MEAN)
                (inject_Z OFFCHAIN_STD) (inject_Z OFFCHAIN_MIN)
                (inject_Z OFFCHAIN_MAX) ;;
  total <- truncated_normal fuel
             (inject_Z (total_cost_mean s))
             (inject_Z (total_cost_std s))
             (inject_Z (total_cost_mean s - 3 * total_cost_std s))
             (inject_Z (total_cost_mean s + 3 * total_cost_std s)) ;;
  roi <- truncated_normal fuel (roi_mean s) (roi_std s) ROI_MIN ROI_MAX ;;
  ret {| m_lat := lat; m_comp := comp; m_offchain := offchain;
         m_total := total; m_roi := roi |}.

Definition staged (fuel : nat) (contract : contract_handle) (idx : Z)
    (label : string) (sender : address) : M (state R W) row :=
  s <- dict_item DAO_STATS label ;;
  led <- lift_world (orchestrate contract idx (id s) sender) ;;
  m <- lift_rng (synthesize fuel s) ;;
  ret (build_record idx label (gasUsed (fst led)) (snd led) m).
End Stages.

(** ** Columns and rounding, in words *)

(** The keys of the dict that [simulate_one] returns, in order. *)
Definition columns : list string :=
  [ "Simulation ID"; "DAO Gen"; "Latency (s)"; "Compliance (%)";
    "Gas Cost (ETH)"; "Off-Chain Cost"; "Total Cost (AED)";
    "Decision Outcome"; "ROI (%)"; "Compliance Violation" ].

(** The column names as the specification words them. *)
Definition spec_columns : list string :=
  [ "Simulation ID"; "DAO Gen"; "Latency (s)"; "Compliance (%)";
    "Gas Cost (native unit)"; "Off-Chain Cost"; "Total Cost";
    "Decision Outcome"; "ROI (%)"; "Compliance Violation" ].

(** [y] is [x] rounded to [n] decimals: a multiple of [10^-n] at most half
    of [10^-n] away from [x]. *)
Definition rounded_to (n : nat) (x y : Q) : Prop :=
  (exists k : Z, y == inject_Z k / inject_Z (10 ^ Z.of_nat n))%Q /\
  (Qabs (y - x) <= (1 # 2) / inject_Z (10 ^ Z.of_nat n))%Q.

(** [z] is an integer nearest to [x]. *)
Definition nearest_integer (x : Q) (z : Z) : Prop :=
  (Qabs (inject_Z z - x) <= 1 # 2)%Q.

(** ** The stages of [run_full] *)

Section Setup.
Context {R : Type} {RS : RandomSource R} {W : Type} {CO : Collaborators W}.
#[local] Open Scope engine_scope.

(** Lines 209-218: everything that [run_full] does with the collaborators
    before its loop; it gives the contract handle and the sender. *)
Definition setup : M W (contract_handle * address) :=
  connected <- total w3_is_connected ;;
  (if negb connected
   then raise (ConnectionError "Could not connect to Ganache.")
   else ret tt) ;;
  accounts <- w3_eth_accounts ;;
  match accounts with
  | [] => raise (RuntimeError "No accounts available in Ganache.")
  | sender :: _ =>
      install_solc SOLC_VERSION ;;
      compiled <- compile_standard CONTRACT_SOURCE SOLC_VERSION ;;
      let '(abi, bytecode) := compiled in
      tx_hash <- constructor_transact abi bytecode sender ;;
      receipt <- w3_eth_wait_for_transaction_receipt tx_hash ;;
      path_mkdir "data" ;;
      ret ({| contract_address := contractAddress receipt;
              contract_abi := abi |}, sender)
  end.

Definition run_all_staged (fuel : nat) (seed_value num_runs : Z)
  : M (state R W) unit :=
  set_seed seed_value ;;
  cs <- lift_world setup ;;
  rows <- run_full_loop fuel (fst cs) (snd cs) (dao_sequence num_runs)
            (py_range 1 (num_runs + 1)) [] ;;
  lift_world (to_excel rows OUTPUT_XLSX).
End Setup.

(** ** The runs of the loop *)

(** The label at position [(i - 1) mod 3] of the cycle DAO 1.0, DAO 2.0,
    DAO 3.0. *)
Definition label_for (i : Z) : string :=
  match (i - 1) mod 3 with
  | 0 => "DAO 1.0"
  | 1 => "DAO 2.0"
  | _ => "DAO 3.0"
  end.

(** The run indices 1, ..., n. *)
Definition one_to (n : Z) : list Z := map Z.of_nat (seq 1 (Z.to_nat n)).

(** The five synthesized fields of a record. *)
Definition synthesized_fields (r : row) : list (option pyval) :=
  [ row_get "Latency (s)" r; row_get "Compliance (%)" r;
    row_get "Off-Chain Cost" r; row_get "Total Cost (AED)" r;
    row_get "ROI (%)" r ].

(** The entries that one successful run leaves in the log. *)
Definition run_events (contract : contract_handle) (sender : address)
    (i dao_id : Z) (t0 : Q) (h : tx_hash) (rc : receipt) (t1 : Q) (p : Z)
  : list event :=
  [ EvTime t0;
    EvExecuteDecision contract i dao_id sender (Ok h);
    EvWaitReceipt h (Ok rc);
    EvTime t1;
    EvGasPrice (Ok p) ].

(** What happened before the loop of a successful [run_full]. *)
Definition setup_events (sender : address) (others : list address)
    (abi bytecode : string) (h : tx_hash) (rc : receipt) : list event :=
  [ EvIsConnected true;
    EvAccounts (Ok (sender :: others));
    EvInstallSolc SOLC_VERSION (Ok tt);
    EvCompile CONTRACT_SOURCE SOLC_VERSION (Ok (abi, bytecode));
    EvDeploy abi bytecode sender (Ok h);
    EvWaitReceipt h (Ok rc);
    EvMkdir "data" (Ok tt) ].

Section Runs.
Context {R : Type} {RS : RandomSource R} {W : Type} {CO : Collaborators W}.
Variables (fuel : nat) (contract : contract_handle) (sender : address)
  (seq : list string).

(** [loop_run indices st rows st']: from state [st] the loop body ran once
    for each index, in order, each time returning a row, and left [st']. *)
Inductive loop_run : list Z -> state R W -> list row -> state R W -> Prop :=
  | loop_done st : loop_run [] st [] st
  | loop_step i indices st label r st1 rows st2 :
      py_index seq (i - 1) = Some label ->
      simulate_one fuel contract i label sender st = (Ok r, st1) ->
      loop_run indices st1 rows st2 ->
      loop_run (i :: indices) st (r :: rows) st2.
End Runs.

(** The state of the collaborators under the log. *)
Definition unlog {R W : Type} (st : state R (W * list event)) : state R W :=
  {| rng := rng st; world := fst (world st) |}.

(** [run_log contract sender seq indices rows log]: [log] is what the loop
    leaves when it succeeds on [indices] with result [rows]: for each index
    [i] in turn, the entries of one run, whose transaction carries [i] and
    the id of the profile of [seq[i - 1]], whose receipt is the one awaited
    for the hash that this transaction returned, and whose receipt and gas
    price give the gas cost stored in the row numbered [i]. *)
Inductive run_log (contract : contract_handle) (sender : address)
    (seq : list string) : list Z -> list row -> list event -> Prop :=
  | run_log_nil : run_log contract sender seq [] [] []
  | run_log_cons i indices r rows log label s t0 h rc t1 p :
      py_index seq (i - 1) = Some label ->
      DAO_STATS !! label = Some s ->
      row_get "Simulation ID" r = Some (PInt i) ->
      row_get "DAO Gen" r = Some (PStr label) ->
      row_get "Gas Cost (ETH)" r
      = Some (PFloat (py_round (gas_cost_of (gasUsed rc) p) 6)) ->
      run_log contract sender seq indices rows log ->
      run_log contract sender seq (i :: indices) (r :: rows)
        (run_events contract sender i (id s) t0 h rc t1 p ++ log).

(** The arguments of the decisions submitted, oldest first. *)
Fixpoint decisions_submitted (log : list event) : list (Z * Z) :=
  match log with
  | [] => []
  | EvExecuteDecision _ proposal_id dao_version _ _ :: log' =>
      (proposal_id, dao_version) :: decisions_submitted log'
  | _ :: log' => decisions_submitted log'
  end.

(** The generation id of run [i]: 1, 2, 3, 1, 2, 3, ... *)
Definition dao_id_for (i : Z) : Z := (i - 1) mod 3 + 1.

(** ** Reading a log of any execution *)

Definition raised {A} (a : result A) : option exn :=
  match a with Raise e => Some e | _ => None end.

(** The exception a call answered with, when it did. *)
Definition event_error (ev : event) : option exn :=
  match ev with
  | EvIsConnected _ | EvTime _ => None
  | EvAccounts a => raised a
  | EvGasPrice a => raised a
  | EvWaitReceipt _ a => raised a
  | EvDeploy _ _ _ a => raised a
  | EvExecuteDecision _ _ _ _ a => raised a
  | EvInstallSolc _ a => raised a
  | EvCompile _ _ a => raised a
  | EvMkdir _ a => raised a
  | EvToExcel _ _ a => raised a
  end.

(** The exception that the last call of a log answered with. *)
Definition last_error (log : list event) : option exn :=
  last log ≫= event_error.

(** The contract and the sender of each decision submitted, oldest first. *)
Fixpoint decision_targets (log : list event)
  : list (contract_handle * address) :=
  match log with
  | [] => []
  | EvExecuteDecision contract _ _ sender _ :: log' =>
      (contract, sender) :: decision_targets log'
  | _ :: log' => decision_targets log'
  end.

(** The two errors that [run_full] raises itself, each with the calls made
    when it is raised. *)
Definition startup_failure (e : exn) (evs : list event) : Prop :=
  e = ConnectionError "Could not connect to Ganache." /\
  evs = [EvIsConnected false] \/
  e = RuntimeError "No accounts available in Ganache." /\
  evs = [EvIsConnected true; EvAccounts (Ok [])].

(** ** A ledger that cooperates, and a sampler that returns *)

Section Cooperation.
Context {W : Type} {CO : Collaborators W}.

(** From every world of [P] the call answers with a value, and this value
    and the world it leaves satisfy [Q]. *)
Definition leads {A} (P : W -> Prop) (f : W -> result A * W)
    (Q : A -> W -> Prop) : Prop :=
  forall w, P w -> exists a, fst (f w) = Ok a /\ Q a (snd (f w)).

(** The states of the dialogue of [run_full] with its ledger.
    [up]: the node answers and nothing is deployed yet by this execution;
    [deploying h abi]: the deployment was sent as transaction [h];
    [serving c k]: the contract behind [c] accepts [k] more decisions;
    [deciding c k h]: a decision was sent as transaction [h], and [k] more
    will be accepted after it. *)
Record dialogue : Type := {
  up : W -> Prop;
  deploying : tx_hash -> string -> W -> Prop;
  serving : contract_handle -> nat -> W -> Prop;
  deciding : contract_handle -> nat -> tx_hash -> W -> Prop
}.

(** The ledger keeps its part of the dialogue over [n] runs: in each state
    the calls that [run_full] makes there are answered and lead to the
    next state.  Nothing is asked of a call made in another state, or with
    other arguments: a receipt is only promised for a transaction just
    sent, and a decision only accepted for a run between 1 and [n] and a
    generation between 1 and 3. *)
Definition cooperative (n : Z) (d : dialogue) : Prop :=
  (forall w, up d w ->
     fst (w3_is_connected w) = true /\ up d (snd (w3_is_connected w))) /\
  leads (up d) w3_eth_accounts (fun accounts w => accounts <> [] /\ up d w) /\
  (forall version, leads (up d) (install_solc version) (fun _ => up d)) /\
  (forall source version,
     leads (up d) (compile_standard source version) (fun _ => up d)) /\
  (forall abi bytecode sender,
     leads (up d) (constructor_transact abi bytecode sender)
       (fun h => deploying d h abi)) /\
  (forall h abi,
     leads (deploying d h abi) (w3_eth_wait_for_transaction_receipt h)
       (fun rc =>
          serving d {| contract_address := contractAddress rc;
                       contract_abi := abi |} (Z.to_nat n))) /\
  (forall c k path,
     leads (serving d c k) (path_mkdir path) (fun _ => serving d c k)) /\
  (forall c k w, serving d c k w -> serving d c k (snd (time_time w))) /\
  (forall c k i v sender, 1 <= i <= n -> 1 <= v <= 3 ->
     leads (serving d c (S k)) (executeDecision_transact c i v sender)
       (fun h => deciding d c k h)) /\
  (forall c k h,
     leads (deciding d c k h) (w3_eth_wait_for_transaction_receipt h)
       (fun _ => serving d c k)) /\
  (forall c k, leads (serving d c k) w3_eth_gas_price (fun _ => serving d c k)) /\
  (forall c rows path,
     leads (serving d c 0) (to_excel rows path) (fun _ _ => True)).
End Cooperation.

Arguments dialogue : clear implicits.

(** The generator states in [good] are those from which, with [fuel]
    unrollings, the five draws of a run land in their ranges, for each
    profile, leaving a state of [good] again; seeding gives one. *)
Definition sampler_returns {R : Type} {RS : RandomSource R} (fuel : nat)
    (seed : Z) (good : R -> Prop) : Prop :=
  good (random_seed seed) /\
  forall label s r, DAO_STATS !! label = Some s -> good r ->
    exists m, fst (synthesize fuel s r) = Ok m /\
              good (snd (synthesize fuel s r)).

(** ** Concrete inputs *)

Module Demo.

(** A generator whose every draw is the mean. *)
Definition quiet : RandomSource (list Q) := scripted (fun _ => []).

Definition sender : address := 7.

(** The chain once [DAOGovernance] is deployed, and the handle on it. *)
Definition deployed : Ganache.chain :=
  snd (Ganache.deploy "abi" "6080" sender Ganache.fresh).

Definition contract : contract_handle :=
  {| contract_address := 1000; contract_abi := "abi" |}.

Definition ready (script : list Q) : state (list Q) Ganache.chain :=
  {| rng := script; world := deployed |}.

(** The same node with its calls logged. *)
Definition logged : Collaborators (Ganache.chain * list event) :=
  Logged Ganache.chain (CO := Ganache.node).

Definition start (c : Ganache.chain) : state (list Q) (Ganache.chain * list event) :=
  {| rng := []; world := (c, []) |}.

(** What [simulate_one] returns for run 1 from [ready []] when every draw is
    the mean, and the state it leaves. *)
Definition first_row : row :=
  [ ("Simulation ID", PInt 1);
    ("DAO Gen", PStr "DAO 1.0");
    ("Latency (s)", PFloat (Qred 15.8));
    ("Compliance (%)", PFloat 71);
    ("Gas Cost (ETH)", PFloat (Qred 0.00226));
    ("Off-Chain Cost", PInt 300);
    ("Total Cost (AED)", PInt 119000);
    ("Decision Outcome", PStr "Accepted");
    ("ROI (%)", PFloat (Qred 1.02));
    ("Compliance Violation", PStr "Y") ].

Definition after_first : state (list Q) Ganache.chain :=
  snd (simulate_one (RS := quiet) (CO := Ganache.node)
         1 contract 1 "DAO 1.0" sender (ready [])).

(** Run 2 when the compliance draw lies one standard deviation below the
    mean of DAO 2.0, that is at 80.0 exactly. *)
Definition threshold_row : row :=
  [ ("Simulation ID", PInt 2);
    ("DAO Gen", PStr "DAO 2.0");
    ("Latency (s)", PFloat (Qred 9.4));
    ("Compliance (%)", PFloat 80);
    ("Gas Cost (ETH)", PFloat (Qred 0.00226));
    ("Off-Chain Cost", PInt 300);
    ("Total Cost (AED)", PInt 90000);
    ("Decision Outcome", PStr "Accepted");
    ("ROI (%)", PFloat 4);
    ("Compliance Violation", PStr "N") ].

Definition after_threshold : state (list Q) Ganache.chain :=
  snd (simulate_one (RS := quiet) (CO := Ganache.node)
         1 contract 2 "DAO 2.0" sender (ready [0; -1]%Q)).

(** Run 2 when the compliance draw is 83.0 - 1.01 * 3.0 = 79.97. *)
Definition dip_script : list Q := [0; -1.01; 0; 0; 0]%Q.

Definition dip_row : row :=
  [ ("Simulation ID", PInt 2);
    ("DAO Gen", PStr "DAO 2.0");
    ("Latency (s)", PFloat (Qred 9.4));
    ("Compliance (%)", PFloat 80);
    ("Gas Cost (ETH)", PFloat (Qred 0.00226));
    ("Off-Chain Cost", PInt 300);
    ("Total Cost (AED)", PInt 90000);
    ("Decision Outcome", PStr "Accepted");
    ("ROI (%)", PFloat 4);
    ("Compliance Violation", PStr "Y") ].

Definition after_dip : state (list Q) Ganache.chain :=
  snd (simulate_one (RS := quiet) (CO := Ganache.node)
         1 contract 2 "DAO 2.0" sender (ready dip_script)).

(** Run 1 on a chain where a decision uses 113125 gas: at 20 gwei the
    cost is 0.0022625 in exact arithmetic, half-way between two values of
    6 decimals, and the float that the division gives lies above it. *)
Definition tie_ready : state (list Q) Ganache.chain :=
  {| rng := []; world := Ganache.with_gas_decision 113125 deployed |}.

Definition tie_row : row :=
  [ ("Simulation ID", PInt 1);
    ("DAO Gen", PStr "DAO 1.0");
    ("Latency (s)", PFloat (Qred 15.8));
    ("Compliance (%)", PFloat 71);
    ("Gas Cost (ETH)", PFloat (Qred 0.002263));
    ("Off-Chain Cost", PInt 300);
    ("Total Cost (AED)", PInt 119000);
    ("Decision Outcome", PStr "Accepted");
    ("ROI (%)", PFloat (Qred 1.02));
    ("Compliance Violation", PStr "Y") ].

Definition after_tie : state (list Q) Ganache.chain :=
  snd (simulate_one (RS := quiet) (CO := Ganache.node)
         1 contract 1 "DAO 1.0" sender tie_ready).

(** The states that [run_full] over 3 and over 6 runs leaves, from a fresh
    node with an empty log, every draw being the mean. *)
Definition after_three : state (list Q) (Ganache.chain * list event) :=
  snd (run_all (RS := quiet) (CO := logged) 1 42 3 (start Ganache.fresh)).

Definition after_six : state (list Q) (Ganache.chain * list event) :=
  snd (run_all (RS := quiet) (CO := logged) 1 42 6 (start Ganache.fresh)).

(** A generator whose stream for seed 42 opens thirty standard deviations
    above the mean, so that the first latency draw is refused. *)
Definition noisy : RandomSource (list Q) :=
  scripted (fun seed => if seed =? 42 then [30; 0.5; -1; 0.25; 0; 1]%Q else []).

(** Two executions of three runs under [noisy]: one on the fresh node, one
    on the busy node, started with another generator state and unrolled
    deeper. *)
Definition noisy_on_fresh : state (list Q) (Ganache.chain * list event) :=
  snd (run_all (RS := noisy) (CO := logged) 2 42 3 (start Ganache.fresh)).

Definition busy_start : state (list Q) (Ganache.chain * list event) :=
  {| rng := [1]%Q; world := (Ganache.busy, [EvTime 0]) |}.

Definition noisy_on_busy : state (list Q) (Ganache.chain * list event) :=
  snd (run_all (RS := noisy) (CO := logged) 5 42 3 busy_start).

(** The node behind a connection that can fail: the compiler may be
    missing, and the transaction of run [bad_run] times out. *)
Definition faulty (solc : bool) (bad_run : Z) : Collaborators Ganache.chain := {|
  w3_is_connected c := (Ganache.reachable c, c);
  w3_eth_accounts c := (Ok (Ganache.accounts c), c);
  w3_eth_gas_price c := (Ok (Ganache.gas_price c), c);
  w3_eth_wait_for_transaction_receipt := Ganache.wait_for_receipt;
  constructor_transact := Ganache.deploy;
  executeDecision_transact h proposal_id dao_version sender c :=
    if proposal_id =? bad_run then (Raise (CollaboratorError "timeout"), c)
    else Ganache.executeDecision h proposal_id dao_version sender c;
  install_solc _ c :=
    if solc then (Ok tt, c) else (Raise (CollaboratorError "no solc"), c);
  compile_standard _ _ c := (Ok ("abi", "6080"), c);
  time_time := Ganache.tick;
  path_mkdir _ c := (Ok tt, c);
  to_excel := Ganache.write_table
|}.

(** Five runs of which the third times out, and an execution without
    compiler. *)
Definition after_timeout : state (list Q) (Ganache.chain * list event) :=
  snd (run_all (RS := quiet) (CO := Logged Ganache.chain (CO := faulty true 3))
         1 42 5 (start Ganache.fresh)).

Definition after_no_solc : state (list Q) (Ganache.chain * list event) :=
  snd (run_all (RS := noisy) (CO := Logged Ganache.chain (CO := faulty false 3))
         2 42 5 busy_start).

(** The dialogue as the single-node chain sees it. *)
Definition node_dialogue : dialogue Ganache.chain := {|
  up c := Ganache.reachable c = true /\ Ganache.accounts c <> [];
  deploying h abi c :=
    Ganache.reachable c = true /\ 0 <= h /\
    exists rc, py_index (Ganache.receipts c) h = Some rc /\
               Ganache.deployed_at c = Some (contractAddress rc) /\
               Ganache.decisionCount c = 0;
  serving handle k c :=
    Ganache.reachable c = true /\
    Ganache.deployed_at c = Some (contract_address handle) /\
    0 <= Ganache.decisionCount c /\
    Ganache.decisionCount c + Z.of_nat k <= Ganache.uint256_max;
  deciding handle k h c :=
    (Ganache.reachable c = true /\
     Ganache.deployed_at c = Some (contract_address handle) /\
     0 <= Ganache.decisionCount c /\
     Ganache.decisionCount c + Z.of_nat k <= Ganache.uint256_max) /\
    0 <= h /\ exists rc, py_index (Ganache.receipts c) h = Some rc
|}.

(** The states of the generator [noisy] met between two runs: the whole
    script of seed 42, or nothing left of it. *)
Definition noisy_between_runs (r : list Q) : Prop :=
  r = [30; 0.5; -1; 0.25; 0; 1]%Q \/ r = [].

End Demo.

(** * Properties *)

(** ** Comparisons *)

Lemma Qltb_lt x y : Qltb x y = true <-> (x < y)%Q.
Proof.
  unfold Qltb. rewrite negb_true_iff.
  split; intros H.
  - apply Qnot_le_lt. intros Hle. apply Qle_bool_iff in Hle. congruence.
  - destruct (Qle_bool y x) eqn:E; [|reflexivity].
    apply Qle_bool_iff in E. exfalso. apply (Qlt_not_le _ _ H E).
Qed.

Lemma Qltb_ge x y : Qltb x y = false <-> (y <= x)%Q.
Proof.
  unfold Qltb. rewrite negb_false_iff. apply Qle_bool_iff.
Qed.

(** ** Rounding *)

Lemma round_half_even_floor q :
  round_half_even q = Qfloor q \/ round_half_even q = Qfloor q + 1.
Proof.
  unfold round_half_even.
  destruct (q - inject_Z (Qfloor q) ?= 1 # 2)%Q; auto.
  destruct (Z.even (Qfloor q)); auto.
Qed.

(** Rounding never crosses an integer: a lower integer bound is kept. *)
Lemma round_half_even_lower (a : Z) (q : Q) :
  (inject_Z a <= q)%Q -> a <= round_half_even q.
Proof.
  intros Ha.
  assert (Hf : a <= Qfloor q).
  { rewrite <- (Qfloor_Z a). now apply Qfloor_resp_le. }
  destruct (round_half_even_floor q) as [-> | ->]; lia.
Qed.

(** ... and so is an upper integer bound. *)
Lemma round_half_even_upper (b : Z) (q : Q) :
  (q <= inject_Z b)%Q -> round_half_even q <= b.
Proof.
  intros Hb.
  assert (Hf : Qfloor q <= b).
  { rewrite <- (Qfloor_Z b). now apply Qfloor_resp_le. }
  destruct (Z.eq_dec (Qfloor q) b) as [Heq | Hne].
  - unfold round_half_even.
    destruct (Qcompare_spec (q - inject_Z (Qfloor q)) (1 # 2)) as [H | H | H];
      try lia; rewrite Heq in H; exfalso; lra.
  - destruct (round_half_even_floor q) as [-> | ->]; lia.
Qed.

Lemma pow10_pos (n : nat) : 0 < 10 ^ Z.of_nat n.
Proof. apply Z.pow_pos_nonneg; lia. Qed.

Lemma py_round_value (x : Q) (n : nat) :
  (py_round x n
   == inject_Z (round_half_even (x * inject_Z (10 ^ Z.of_nat n)))
      / inject_Z (10 ^ Z.of_nat n))%Q.
Proof.
  unfold py_round. rewrite Qred_correct, Qmake_Qdiv.
  rewrite Z2Pos.id by apply pow10_pos. reflexivity.
Qed.

Lemma Qdiv_cancel (a D : Q) : (0 < D)%Q -> (a / D * D == a)%Q.
Proof.
  intros HD. unfold Qdiv.
  rewrite <- Qmult_assoc, (Qmult_comm (/ D)), Qmult_inv_r, Qmult_1_r;
    [reflexivity | lra].
Qed.

(** Bounds that are multiples of [10^-n] survive rounding to [n] digits. *)
Lemma py_round_between (x lo hi : Q) (n : nat) (a b : Z) :
  (lo == inject_Z a / inject_Z (10 ^ Z.of_nat n))%Q ->
  (hi == inject_Z b / inject_Z (10 ^ Z.of_nat n))%Q ->
  (lo <= x <= hi)%Q ->
  (lo <= py_round x n <= hi)%Q.
Proof.
  intros Hlo Hhi [Hl Hh].
  pose proof (pow10_pos n) as Hp.
  assert (HP : (0 < inject_Z (10 ^ Z.of_nat n))%Q).
  { change 0%Q with (inject_Z 0). now rewrite <- Zlt_Qlt. }
  set (D := inject_Z (10 ^ Z.of_nat n)) in *.
  assert (Hinv : (0 <= / D)%Q) by (apply Qinv_le_0_compat; lra).
  assert (Ha : (inject_Z a <= x * D)%Q).
  { rewrite Hlo in Hl. rewrite <- (Qdiv_cancel (inject_Z a) D HP).
    apply Qmult_le_compat_r; [exact Hl | lra]. }
  assert (Hb : (x * D <= inject_Z b)%Q).
  { rewrite Hhi in Hh. rewrite <- (Qdiv_cancel (inject_Z b) D HP).
    apply Qmult_le_compat_r; [exact Hh | lra]. }
  apply round_half_even_lower in Ha. apply round_half_even_upper in Hb.
  rewrite py_round_value, Hlo, Hhi. fold D.
  split; unfold Qdiv; apply Qmult_le_compat_r; auto; now rewrite <- Zle_Qle.
Qed.

Lemma round_half_even_nearest q : nearest_integer q (round_half_even q).
Proof.
  unfold nearest_integer, round_half_even.
  pose proof (Qfloor_le q) as Hlo. pose proof (Qlt_floor q) as Hhi.
  rewrite inject_Z_plus in Hhi. change (inject_Z 1) with 1%Q in Hhi.
  apply Qabs_Qle_condition.
  destruct (Qcompare_spec (q - inject_Z (Qfloor q)) (1 # 2)) as [H | H | H];
    [destruct (Z.even (Qfloor q))| |];
    rewrite ?inject_Z_plus; change (inject_Z 1) with 1%Q;
    set (f := inject_Z (Qfloor q)) in *; split; lra.
Qed.

Lemma py_round_rounded x n : rounded_to n x (py_round x n).
Proof.
  pose proof (pow10_pos n) as Hp.
  assert (HP : (0 < inject_Z (10 ^ Z.of_nat n))%Q).
  { change 0%Q with (inject_Z 0). now rewrite <- Zlt_Qlt. }
  split.
  - eexists. apply py_round_value.
  - rewrite py_round_value.
    set (D := inject_Z (10 ^ Z.of_nat n)) in *.
    pose proof (round_half_even_nearest (x * D)) as Hn.
    unfold nearest_integer in Hn. apply Qabs_Qle_condition in Hn.
    apply Qabs_Qle_condition.
    set (k := inject_Z (round_half_even (x * D))) in *.
    assert (Hinv : (0 < / D)%Q) by (apply Qinv_lt_0_compat; lra).
    assert (E1 : (k / D - x == (k - x * D) * / D)%Q) by (field; lra).
    assert (E2 : ((1 # 2) / D == (1 # 2) * / D)%Q) by reflexivity.
    rewrite E1, E2.
    destruct Hn as [Hn1 Hn2]. split.
    + assert (E3 : (- ((1 # 2) * / D) == (- (1 # 2)) * / D)%Q) by ring.
      rewrite E3. apply Qmult_le_compat_r; lra.
    + apply Qmult_le_compat_r; lra.
Qed.

(** ** The rejection loop *)

Section SamplerFacts.
Context {R : Type} {RS : RandomSource R}.
Variables mu sigma low high : Q.

#[local] Abbreviation accepted := (accepted low high).
#[local] Abbreviation nth_draw := (nth_draw mu sigma).

Lemma accepted_iff x : accepted x = true <-> (low <= x <= high)%Q.
Proof.
  unfold accepted. rewrite andb_true_iff, !Qle_bool_iff. tauto.
Qed.

Lemma truncated_normal_step fuel r :
  truncated_normal (S fuel) mu sigma low high r
  = if accepted (fst (random_gauss mu sigma r))
    then (Ok (fst (random_gauss mu sigma r)), snd (random_gauss mu sigma r))
    else truncated_normal fuel mu sigma low high (snd (random_gauss mu sigma r)).
Proof.
  simpl. unfold accepted. now destruct (random_gauss mu sigma r).
Qed.

(** Partial correctness: what is returned was accepted by the guard. *)
Lemma truncated_normal_in_range fuel r x r' :
  truncated_normal fuel mu sigma low high r = (Ok x, r') ->
  (low <= x <= high)%Q.
Proof.
  revert r. induction fuel as [|fuel IH]; intros r; [discriminate|].
  rewrite truncated_normal_step.
  destruct (accepted (fst (random_gauss mu sigma r))) eqn:E.
  - intros [= <- _]. now apply accepted_iff.
  - apply IH.
Qed.

(** The loop itself raises nothing. *)
Lemma truncated_normal_no_raise fuel r e r' :
  truncated_normal fuel mu sigma low high r <> (Raise e, r').
Proof.
  revert r. induction fuel as [|fuel IH]; intros r; [discriminate|].
  rewrite truncated_normal_step.
  destruct (accepted (fst (random_gauss mu sigma r))); [discriminate | apply IH].
Qed.

(** More fuel does not change a result. *)
Lemma truncated_normal_fuel_mono fuel fuel' r x r' :
  (fuel <= fuel')%nat ->
  truncated_normal fuel mu sigma low high r = (Ok x, r') ->
  truncated_normal fuel' mu sigma low high r = (Ok x, r').
Proof.
  revert fuel' r. induction fuel as [|fuel IH]; intros fuel' r Hle; [discriminate|].
  destruct fuel' as [|fuel']; [lia|].
  rewrite !truncated_normal_step.
  destruct (accepted (fst (random_gauss mu sigma r))); [auto|].
  apply IH. lia.
Qed.

(** Total correctness: if the first accepted draw is the [k]-th, the call
    returns it, having consumed [k + 1] draws, whenever the unrolling is
    deep enough. *)
Lemma truncated_normal_returns k fuel r :
  (forall j, (j < k)%nat -> accepted (fst (nth_draw j r)) = false) ->
  accepted (fst (nth_draw k r)) = true ->
  (k < fuel)%nat ->
  truncated_normal fuel mu sigma low high r
  = (Ok (fst (nth_draw k r)), snd (nth_draw k r)).
Proof.
  revert fuel r. induction k as [|k IH]; intros fuel r Hrej Hacc Hlt;
    (destruct fuel as [|fuel]; [lia|]); rewrite truncated_normal_step.
  - simpl in Hacc. now rewrite Hacc.
  - pose proof (Hrej 0%nat ltac:(lia)) as H0. simpl in H0. rewrite H0.
    apply IH; [|assumption|lia].
    intros j Hj. apply (Hrej (S j)). lia.
Qed.

(** ... and if no draw is ever accepted, no unrolling returns. *)
Lemma truncated_normal_diverges fuel r :
  (forall j, accepted (fst (nth_draw j r)) = false) ->
  fst (truncated_normal fuel mu sigma low high r) = Diverge.
Proof.
  revert r. induction fuel as [|fuel IH]; intros r Hrej; [reflexivity|].
  pose proof (Hrej 0%nat) as H0. simpl in H0.
  rewrite truncated_normal_step, H0. apply IH.
  intros j. apply (Hrej (S j)).
Qed.

(** Conversely a call that returns did so at its first accepted draw. *)
Lemma truncated_normal_first fuel r x r' :
  truncated_normal fuel mu sigma low high r = (Ok x, r') ->
  exists k, (k < fuel)%nat /\ nth_draw k r = (x, r') /\
            accepted x = true /\
            forall j, (j < k)%nat -> accepted (fst (nth_draw j r)) = false.
Proof.
  revert r. induction fuel as [|fuel IH]; intros r; [discriminate|].
  rewrite truncated_normal_step.
  destruct (accepted (fst (random_gauss mu sigma r))) eqn:E.
  - intros [= <- <-]. exists 0%nat. simpl.
    repeat split; [lia | now destruct (random_gauss mu sigma r) | exact E | lia].
  - intros Hrec. destruct (IH _ Hrec) as (k & Hk & Hd & Ha & Hrej).
    exists (S k). simpl. repeat split; [lia | exact Hd | exact Ha |].
    intros [|j] Hj; [exact E | apply Hrej; lia].
Qed.

Lemma empty_range_rejects x : (high < low)%Q -> accepted x = false.
Proof.
  intros Hlt. destruct (accepted x) eqn:E; [|reflexivity].
  apply accepted_iff in E. lra.
Qed.
End SamplerFacts.

(** ** [simulate_one] is the composition of its stages *)

Section StagesFacts.
Context {R : Type} {RS : RandomSource R} {W : Type} {CO : Collaborators W}.
#[local] Open Scope engine_scope.

Lemma simulate_one_stages fuel contract idx label sender st :
  simulate_one fuel contract idx label sender st
  = staged fuel contract idx label sender st.
Proof.
  unfold simulate_one, staged, dict_item.
  destruct (DAO_STATS !! label) as [s|]; [|reflexivity].
  unfold orchestrate, synthesize, lift_total, lift_world, lift_rng, total,
    bind, ret.
  destruct st as [r w]; simpl.
  destruct (time_time w) as [t0 w1]; simpl.
  destruct (executeDecision_transact contract idx (id s) sender w1)
    as [[h| |] w2]; simpl; try reflexivity.
  destruct (w3_eth_wait_for_transaction_receipt h w2)
    as [[rc| |] w3]; simpl; try reflexivity.
  destruct (time_time w3) as [t1 w4]; simpl.
  destruct (w3_eth_gas_price w4) as [[p| |] w5]; simpl; try reflexivity.
  destruct (truncated_normal fuel (lat_mean s) (lat_std s) LATENCY_MIN
              LATENCY_MAX r) as [[lat| |] r1]; simpl; try reflexivity.
  destruct (truncated_normal fuel (comp_mean s) (comp_std s)
              (inject_Z COMPLIANCE_MIN) (inject_Z COMPLIANCE_MAX) r1)
    as [[comp| |] r2]; simpl; try reflexivity.
  destruct (truncated_normal fuel (inject_Z OFFCHAIN_MEAN)
              (inject_Z OFFCHAIN_STD) (inject_Z OFFCHAIN_MIN)
              (inject_Z OFFCHAIN_MAX) r2)
    as [[off| |] r3]; simpl; try reflexivity.
  destruct (truncated_normal fuel (inject_Z (total_cost_mean s))
              (inject_Z (total_cost_std s))
              (inject_Z (total_cost_mean s - 3 * total_cost_std s))
              (inject_Z (total_cost_mean s + 3 * total_cost_std s)) r3)
    as [[tot| |] r4]; simpl; try reflexivity.
  destruct (truncated_normal fuel (roi_mean s) (roi_std s) ROI_MIN ROI_MAX r4)
    as [[roi| |] r5]; simpl; reflexivity.
Qed.
End StagesFacts.

(** ** Reading a successful computation backwards *)

Lemma bind_Ok {S A B} (m : M S A) (k : A -> M S B) s b s' :
  bind m k s = (Ok b, s') ->
  exists a s1, m s = (Ok a, s1) /\ k a s1 = (Ok b, s').
Proof.
  unfold bind. destruct (m s) as [[a|e|] s1]; try discriminate. eauto.
Qed.

Lemma ret_Ok {S A} (a b : A) (s s' : S) :
  ret a s = (Ok b, s') -> b = a /\ s' = s.
Proof. unfold ret. now intros [= -> ->]. Qed.

Lemma total_Ok {S A} (f : S -> A * S) s a s' :
  total f s = (Ok a, s') -> f s = (a, s').
Proof. unfold total. destruct (f s). now intros [= -> ->]. Qed.

Lemma dict_item_Ok {S A} (d : gmap string A) k (s : S) v s' :
  dict_item d k s = (Ok v, s') -> d !! k = Some v /\ s' = s.
Proof.
  unfold dict_item. destruct (d !! k); [|discriminate].
  unfold ret. now intros [= -> ->].
Qed.

Lemma list_item_Ok {S A} (l : list A) i (s : S) v s' :
  list_item l i s = (Ok v, s') -> py_index l i = Some v /\ s' = s.
Proof.
  unfold list_item. destruct (py_index l i); [|discriminate].
  unfold ret. now intros [= -> ->].
Qed.

Ltac bind_inv H :=
  let a := fresh "a" in
  let s := fresh "s" in
  let H1 := fresh H in
  apply bind_Ok in H; destruct H as (a & s & H1 & H).

Tactic Notation "unbind" hyp(H) "as" simple_intropattern(a) ident(s) ident(H1) :=
  apply bind_Ok in H; destruct H as (a & s & H1 & H).

Section Inversion.
Context {R : Type} {RS : RandomSource R} {W : Type} {CO : Collaborators W}.

Lemma lift_world_Ok {A} (f : M W A) (st st' : state R W) a :
  lift_world f st = (Ok a, st') ->
  f (world st) = (Ok a, world st') /\ rng st' = rng st.
Proof.
  unfold lift_world. destruct (f (world st)) as [x w'].
  now intros [= -> <-].
Qed.

Lemma lift_rng_Ok {A} (f : M R A) (st st' : state R W) a :
  lift_rng f st = (Ok a, st') ->
  f (rng st) = (Ok a, rng st') /\ world st' = world st.
Proof.
  unfold lift_rng. destruct (f (rng st)) as [x r'].
  now intros [= -> <-].
Qed.

(** What the ledger was asked, in order, when a run's ledger stage
    succeeds. *)
Lemma orchestrate_Ok contract proposal_id dao_id sender w rc p w' :
  orchestrate contract proposal_id dao_id sender w = (Ok (rc, p), w') ->
  exists t0 w1 h w2 w3 t1 w4,
    time_time w = (t0, w1) /\
    executeDecision_transact contract proposal_id dao_id sender w1
      = (Ok h, w2) /\
    w3_eth_wait_for_transaction_receipt h w2 = (Ok rc, w3) /\
    time_time w3 = (t1, w4) /\
    w3_eth_gas_price w4 = (Ok p, w').
Proof.
  unfold orchestrate. intros H.
  bind_inv H. apply total_Ok in H0.
  bind_inv H. bind_inv H. bind_inv H. apply total_Ok in H3.
  bind_inv H. apply ret_Ok in H as [[= -> ->] ->].
  repeat eexists; eassumption.
Qed.

(** The five calls of the sampler behind a run's metrics, in order. *)
Lemma synthesize_Ok fuel s r m r' :
  synthesize fuel s r = (Ok m, r') ->
  exists r1 r2 r3 r4,
    truncated_normal fuel (lat_mean s) (lat_std s) LATENCY_MIN LATENCY_MAX r
      = (Ok (m_lat m), r1) /\
    truncated_normal fuel (comp_mean s) (comp_std s)
      (inject_Z COMPLIANCE_MIN) (inject_Z COMPLIANCE_MAX) r1
      = (Ok (m_comp m), r2) /\
    truncated_normal fuel (inject_Z OFFCHAIN_MEAN) (inject_Z OFFCHAIN_STD)
      (inject_Z OFFCHAIN_MIN) (inject_Z OFFCHAIN_MAX) r2
      = (Ok (m_offchain m), r3) /\
    truncated_normal fuel (inject_Z (total_cost_mean s))
      (inject_Z (total_cost_std s))
      (inject_Z (total_cost_mean s - 3 * total_cost_std s))
      (inject_Z (total_cost_mean s + 3 * total_cost_std s)) r3
      = (Ok (m_total m), r4) /\
    truncated_normal fuel (roi_mean s) (roi_std s) ROI_MIN ROI_MAX r4
      = (Ok (m_roi m), r').
Proof.
  unfold synthesize. intros H.
  bind_inv H. bind_inv H. bind_inv H. bind_inv H. bind_inv H.
  apply ret_Ok in H as [-> ->]. simpl.
  repeat eexists; eassumption.
Qed.

(** A run that returns a row went through its three stages. *)
Lemma simulate_one_Ok fuel contract idx label sender st row st' :
  simulate_one fuel contract idx label sender st = (Ok row, st') ->
  exists s rc p m,
    DAO_STATS !! label = Some s /\
    orchestrate contract idx (id s) sender (world st)
      = (Ok (rc, p), world st') /\
    synthesize fuel s (rng st) = (Ok m, rng st') /\
    row = build_record idx label (gasUsed rc) p m.
Proof.
  rewrite simulate_one_stages. unfold staged. intros H.
  bind_inv H. apply dict_item_Ok in H0 as [Hs ->].
  bind_inv H. apply lift_world_Ok in H0 as [Hled Hr].
  bind_inv H. apply lift_rng_Ok in H0 as [Hm Hw].
  apply ret_Ok in H as [-> ->].
  destruct a0 as [rc p]. exists a, rc, p, a1. simpl.
  rewrite Hw, <- Hr. auto.
Qed.
End Inversion.

(** ** Classification *)

Lemma violation_of_Y comp : violation_of comp = "Y" <-> (comp < 80.0)%Q.
Proof.
  unfold violation_of, COMPLIANCE_VIOLATION_THRESHOLD.
  destruct (Qltb comp 80.0) eqn:E.
  - apply Qltb_lt in E. tauto.
  - apply Qltb_ge in E. split; [discriminate | lra].
Qed.

Lemma violation_of_N comp : violation_of comp = "N" <-> (80.0 <= comp)%Q.
Proof.
  unfold violation_of, COMPLIANCE_VIOLATION_THRESHOLD.
  destruct (Qltb comp 80.0) eqn:E.
  - apply Qltb_lt in E. split; [discriminate | lra].
  - apply Qltb_ge in E. tauto.
Qed.

Lemma outcome_of_Rejected roi comp :
  outcome_of roi comp = "Rejected" <-> (roi < 0 \/ comp < 65)%Q.
Proof.
  unfold outcome_of.
  destruct (Qltb roi 0) eqn:E1; destruct (Qltb comp 65) eqn:E2; simpl;
    try apply Qltb_lt in E1; try apply Qltb_lt in E2;
    try apply Qltb_ge in E1; try apply Qltb_ge in E2;
    (split; [intros H; try discriminate; auto | intros [H | H]; try reflexivity; lra]).
Qed.

Lemma outcome_of_Accepted roi comp :
  outcome_of roi comp = "Accepted" <-> (0 <= roi /\ 65 <= comp)%Q.
Proof.
  unfold outcome_of.
  destruct (Qltb roi 0) eqn:E1; destruct (Qltb comp 65) eqn:E2; simpl;
    try apply Qltb_lt in E1; try apply Qltb_lt in E2;
    try apply Qltb_ge in E1; try apply Qltb_ge in E2;
    (split; [intros H; try discriminate; auto | intros [H1 H2]; try reflexivity; lra]).
Qed.

(** ** Claims about one record *)

(** C1. Every terminating call of [truncated_normal(mu, sigma, low, high)]
    returns a value within [[low, high]]; hence in every record that
    [simulate_one] produces the stored latency lies in [[1.5, 19.0]], the
    stored compliance in [[60, 100]], the stored ROI in [[-0.5, 9.0]], the
    stored off-chain cost in [[170, 420]], and the stored total cost within
    three standard deviations of the mean of the profile the label selects. *)
Theorem C1_boundedness {R} {RS : RandomSource R} {W} {CO : Collaborators W}
    fuel contract idx label sender (st st' : state R W) (rec : row) :
  (forall mu sigma low high r x r',
      truncated_normal fuel mu sigma low high r = (Ok x, r') ->
      (low <= x <= high)%Q) /\
  (simulate_one fuel contract idx label sender st = (Ok rec, st') ->
   exists s lat comp roi off tot,
     DAO_STATS !! label = Some s /\
     row_get "Latency (s)" rec = Some (PFloat lat) /\
     (1.5 <= lat <= 19.0)%Q /\
     row_get "Compliance (%)" rec = Some (PFloat comp) /\
     (60 <= comp <= 100)%Q /\
     row_get "ROI (%)" rec = Some (PFloat roi) /\
     (-0.5 <= roi <= 9.0)%Q /\
     row_get "Off-Chain Cost" rec = Some (PInt off) /\
     170 <= off <= 420 /\
     row_get "Total Cost (AED)" rec = Some (PInt tot) /\
     total_cost_mean s - 3 * total_cost_std s <= tot
       <= total_cost_mean s + 3 * total_cost_std s).
Proof.
  split.
  { intros mu sigma low high r x r'. apply truncated_normal_in_range. }
  intros H.
  apply simulate_one_Ok in H as (s & rc & p & m & Hs & _ & Hm & ->).
  apply synthesize_Ok in Hm as (r1 & r2 & r3 & r4 & H1 & H2 & H3 & H4 & H5).
  apply truncated_normal_in_range in H1, H2, H3, H4, H5.
  exists s, (py_round (m_lat m) 2), (py_round (m_comp m) 1),
    (py_round (m_roi m) 2), (round_half_even (m_offchain m)),
    (round_half_even (m_total m)).
  split; [exact Hs|].
  split; [reflexivity|].
  split; [apply (py_round_between _ _ _ 2 150 1900); [reflexivity .. | exact H1]|].
  split; [reflexivity|].
  split; [apply (py_round_between _ _ _ 1 600 1000); [reflexivity .. | exact H2]|].
  split; [reflexivity|].
  split; [apply (py_round_between _ _ _ 2 (-50) 900); [reflexivity .. | exact H5]|].
  split; [reflexivity|].
  split.
  { split; [apply round_half_even_lower | apply round_half_even_upper];
      apply H3. }
  split; [reflexivity|].
  split; [apply round_half_even_lower | apply round_half_even_upper];
    apply H4.
Qed.

(** The first run on the demo chain, every draw being the mean. *)
Lemma C1_boundedness_witness :
  simulate_one (RS := Demo.quiet) (CO := Ganache.node)
    1 Demo.contract 1 "DAO 1.0" Demo.sender (Demo.ready [])
  = (Ok Demo.first_row, Demo.after_first) /\
  (1.5 <= 15.8 <= 19.0)%Q /\
  exists s lat comp roi off tot,
    DAO_STATS !! "DAO 1.0" = Some s /\
    row_get "Latency (s)" Demo.first_row = Some (PFloat lat) /\
    (1.5 <= lat <= 19.0)%Q /\
    row_get "Compliance (%)" Demo.first_row = Some (PFloat comp) /\
    (60 <= comp <= 100)%Q /\
    row_get "ROI (%)" Demo.first_row = Some (PFloat roi) /\
    (-0.5 <= roi <= 9.0)%Q /\
    row_get "Off-Chain Cost" Demo.first_row = Some (PInt off) /\
    170 <= off <= 420 /\
    row_get "Total Cost (AED)" Demo.first_row = Some (PInt tot) /\
    total_cost_mean s - 3 * total_cost_std s <= tot
      <= total_cost_mean s + 3 * total_cost_std s.
Proof.
  assert (Hrun : simulate_one (RS := Demo.quiet) (CO := Ganache.node)
                   1 Demo.contract 1 "DAO 1.0" Demo.sender (Demo.ready [])
                 = (Ok Demo.first_row, Demo.after_first))
    by (vm_compute; reflexivity).
  destruct (C1_boundedness (RS := Demo.quiet) (CO := Ganache.node)
              1 Demo.contract 1 "DAO 1.0" Demo.sender (Demo.ready [])
              Demo.after_first Demo.first_row) as [Hpost Hrec].
  split; [exact Hrun|]. split.
  - apply (Hpost 15.8 1.0 1.5 19.0 [] 15.8 [])%Q. reflexivity.
  - exact (Hrec Hrun).
Defined.

(** C2. In every record, Compliance Violation is Y exactly when the
    compliance drawn for the run is below 80.0 and N otherwise (so N at
    exactly 80.0), and Decision Outcome is Rejected exactly when the ROI
    drawn is below 0 or the compliance drawn below 65, and Accepted
    otherwise; the two fields depend on nothing else. *)
Theorem C2_classification {R} {RS : RandomSource R} {W} {CO : Collaborators W}
    fuel contract idx label sender (st st' : state R W) (rec : row) :
  simulate_one fuel contract idx label sender st = (Ok rec, st') ->
  exists s m,
    DAO_STATS !! label = Some s /\
    synthesize fuel s (rng st) = (Ok m, rng st') /\
    (row_get "Compliance Violation" rec = Some (PStr "Y")
       <-> (m_comp m < 80.0)%Q) /\
    (row_get "Compliance Violation" rec = Some (PStr "N")
       <-> (80.0 <= m_comp m)%Q) /\
    ((m_comp m == 80.0)%Q ->
       row_get "Compliance Violation" rec = Some (PStr "N")) /\
    (row_get "Decision Outcome" rec = Some (PStr "Rejected")
       <-> (m_roi m < 0 \/ m_comp m < 65)%Q) /\
    (row_get "Decision Outcome" rec = Some (PStr "Accepted")
       <-> (0 <= m_roi m /\ 65 <= m_comp m)%Q).
Proof.
  intros H.
  apply simulate_one_Ok in H as (s & rc & p & m & Hs & _ & Hm & ->).
  exists s, m. split; [exact Hs|]. split; [exact Hm|].
  change (row_get "Compliance Violation" (build_record idx label (gasUsed rc) p m))
    with (Some (PStr (violation_of (m_comp m)))).
  change (row_get "Decision Outcome" (build_record idx label (gasUsed rc) p m))
    with (Some (PStr (outcome_of (m_roi m) (m_comp m)))).
  assert (Hat : (m_comp m == 80.0)%Q -> violation_of (m_comp m) = "N").
  { intros E. apply violation_of_N. lra. }
  rewrite <- violation_of_Y, <- violation_of_N, <- outcome_of_Rejected,
    <- outcome_of_Accepted.
  repeat split; intros E; try congruence. now rewrite Hat.
Qed.

(** Run 2 with the compliance draw at 80.0 exactly: the flag is N. *)
Lemma C2_classification_witness :
  simulate_one (RS := Demo.quiet) (CO := Ganache.node)
    1 Demo.contract 2 "DAO 2.0" Demo.sender (Demo.ready [0; -1]%Q)
  = (Ok Demo.threshold_row, Demo.after_threshold) /\
  row_get "Compliance Violation" Demo.threshold_row = Some (PStr "N") /\
  row_get "Decision Outcome" Demo.threshold_row = Some (PStr "Accepted").
Proof.
  assert (Hrun : simulate_one (RS := Demo.quiet) (CO := Ganache.node)
                   1 Demo.contract 2 "DAO 2.0" Demo.sender
                   (Demo.ready [0; -1]%Q)
                 = (Ok Demo.threshold_row, Demo.after_threshold))
    by (vm_compute; reflexivity).
  split; [exact Hrun|].
  destruct (C2_classification (RS := Demo.quiet) (CO := Ganache.node)
              1 Demo.contract 2 "DAO 2.0" Demo.sender (Demo.ready [0; -1]%Q)
              Demo.after_threshold Demo.threshold_row Hrun)
    as (s & m & Hs & Hm & _ & _ & Hat & _ & Hacc).
  vm_compute in Hs. injection Hs as <-.
  vm_compute in Hm. injection Hm as <-.
  split; [apply Hat | apply Hacc]; vm_compute; intuition discriminate.
Defined.

(** C7, as the specification states it, fails: the fifth and seventh keys of
    a record are "Gas Cost (ETH)" and "Total Cost (AED)", not
    "Gas Cost (native unit)" and "Total Cost". *)
Lemma C7_columns_counterexample :
  simulate_one (RS := Demo.quiet) (CO := Ganache.node)
    1 Demo.contract 1 "DAO 1.0" Demo.sender (Demo.ready [])
  = (Ok Demo.first_row, Demo.after_first) /\
  row_keys Demo.first_row <> spec_columns.
Proof.
  split; [vm_compute; reflexivity | vm_compute; discriminate].
Qed.

(** C7, amended. Every record has exactly the ten keys Simulation ID,
    DAO Gen, Latency (s), Compliance (%), Gas Cost (ETH), Off-Chain Cost,
    Total Cost (AED), Decision Outcome, ROI (%), Compliance Violation, in
    this order; it stores the run index and the label as they are, the
    latency and the ROI rounded to 2 decimals, the compliance to 1 decimal,
    the gas cost to 6 decimals, and the off-chain and total cost as a
    nearest integer. *)
Theorem C7_columns_and_rounding {R} {RS : RandomSource R} {W}
    {CO : Collaborators W}
    fuel contract idx label sender (st st' : state R W) (rec : row) :
  simulate_one fuel contract idx label sender st = (Ok rec, st') ->
  row_keys rec = columns /\
  length rec = 10%nat /\
  exists s rc p m lat comp gas off tot roi outcome violation,
    DAO_STATS !! label = Some s /\
    orchestrate contract idx (id s) sender (world st)
      = (Ok (rc, p), world st') /\
    synthesize fuel s (rng st) = (Ok m, rng st') /\
    rec = [ ("Simulation ID", PInt idx);
            ("DAO Gen", PStr label);
            ("Latency (s)", PFloat lat);
            ("Compliance (%)", PFloat comp);
            ("Gas Cost (ETH)", PFloat gas);
            ("Off-Chain Cost", PInt off);
            ("Total Cost (AED)", PInt tot);
            ("Decision Outcome", PStr outcome);
            ("ROI (%)", PFloat roi);
            ("Compliance Violation", PStr violation) ] /\
    rounded_to 2 (m_lat m) lat /\
    rounded_to 1 (m_comp m) comp /\
    rounded_to 6 (gas_cost_of (gasUsed rc) p) gas /\
    nearest_integer (m_offchain m) off /\
    nearest_integer (m_total m) tot /\
    rounded_to 2 (m_roi m) roi.
Proof.
  intros H.
  apply simulate_one_Ok in H as (s & rc & p & m & Hs & Ho & Hm & ->).
  split; [reflexivity|]. split; [reflexivity|].
  exists s, rc, p, m.
  do 8 eexists. split; [exact Hs|]. split; [exact Ho|]. split; [exact Hm|].
  split; [reflexivity|].
  repeat split;
    first [apply py_round_rounded | apply round_half_even_nearest].
Qed.

Lemma C7_columns_and_rounding_witness :
  simulate_one (RS := Demo.quiet) (CO := Ganache.node)
    1 Demo.contract 1 "DAO 1.0" Demo.sender (Demo.ready [])
  = (Ok Demo.first_row, Demo.after_first) /\
  row_keys Demo.first_row = columns /\
  length Demo.first_row = 10%nat.
Proof.
  assert (Hrun : simulate_one (RS := Demo.quiet) (CO := Ganache.node)
                   1 Demo.contract 1 "DAO 1.0" Demo.sender (Demo.ready [])
                 = (Ok Demo.first_row, Demo.after_first))
    by (vm_compute; reflexivity).
  split; [exact Hrun|].
  destruct (C7_columns_and_rounding (RS := Demo.quiet) (CO := Ganache.node)
              1 Demo.contract 1 "DAO 1.0" Demo.sender (Demo.ready [])
              Demo.after_first Demo.first_row Hrun) as (Hk & Hl & _).
  split; assumption.
Defined.

(** C9. The gas cost stored in a record is [gasUsed * gas_price / 1e18]
    rounded to 6 decimals, where [gasUsed] is read from the receipt that
    [wait_for_transaction_receipt] returned for the hash of this run's
    [executeDecision] transaction, and [gas_price] is what the network
    answered after that.  The product is that of two [int]s; the division
    is the float division of line 177, made on the product converted to a
    float; it comes before the rounding, which is made on the float
    obtained.  (The conversion must be defined: Python raises where it is
    not.) *)
Theorem C9_gas_cost {R} {RS : RandomSource R} {W} {CO : Collaborators W}
    fuel contract idx label sender (st st' : state R W) (rec : row) :
  simulate_one fuel contract idx label sender st = (Ok rec, st') ->
  exists s t0 w1 h w2 rc w3 t1 w4 p,
    DAO_STATS !! label = Some s /\
    time_time (world st) = (t0, w1) /\
    executeDecision_transact contract idx (id s) sender w1 = (Ok h, w2) /\
    w3_eth_wait_for_transaction_receipt h w2 = (Ok rc, w3) /\
    time_time w3 = (t1, w4) /\
    w3_eth_gas_price w4 = (Ok p, world st') /\
    (float_is_finite (float_of_int (gasUsed rc * p)) = true ->
     row_get "Gas Cost (ETH)" rec
     = Some (PFloat
               (py_round
                  (float_value
                     (float_truediv (float_of_int (gasUsed rc * p))
                        (float_of_int (10 ^ 18)))) 6)) /\
     rounded_to 6
       (float_value
          (float_truediv (float_of_int (gasUsed rc * p))
             (float_of_int (10 ^ 18))))
       (py_round
          (float_value
             (float_truediv (float_of_int (gasUsed rc * p))
                (float_of_int (10 ^ 18)))) 6)).
Proof.
  intros H.
  apply simulate_one_Ok in H as (s & rc & p & m & Hs & Ho & _ & ->).
  apply orchestrate_Ok in Ho
    as (t0 & w1 & h & w2 & w3 & t1 & w4 & H0 & H1 & H2 & H3 & H4).
  exists s, t0, w1, h, w2, rc, w3, t1, w4, p.
  repeat (split; [eassumption|]).
  intros _. split; [reflexivity | apply py_round_rounded].
Qed.

(** A decision that uses 113125 gas at 20 gwei: the float quotient lies
    above 0.0022625, and 0.002263 is stored. *)
Lemma C9_gas_cost_witness :
  simulate_one (RS := Demo.quiet) (CO := Ganache.node)
    1 Demo.contract 1 "DAO 1.0" Demo.sender Demo.tie_ready
  = (Ok Demo.tie_row, Demo.after_tie) /\
  float_truediv (float_of_int (113125 * 20000000000)) (float_of_int (10 ^ 18))
  = SpecFloat.S754_finite false 5216969808345983 (-61) /\
  row_get "Gas Cost (ETH)" Demo.tie_row = Some (PFloat (Qred 0.002263)) /\
  exists rc p,
    gasUsed rc = 113125 /\ p = 20000000000 /\
    float_is_finite (float_of_int (gasUsed rc * p)) = true /\
    row_get "Gas Cost (ETH)" Demo.tie_row
    = Some (PFloat
              (py_round
                 (float_value
                    (float_truediv (float_of_int (gasUsed rc * p))
                       (float_of_int (10 ^ 18)))) 6)).
Proof.
  assert (Hrun : simulate_one (RS := Demo.quiet) (CO := Ganache.node)
                   1 Demo.contract 1 "DAO 1.0" Demo.sender Demo.tie_ready
                 = (Ok Demo.tie_row, Demo.after_tie))
    by (vm_compute; reflexivity).
  split; [exact Hrun|]. split; [vm_compute; reflexivity|].
  split; [reflexivity|].
  destruct (C9_gas_cost (RS := Demo.quiet) (CO := Ganache.node)
              1 Demo.contract 1 "DAO 1.0" Demo.sender Demo.tie_ready
              Demo.after_tie Demo.tie_row Hrun)
    as (s & t0 & w1 & h & w2 & rc & w3 & t1 & w4 & p
        & Hs & H0 & H1 & H2 & H3 & H4 & Hgas).
  vm_compute in Hs. injection Hs as <-.
  vm_compute in H0. injection H0 as <- <-.
  vm_compute in H1. injection H1 as <- <-.
  vm_compute in H2. injection H2 as <- <-.
  vm_compute in H3. injection H3 as <- <-.
  vm_compute in H4. injection H4 as <-.
  exists {| gasUsed := 113125; contractAddress := 0 |}, 20000000000.
  split; [reflexivity|]. split; [reflexivity|].
  split; [vm_compute; reflexivity|].
  apply Hgas. vm_compute. reflexivity.
Defined.

(** Rounding to one decimal takes every value of [[79.95, 80.0)] to 80.0. *)
Lemma py_round_to_80 (x : Q) : (79.95 <= x < 80.0)%Q -> py_round x 1 = 80%Q.
Proof.
  intros [Hlo Hhi]. unfold py_round.
  change (inject_Z (10 ^ Z.of_nat 1)) with 10%Q.
  assert (E : round_half_even (x * 10) = 800); [|now rewrite E].
  assert (Hf : Qfloor (x * 10) = 799).
  { pose proof (Qfloor_le (x * 10)) as H1.
    pose proof (Qlt_floor (x * 10)) as H2.
    rewrite inject_Z_plus in H2. change (inject_Z 1) with 1%Q in H2.
    assert (H3 : (inject_Z 799 <= x * 10)%Q) by (change (inject_Z 799) with 799%Q; lra).
    apply Qfloor_resp_le in H3. rewrite Qfloor_Z in H3.
    assert (H4 : (inject_Z (Qfloor (x * 10)) < inject_Z 800)%Q)
      by (change (inject_Z 800) with 800%Q; lra).
    rewrite <- Zlt_Qlt in H4. lia. }
  unfold round_half_even. rewrite Hf. change (inject_Z 799) with 799%Q.
  destruct (Qcompare_spec (x * 10 - 799) (1 # 2)) as [H | H | H];
    [reflexivity | exfalso; lra | reflexivity].
Qed.

(** C10. The classifier reads the values as drawn, the record stores them
    rounded; so rounding has no say in the two flags, and whenever the
    compliance drawn lies in [[79.95, 80.0)] the record shows 80.0 next to
    Compliance Violation = Y (classifying the rounded value would have
    given N). *)
Theorem C10_classifier_reads_unrounded {R} {RS : RandomSource R} {W}
    {CO : Collaborators W}
    fuel contract idx label sender (st st' : state R W) (rec : row) :
  simulate_one fuel contract idx label sender st = (Ok rec, st') ->
  exists s m,
    DAO_STATS !! label = Some s /\
    synthesize fuel s (rng st) = (Ok m, rng st') /\
    row_get "Compliance (%)" rec = Some (PFloat (py_round (m_comp m) 1)) /\
    row_get "ROI (%)" rec = Some (PFloat (py_round (m_roi m) 2)) /\
    row_get "Compliance Violation" rec
    = Some (PStr (violation_of (m_comp m))) /\
    row_get "Decision Outcome" rec
    = Some (PStr (outcome_of (m_roi m) (m_comp m))) /\
    ((79.95 <= m_comp m < 80.0)%Q ->
     row_get "Compliance (%)" rec = Some (PFloat 80) /\
     row_get "Compliance Violation" rec = Some (PStr "Y") /\
     violation_of (py_round (m_comp m) 1) = "N").
Proof.
  intros H.
  apply simulate_one_Ok in H as (s & rc & p & m & Hs & _ & Hm & ->).
  exists s, m. split; [exact Hs|]. split; [exact Hm|].
  do 4 (split; [reflexivity|]).
  intros Hin. pose proof (py_round_to_80 _ Hin) as E.
  split; [|split].
  - simpl. now rewrite E.
  - simpl. f_equal. f_equal. apply violation_of_Y. lra.
  - rewrite E. reflexivity.
Qed.

(** Run 2 with the compliance draw at 79.97: shown as 80, flagged Y. *)
Lemma C10_classifier_reads_unrounded_witness :
  simulate_one (RS := Demo.quiet) (CO := Ganache.node)
    1 Demo.contract 2 "DAO 2.0" Demo.sender (Demo.ready Demo.dip_script)
  = (Ok Demo.dip_row, Demo.after_dip) /\
  row_get "Compliance (%)" Demo.dip_row = Some (PFloat 80) /\
  row_get "Compliance Violation" Demo.dip_row = Some (PStr "Y").
Proof.
  assert (Hrun : simulate_one (RS := Demo.quiet) (CO := Ganache.node)
                   1 Demo.contract 2 "DAO 2.0" Demo.sender
                   (Demo.ready Demo.dip_script)
                 = (Ok Demo.dip_row, Demo.after_dip))
    by (vm_compute; reflexivity).
  split; [exact Hrun|].
  destruct (C10_classifier_reads_unrounded
              (RS := Demo.quiet) (CO := Ganache.node)
              1 Demo.contract 2 "DAO 2.0" Demo.sender
              (Demo.ready Demo.dip_script) Demo.after_dip Demo.dip_row Hrun)
    as (s & m & Hs & Hm & _ & _ & _ & _ & Hdip).
  vm_compute in Hs. injection Hs as <-.
  vm_compute in Hm. injection Hm as <-.
  destruct Hdip as (H1 & H2 & _); [|split; assumption].
  vm_compute. intuition discriminate.
Defined.

(** ** Claims about the rejection loop *)

Lemma quiet_draws (mu sigma : Q) (j : nat) :
  nth_draw (RS := Demo.quiet) mu sigma j [] = (mu, []).
Proof. induction j as [|j IH]; [reflexivity | exact IH]. Qed.

(** C6. The loop of [truncated_normal] has no iteration cap: wherever the
    first accepted draw comes, the call goes on until it and returns it;
    if no draw is ever accepted the call never returns, and that is the
    case of every generator when [low > high]. *)
Theorem C6_no_iteration_cap {R} {RS : RandomSource R}
    (mu sigma low high : Q) (r : R) :
  (forall k : nat,
      (forall j, (j < k)%nat ->
                 accepted low high (fst (nth_draw mu sigma j r)) = false) ->
      accepted low high (fst (nth_draw mu sigma k r)) = true ->
      forall fuel, (k < fuel)%nat ->
        truncated_normal fuel mu sigma low high r
        = (Ok (fst (nth_draw mu sigma k r)), snd (nth_draw mu sigma k r))) /\
  ((forall j, accepted low high (fst (nth_draw mu sigma j r)) = false) ->
   forall fuel, fst (truncated_normal fuel mu sigma low high r) = Diverge) /\
  ((high < low)%Q ->
   forall fuel, fst (truncated_normal fuel mu sigma low high r) = Diverge).
Proof.
  split; [|split].
  - intros k Hrej Hacc fuel Hk. now apply truncated_normal_returns.
  - intros Hrej fuel. now apply truncated_normal_diverges.
  - intros Hlt fuel. apply truncated_normal_diverges.
    intros j. now apply empty_range_rejects.
Qed.

(** Three draws at 100 and then 0, asked for a value of [[-1, 1]]: returned
    at the fourth draw.  Draws at 0 for ever, asked for a value of [[1, 2]],
    or of the empty range from 1 to 0: nothing returned, here after a
    thousand tries. *)
Lemma C6_no_iteration_cap_witness :
  truncated_normal (RS := Demo.quiet) 4 0 1 (-1) 1 [100; 100; 100; 0]%Q
  = (Ok 0%Q, []) /\
  fst (truncated_normal (RS := Demo.quiet) 1000 0 1 1 2 []) = Diverge /\
  fst (truncated_normal (RS := Demo.quiet) 1000 0 1 1 0 []) = Diverge.
Proof.
  split; [|split].
  - destruct (C6_no_iteration_cap (RS := Demo.quiet) 0 1 (-1) 1
                [100; 100; 100; 0]%Q) as [Hret _].
    apply (Hret 3%nat); [|reflexivity|lia].
    intros [|[|[|j]]] Hj; try reflexivity; lia.
  - destruct (C6_no_iteration_cap (RS := Demo.quiet) 0 1 1 2 [])
      as (_ & Hdiv & _).
    apply Hdiv. intros j. now rewrite quiet_draws.
  - destruct (C6_no_iteration_cap (RS := Demo.quiet) 0 1 1 0 [])
      as (_ & _ & Hdiv).
    apply Hdiv. reflexivity.
Defined.

(** ** Sequencing *)

Lemma py_range_one_to (n : Z) : py_range 1 (n + 1) = one_to n.
Proof.
  unfold py_range, one_to. replace (n + 1 - 1) with n by lia.
  generalize (Z.to_nat n) as k. intros k.
  rewrite <- (fmap_S_seq 0 k). unfold fmap. rewrite map_map.
  apply map_ext. intros a. lia.
Qed.

Lemma concat_replicate_lookup {A} (l : list A) (m k : nat) :
  l <> [] -> (k < m * length l)%nat ->
  concat (replicate m l) !! k = l !! (k mod length l)%nat.
Proof.
  intros Hne. assert (Hlen : (0 < length l)%nat) by (destruct l; simpl; [congruence | lia]).
  revert k. induction m as [|m IH]; intros k Hk; [lia|].
  simpl. destruct (Nat.lt_ge_cases k (length l)) as [Hlt | Hge].
  - rewrite lookup_app_l by exact Hlt. now rewrite Nat.mod_small.
  - rewrite lookup_app_r by exact Hge. rewrite IH by nia.
    f_equal. replace k with ((k - length l) + 1 * length l)%nat at 2 by lia.
    now rewrite Nat.Div0.mod_add.
Qed.

Lemma dao_sequence_length (n : Z) :
  0 <= n -> length (dao_sequence n) = Z.to_nat n.
Proof.
  intros Hn. unfold dao_sequence, py_slice_to, py_list_mul.
  destruct (Z.leb_spec 0 n); [|lia].
  rewrite length_take, length_concat.
  assert (E : list_sum (map length (replicate (Z.to_nat (n / 3 + 1))
                 ["DAO 1.0"; "DAO 2.0"; "DAO 3.0"]))
              = (Z.to_nat (n / 3 + 1) * 3)%nat).
  { generalize (Z.to_nat (n / 3 + 1)) as m. induction m as [|m IH]; simpl in *; lia. }
  unfold fmap, list_fmap in *.
  assert (Hdiv : n < 3 * (n / 3 + 1)).
  { pose proof (Z.mod_pos_bound n 3 ltac:(lia)).
    pose proof (Z.div_mod n 3 ltac:(lia)). lia. }
  assert (0 <= n / 3) by (apply Z.div_pos; lia).
  lia.
Qed.

Lemma dao_sequence_item (n i : Z) :
  1 <= i <= n -> py_index (dao_sequence n) (i - 1) = Some (label_for i).
Proof.
  intros Hi. unfold py_index.
  destruct (Z.leb_spec 0 (i - 1)); [|lia].
  unfold dao_sequence, py_slice_to, py_list_mul.
  destruct (Z.leb_spec 0 n); [|lia].
  rewrite lookup_take_lt by lia.
  assert (Hdiv : n < 3 * (n / 3 + 1)).
  { pose proof (Z.mod_pos_bound n 3 ltac:(lia)).
    pose proof (Z.div_mod n 3 ltac:(lia)). lia. }
  assert (0 <= n / 3) by (apply Z.div_pos; lia).
  rewrite concat_replicate_lookup; [|discriminate|simpl; lia].
  unfold label_for. simpl length.
  assert (E : Z.of_nat (Z.to_nat (i - 1) mod 3) = (i - 1) mod 3).
  { rewrite Nat2Z.inj_mod, Z2Nat.id by lia. reflexivity. }
  pose proof (Z.mod_pos_bound (i - 1) 3 ltac:(lia)) as Hb.
  destruct (Z.to_nat (i - 1) mod 3)%nat as [|[|[|k]]] eqn:Ek; rewrite <- E;
    try reflexivity.
  simpl in E. lia.
Qed.

Lemma lookup_one_to (n : Z) (k : nat) :
  (k < Z.to_nat n)%nat -> one_to n !! k = Some (Z.of_nat k + 1).
Proof.
  intros Hk. unfold one_to.
  change (map Z.of_nat (seq 1 (Z.to_nat n))) with (Z.of_nat <$> seq 1 (Z.to_nat n)).
  rewrite list_lookup_fmap, lookup_seq_lt by exact Hk. simpl. f_equal. lia.
Qed.

(** The sequence of labels is the cycle, cut after [n] labels. *)
Lemma dao_sequence_cycle (n : Z) :
  0 <= n -> dao_sequence n = map label_for (one_to n).
Proof.
  intros Hn. apply list_eq. intros k.
  change (map label_for (one_to n)) with (label_for <$> one_to n).
  rewrite list_lookup_fmap.
  destruct (Nat.lt_ge_cases k (Z.to_nat n)) as [Hlt | Hge].
  - rewrite lookup_one_to by exact Hlt. simpl.
    rewrite <- (dao_sequence_item n (Z.of_nat k + 1)) by lia.
    unfold py_index. destruct (Z.leb_spec 0 (Z.of_nat k + 1 - 1)); [|lia].
    f_equal. lia.
  - rewrite lookup_ge_None_2 by (rewrite dao_sequence_length; lia).
    rewrite lookup_ge_None_2; [reflexivity|].
    unfold one_to. rewrite length_map, length_seq. exact Hge.
Qed.

(** ** The loop, read backwards *)

Section LoopFacts.
Context {R : Type} {RS : RandomSource R} {W : Type} {CO : Collaborators W}.
Variables (fuel : nat) (contract : contract_handle) (sender : address)
  (seq : list string).

#[local] Abbreviation loop_run := (loop_run fuel contract sender seq).

(** A loop that returns ran its body once per index, and appended the rows
    it got, in order, to the list it started with. *)
Lemma run_full_loop_Ok indices rows (st st' : state R W) out :
  run_full_loop fuel contract sender seq indices rows st = (Ok out, st') ->
  exists new, out = (rows ++ new)%list /\ loop_run indices st new st'.
Proof.
  revert rows st. induction indices as [|i indices IH]; intros rows st H.
  - apply ret_Ok in H as [-> ->]. exists []. split.
    + now rewrite app_nil_r.
    + constructor.
  - simpl in H. bind_inv H. apply list_item_Ok in H0 as [Hl ->].
    bind_inv H. apply IH in H as (new & -> & Hrun).
    exists (a0 :: new). split.
    + now rewrite <- app_assoc.
    + econstructor; eassumption.
Qed.

(** ... and conversely. *)
Lemma loop_run_complete indices rows (st st' : state R W) new :
  loop_run indices st new st' ->
  run_full_loop fuel contract sender seq indices rows st
  = (Ok (rows ++ new)%list, st').
Proof.
  intros Hrun. revert rows.
  induction Hrun as [st | i indices st label r st1 new st2 Hl Hs _ IH];
    intros rows.
  - simpl. now rewrite app_nil_r.
  - simpl. unfold bind, list_item. rewrite Hl. unfold ret at 1. rewrite Hs.
    rewrite IH. now rewrite <- app_assoc.
Qed.

Lemma loop_run_length indices (st st' : state R W) rows :
  loop_run indices st rows st' -> length rows = length indices.
Proof. induction 1; simpl; congruence. Qed.

(** Row [k] carries index [k] as its Simulation ID and the label found at
    [seq[i - 1]] as its DAO Gen. *)
Lemma loop_run_ids indices (st st' : state R W) rows :
  loop_run indices st rows st' ->
  map (row_get "Simulation ID") rows = map (fun i => Some (PInt i)) indices /\
  map (row_get "DAO Gen") rows
  = map (fun i => PStr <$> py_index seq (i - 1)) indices.
Proof.
  induction 1 as [st | i indices st label r st1 rows st2 Hl Hs _ [IH1 IH2]];
    [split; reflexivity|].
  apply simulate_one_Ok in Hs as (s & rc & p & m & _ & _ & _ & ->).
  simpl. rewrite IH1, IH2, Hl. split; reflexivity.
Qed.
End LoopFacts.

(** ** Building a successful run forwards *)

Section Introduction.
Context {R : Type} {RS : RandomSource R} {W : Type} {CO : Collaborators W}.

Lemma orchestrate_intro contract proposal_id dao_id sender
    (w w1 w2 w3 w4 w' : W) t0 h rc t1 p :
  time_time w = (t0, w1) ->
  executeDecision_transact contract proposal_id dao_id sender w1 = (Ok h, w2) ->
  w3_eth_wait_for_transaction_receipt h w2 = (Ok rc, w3) ->
  time_time w3 = (t1, w4) ->
  w3_eth_gas_price w4 = (Ok p, w') ->
  orchestrate contract proposal_id dao_id sender w = (Ok (rc, p), w').
Proof.
  intros H0 H1 H2 H3 H4. unfold orchestrate, bind, total, ret.
  now rewrite H0, H1, H2, H3, H4.
Qed.

Lemma simulate_one_intro fuel contract idx label sender (st : state R W)
    s rc p m w' r' :
  DAO_STATS !! label = Some s ->
  orchestrate contract idx (id s) sender (world st) = (Ok (rc, p), w') ->
  synthesize fuel s (rng st) = (Ok m, r') ->
  simulate_one fuel contract idx label sender st
  = (Ok (build_record idx label (gasUsed rc) p m),
     {| rng := r'; world := w' |}).
Proof.
  intros Hs Ho Hm. rewrite simulate_one_stages.
  unfold staged, bind, dict_item, lift_world, lift_rng. rewrite Hs.
  unfold ret at 1. rewrite Ho. simpl. rewrite Hm. reflexivity.
Qed.
End Introduction.

(** ** What the log records *)

Lemma logging_inv {W A} (f : W -> A * W) (ev : A -> event) wl a wl' :
  logging f ev wl = (a, wl') ->
  f (fst wl) = (a, fst wl') /\ snd wl' = (snd wl ++ [ev a])%list.
Proof.
  unfold logging. destruct (f (fst wl)) as [x w']. now intros [= -> <-].
Qed.

Section LoggedFacts.
Context {R : Type} {RS : RandomSource R} {W : Type} {CO : Collaborators W}.

(** Under the log the ledger stage is the collaborators' own, and it leaves
    the five entries of a run. *)
Lemma orchestrate_logged contract proposal_id dao_id sender
    (wl wl' : W * list event) rc p :
  orchestrate (CO := Logged W) contract proposal_id dao_id sender wl
  = (Ok (rc, p), wl') ->
  orchestrate (CO := CO) contract proposal_id dao_id sender (fst wl)
  = (Ok (rc, p), fst wl') /\
  exists t0 h t1,
    snd wl' = (snd wl ++ run_events contract sender proposal_id dao_id
                          t0 h rc t1 p)%list.
Proof.
  intros H. apply orchestrate_Ok in H
    as (t0 & w1 & h & w2 & w3 & t1 & w4 & H0 & H1 & H2 & H3 & H4).
  apply logging_inv in H0 as [H0 L0], H1 as [H1 L1], H2 as [H2 L2],
    H3 as [H3 L3], H4 as [H4 L4].
  split.
  - eapply orchestrate_intro; eassumption.
  - exists t0, h, t1. rewrite L4, L3, L2, L1, L0. unfold run_events.
    now rewrite <- !app_assoc.
Qed.

Lemma simulate_one_logged fuel contract idx label sender
    (st st' : state R (W * list event)) r :
  simulate_one (CO := Logged W) fuel contract idx label sender st = (Ok r, st') ->
  simulate_one (CO := CO) fuel contract idx label sender (unlog st)
  = (Ok r, unlog st') /\
  exists s t0 h rc t1 p,
    DAO_STATS !! label = Some s /\
    snd (world st')
    = (snd (world st)
       ++ run_events contract sender idx (id s) t0 h rc t1 p)%list /\
    row_get "Simulation ID" r = Some (PInt idx) /\
    row_get "DAO Gen" r = Some (PStr label) /\
    row_get "Gas Cost (ETH)" r
    = Some (PFloat (py_round (gas_cost_of (gasUsed rc) p) 6)).
Proof.
  intros H. apply simulate_one_Ok in H as (s & rc & p & m & Hs & Ho & Hm & ->).
  apply orchestrate_logged in Ho as (Ho & t0 & h & t1 & Hlog).
  split.
  - erewrite simulate_one_intro by eassumption. reflexivity.
  - exists s, t0, h, rc, t1, p. repeat split; assumption.
Qed.

Lemma loop_run_logged fuel contract sender seq indices
    (st st' : state R (W * list event)) rows :
  loop_run (CO := Logged W) fuel contract sender seq indices st rows st' ->
  loop_run (CO := CO) fuel contract sender seq indices (unlog st) rows
    (unlog st') /\
  exists log,
    snd (world st') = (snd (world st) ++ log)%list /\
    run_log contract sender seq indices rows log.
Proof.
  induction 1 as [st | i indices st label r st1 rows st2 Hl Hs _ [IH1 IH2]].
  - split; [constructor|]. exists []. split; [now rewrite app_nil_r | constructor].
  - apply simulate_one_logged in Hs
      as (Hs & s & t0 & h & rc & t1 & p & Hd & Hlog & Hid & Hgen & Hgas).
    destruct IH2 as (log & Hlog2 & Hrl). split.
    + econstructor; eassumption.
    + eexists. split.
      * rewrite Hlog2, Hlog, <- app_assoc. reflexivity.
      * econstructor; eassumption.
Qed.
End LoggedFacts.

(** ** [run_full] is the composition of its stages *)

Section RunAllFacts.
Context {R : Type} {RS : RandomSource R} {W : Type} {CO : Collaborators W}.

Lemma run_all_stages fuel seed_value num_runs (st : state R W) :
  run_all fuel seed_value num_runs st
  = run_all_staged fuel seed_value num_runs st.
Proof.
  unfold run_all, run_all_staged, set_seed, connect_ganache, compile_contract,
    deploy_contract, setup, lift_total, lift_world, total, bind, ret, raise.
  destruct st as [r w]; cbn [world rng].
  destruct (w3_is_connected w) as [[|] w1]; cbn [negb world rng];
    [|reflexivity].
  destruct (w3_eth_accounts w1) as [[[|sender others]| |] w2];
    cbn [world rng]; try reflexivity.
  destruct (install_solc SOLC_VERSION w2) as [[[]| |] w3]; cbn [world rng];
    try reflexivity.
  destruct (compile_standard CONTRACT_SOURCE SOLC_VERSION w3)
    as [[[abi bytecode]| |] w4]; cbn [world rng]; try reflexivity.
  destruct (constructor_transact abi bytecode sender w4) as [[h| |] w5];
    cbn [world rng]; try reflexivity.
  destruct (w3_eth_wait_for_transaction_receipt h w5) as [[rc| |] w6];
    cbn [world rng]; try reflexivity.
  destruct (path_mkdir "data" w6) as [[[]| |] w7]; cbn [world rng fst snd];
    reflexivity.
Qed.

Lemma setup_Ok (w w' : W) contract sender :
  setup w = (Ok (contract, sender), w') ->
  exists w1 others w2 w3 abi bytecode w4 h w5 rc w6,
    w3_is_connected w = (true, w1) /\
    w3_eth_accounts w1 = (Ok (sender :: others), w2) /\
    install_solc SOLC_VERSION w2 = (Ok tt, w3) /\
    compile_standard CONTRACT_SOURCE SOLC_VERSION w3
      = (Ok (abi, bytecode), w4) /\
    constructor_transact abi bytecode sender w4 = (Ok h, w5) /\
    w3_eth_wait_for_transaction_receipt h w5 = (Ok rc, w6) /\
    path_mkdir "data" w6 = (Ok tt, w') /\
    contract = {| contract_address := contractAddress rc;
                  contract_abi := abi |}.
Proof.
  unfold setup. intros H.
  unbind H as connected w1 H0. apply total_Ok in H0.
  unbind H as u0 w1' H1. destruct connected; [|discriminate]. simpl in H1.
  apply ret_Ok in H1 as [_ ->].
  unbind H as accounts w2 H2.
  destruct accounts as [|sender' others]; [discriminate|].
  unbind H as [] w3 H3. unbind H as [abi bytecode] w4 H4.
  unbind H as h w5 H5. unbind H as rc w6 H6. unbind H as [] w7 H7.
  apply ret_Ok in H as [[= -> ->] ->].
  exists w1, others, w2, w3, abi, bytecode, w4, h, w5, rc, w6.
  repeat (split; [assumption|]). reflexivity.
Qed.

Lemma setup_intro (w w1 w2 w3 w4 w5 w6 w' : W) sender others abi bytecode h rc :
  w3_is_connected w = (true, w1) ->
  w3_eth_accounts w1 = (Ok (sender :: others), w2) ->
  install_solc SOLC_VERSION w2 = (Ok tt, w3) ->
  compile_standard CONTRACT_SOURCE SOLC_VERSION w3 = (Ok (abi, bytecode), w4) ->
  constructor_transact abi bytecode sender w4 = (Ok h, w5) ->
  w3_eth_wait_for_transaction_receipt h w5 = (Ok rc, w6) ->
  path_mkdir "data" w6 = (Ok tt, w') ->
  setup w = (Ok ({| contract_address := contractAddress rc;
                    contract_abi := abi |}, sender), w').
Proof.
  intros H0 H1 H2 H3 H4 H5 H6. unfold setup, bind, total, ret.
  rewrite H0. simpl. rewrite H1, H2, H3, H4, H5, H6. reflexivity.
Qed.

(** A [run_full] that returns seeded the generator, went through the set-up,
    ran the loop over 1, ..., n from the seeded generator, and wrote the
    rows of the loop. *)
Lemma run_all_Ok fuel seed_value num_runs (st st' : state R W) :
  run_all fuel seed_value num_runs st = (Ok tt, st') ->
  exists contract sender w1 rows st2,
    setup (world st) = (Ok (contract, sender), w1) /\
    loop_run fuel contract sender (dao_sequence num_runs)
      (py_range 1 (num_runs + 1))
      {| rng := random_seed seed_value; world := w1 |} rows st2 /\
    to_excel rows OUTPUT_XLSX (world st2) = (Ok tt, world st') /\
    rng st' = rng st2.
Proof.
  rewrite run_all_stages. unfold run_all_staged. intros H.
  unbind H as u st0 H0. unfold set_seed in H0. injection H0 as H0.
  subst st0.
  unbind H as [contract sender] st1 H1.
  apply lift_world_Ok in H1 as [Hsetup Hr].
  unbind H as out st2 H2. apply run_full_loop_Ok in H2 as (rows & -> & Hrun).
  apply lift_world_Ok in H as [Hx Hr'].
  destruct st1 as [r1 w1]. simpl in *. subst r1.
  exists contract, sender, w1, rows, st2. auto.
Qed.
End RunAllFacts.

(** ** Reading the log *)

Lemma tables_written_app (l1 l2 : list event) :
  tables_written (l1 ++ l2) = (tables_written l1 ++ tables_written l2)%list.
Proof.
  induction l1 as [|ev l1 IH]; [reflexivity|].
  simpl. destruct ev; try exact IH. destruct answer; try exact IH.
  simpl. now rewrite IH.
Qed.

Lemma decisions_submitted_app (l1 l2 : list event) :
  decisions_submitted (l1 ++ l2)
  = (decisions_submitted l1 ++ decisions_submitted l2)%list.
Proof.
  induction l1 as [|ev l1 IH]; [reflexivity|].
  simpl. destruct ev; try exact IH. simpl. now rewrite IH.
Qed.

Lemma dao_id_of_label (i : Z) (s : profile) :
  DAO_STATS !! label_for i = Some s -> id s = dao_id_for i.
Proof.
  unfold label_for, dao_id_for.
  pose proof (Z.mod_pos_bound (i - 1) 3 ltac:(lia)) as Hb.
  destruct ((i - 1) mod 3) as [|[q|q|]|q] eqn:E; intros H;
    vm_compute in H; injection H as <-; cbn [id]; lia.
Qed.

Lemma one_to_bounds (n : Z) : Forall (fun i => 1 <= i <= n) (one_to n).
Proof.
  unfold one_to. apply Forall_forall. intros i Hi.
  apply list_elem_of_In, in_map_iff in Hi as (k & <- & Hk).
  apply in_seq in Hk. lia.
Qed.

(** The log of a successful loop over the labels of [dao_sequence n]:
    exactly one decision per index, carrying the index and the generation
    id of its turn, no table written, and rows numbered and labelled as
    the indices are. *)
Lemma run_log_reading (n : Z) contract sender indices rows log :
  run_log contract sender (dao_sequence n) indices rows log ->
  Forall (fun i => 1 <= i <= n) indices ->
  decisions_submitted log = map (fun i => (i, dao_id_for i)) indices /\
  tables_written log = [] /\
  map (row_get "Simulation ID") rows = map (fun i => Some (PInt i)) indices /\
  map (row_get "DAO Gen") rows
  = map (fun i => Some (PStr (label_for i))) indices.
Proof.
  induction 1 as [|i indices r rows log label s t0 h rc t1 p
                    Hl Hs Hid Hgen Hgas _ IH]; intros Hall.
  - repeat split.
  - apply Forall_cons in Hall as [Hi Hall].
    destruct (IH Hall) as (IH1 & IH2 & IH3 & IH4).
    rewrite dao_sequence_item in Hl by exact Hi. injection Hl as <-.
    apply dao_id_of_label in Hs.
    simpl. rewrite IH1, IH2, IH3, IH4, Hid, Hgen, Hs. repeat split.
Qed.

(** ** The complete log of a successful [run_full] *)

Section Trace.
Context {R : Type} {RS : RandomSource R} {W : Type} {CO : Collaborators W}.

Lemma setup_logged (wl wl' : W * list event) contract sender :
  setup (CO := Logged W) wl = (Ok (contract, sender), wl') ->
  setup (CO := CO) (fst wl) = (Ok (contract, sender), fst wl') /\
  exists others abi bytecode h rc,
    snd wl' = (snd wl ++ setup_events sender others abi bytecode h rc)%list /\
    contract = {| contract_address := contractAddress rc;
                  contract_abi := abi |}.
Proof.
  intros H. apply setup_Ok in H
    as (w1 & others & w2 & w3 & abi & bytecode & w4 & h & w5 & rc & w6
        & H0 & H1 & H2 & H3 & H4 & H5 & H6 & ->).
  apply logging_inv in H0 as [H0 L0], H1 as [H1 L1], H2 as [H2 L2],
    H3 as [H3 L3], H4 as [H4 L4], H5 as [H5 L5], H6 as [H6 L6].
  split.
  - eapply setup_intro; eassumption.
  - exists others, abi, bytecode, h, rc. split; [|reflexivity].
    rewrite L6, L5, L4, L3, L2, L1, L0. unfold setup_events.
    now rewrite <- !app_assoc.
Qed.

(** Everything a successful [run_full] asked of its collaborators, in
    order: the set-up, then the runs 1, ..., n, then the table. *)
Lemma run_all_logged fuel seed_value num_runs
    (st st' : state R (W * list event)) :
  run_all (CO := Logged W) fuel seed_value num_runs st = (Ok tt, st') ->
  exists sender others abi bytecode h rc log rows,
    snd (world st')
    = (snd (world st)
       ++ setup_events sender others abi bytecode h rc
       ++ log
       ++ [EvToExcel rows OUTPUT_XLSX (Ok tt)])%list /\
    run_log {| contract_address := contractAddress rc; contract_abi := abi |}
      sender (dao_sequence num_runs) (py_range 1 (num_runs + 1)) rows log /\
    exists w1 st2,
      loop_run (CO := CO) fuel
        {| contract_address := contractAddress rc; contract_abi := abi |}
        sender (dao_sequence num_runs) (py_range 1 (num_runs + 1))
        {| rng := random_seed seed_value; world := w1 |} rows st2 /\
      rng st' = rng st2.
Proof.
  intros H. apply run_all_Ok in H
    as (contract & sender & wl1 & rows & st2 & Hsetup & Hrun & Hx & Hr).
  apply setup_logged in Hsetup
    as (_ & others & abi & bytecode & h & rc & Hlog1 & ->).
  apply loop_run_logged in Hrun as (Hrun & log & Hlog2 & Hrl).
  apply logging_inv in Hx as [_ Hlog3].
  exists sender, others, abi, bytecode, h, rc, log, rows. split; [|split].
  - rewrite Hlog3, Hlog2. simpl. rewrite Hlog1, <- !app_assoc. reflexivity.
  - exact Hrl.
  - exists (fst wl1), (unlog st2). split; [exact Hrun | exact Hr].
Qed.
End Trace.

(** ** Claims about a whole execution *)

Lemma one_to_length (n : Z) : length (one_to n) = Z.to_nat n.
Proof. unfold one_to. now rewrite length_map, length_seq. Qed.

(** C3. For every [n >= 0] the labels of [dao_sequence n] are the first [n]
    of the cycle DAO 1.0, DAO 2.0, DAO 3.0 repeated for ever, the label of
    run [i] being the one at position [(i - 1) mod 3]; and the table that a
    successful [run_full] over [n] runs writes has [n] rows, whose
    Simulation IDs are 1, 2, ..., n in this order and whose labels are
    those of the sequence. *)
Theorem C3_sequencing {R} {RS : RandomSource R} {W} {CO : Collaborators W}
    fuel seed_value (n : Z) (st st' : state R (W * list event)) :
  0 <= n ->
  dao_sequence n = map label_for (one_to n) /\
  (run_all (CO := Logged W) fuel seed_value n st = (Ok tt, st') ->
   exists rows,
     tables_written (snd (world st'))
     = (tables_written (snd (world st)) ++ [rows])%list /\
     length rows = Z.to_nat n /\
     map (row_get "Simulation ID") rows
     = map (fun i => Some (PInt i)) (one_to n) /\
     map (row_get "DAO Gen") rows
     = map (fun i => Some (PStr (label_for i))) (one_to n)).
Proof.
  intros Hn. split; [now apply dao_sequence_cycle|].
  intros H. apply run_all_logged in H
    as (sender & others & abi & bytecode & h & rc & log & rows
        & Hlog & Hrl & w1 & st2 & Hrun & _).
  rewrite py_range_one_to in Hrl, Hrun.
  destruct (run_log_reading n _ _ _ _ _ Hrl (one_to_bounds n))
    as (_ & Htab & Hids & Hgens).
  exists rows. split; [|split; [|split; assumption]].
  - rewrite Hlog, !tables_written_app, Htab. reflexivity.
  - rewrite (loop_run_length _ _ _ _ _ _ _ _ Hrun). apply one_to_length.
Qed.

(** Six runs: the labels go twice round the cycle and the ids are 1 to 6. *)
Lemma C3_sequencing_witness :
  0 <= 6 /\
  run_all (RS := Demo.quiet) (CO := Demo.logged) 1 42 6
    (Demo.start Ganache.fresh) = (Ok tt, Demo.after_six) /\
  dao_sequence 6
  = ["DAO 1.0"; "DAO 2.0"; "DAO 3.0"; "DAO 1.0"; "DAO 2.0"; "DAO 3.0"] /\
  exists rows,
    tables_written (snd (world Demo.after_six)) = [rows] /\
    map (row_get "Simulation ID") rows
    = [Some (PInt 1); Some (PInt 2); Some (PInt 3);
       Some (PInt 4); Some (PInt 5); Some (PInt 6)] /\
    map (row_get "DAO Gen") rows
    = map (fun l => Some (PStr l)) (dao_sequence 6).
Proof.
  assert (Hn : 0 <= 6) by lia.
  assert (Hrun : run_all (RS := Demo.quiet) (CO := Demo.logged) 1 42 6
                   (Demo.start Ganache.fresh) = (Ok tt, Demo.after_six))
    by (vm_compute; reflexivity).
  destruct (C3_sequencing (RS := Demo.quiet) (CO := Ganache.node) 1 42 6
              (Demo.start Ganache.fresh) Demo.after_six Hn) as [Hseq Hrows].
  split; [exact Hn|]. split; [exact Hrun|]. split; [exact Hseq|].
  destruct (Hrows Hrun) as (rows & Htab & _ & Hids & Hgens).
  exists rows. split; [exact Htab|]. split; [exact Hids|].
  rewrite Hgens, Hseq. reflexivity.
Defined.

(** C5. In a successful [run_full] over [n] runs, what the engine asks of
    its collaborators between the set-up and the writing of the table is,
    for each run [i = 1, ..., n] in turn, one [executeDecision] transaction
    carrying [i] and the generation id of the profile of run [i], the
    receipt of that very transaction, whose gas enters the row numbered
    [i], and the gas price; no other decision is submitted, so the
    decisions submitted are [(i, dao_id_for i)] for [i = 1, ..., n], one
    per row. *)
Theorem C5_one_decision_per_run {R} {RS : RandomSource R} {W}
    {CO : Collaborators W} fuel seed_value (n : Z)
    (st st' : state R (W * list event)) :
  run_all (CO := Logged W) fuel seed_value n st = (Ok tt, st') ->
  exists contract sender before log rows,
    snd (world st')
    = (snd (world st) ++ before ++ log
       ++ [EvToExcel rows OUTPUT_XLSX (Ok tt)])%list /\
    decisions_submitted before = [] /\
    run_log contract sender (dao_sequence n) (one_to n) rows log /\
    decisions_submitted log = map (fun i => (i, dao_id_for i)) (one_to n) /\
    map (row_get "Simulation ID") rows
    = map (fun i => Some (PInt i)) (one_to n) /\
    decisions_submitted (snd (world st'))
    = (decisions_submitted (snd (world st))
       ++ map (fun i => (i, dao_id_for i)) (one_to n))%list.
Proof.
  intros H. apply run_all_logged in H
    as (sender & others & abi & bytecode & h & rc & log & rows
        & Hlog & Hrl & _).
  rewrite py_range_one_to in Hrl.
  destruct (run_log_reading n _ _ _ _ _ Hrl (one_to_bounds n))
    as (Hdec & _ & Hids & _).
  exists {| contract_address := contractAddress rc; contract_abi := abi |},
    sender, (setup_events sender others abi bytecode h rc), log, rows.
  repeat split; try assumption; try reflexivity.
  rewrite Hlog, !decisions_submitted_app, Hdec. simpl.
  now rewrite app_nil_r.
Qed.

(** Three runs on the single-node chain: three decisions, numbered as the
    rows are, and the contract has stored them under these numbers. *)
Lemma C5_one_decision_per_run_witness :
  run_all (RS := Demo.quiet) (CO := Demo.logged) 1 42 3
    (Demo.start Ganache.fresh) = (Ok tt, Demo.after_three) /\
  decisions_submitted (snd (world Demo.after_three)) = [(1, 1); (2, 2); (3, 3)] /\
  Ganache.decisionCount (fst (world Demo.after_three)) = 3 /\
  Ganache.proposalId <$> Ganache.decisions (fst (world Demo.after_three)) !! 2
  = Some 2 /\
  (exists rows,
     last (snd (world Demo.after_three))
     = Some (EvToExcel rows OUTPUT_XLSX (Ok tt)) /\
     map (row_get "Simulation ID") rows
     = [Some (PInt 1); Some (PInt 2); Some (PInt 3)]).
Proof.
  assert (Hrun : run_all (RS := Demo.quiet) (CO := Demo.logged) 1 42 3
                   (Demo.start Ganache.fresh) = (Ok tt, Demo.after_three))
    by (vm_compute; reflexivity).
  destruct (C5_one_decision_per_run (RS := Demo.quiet) (CO := Ganache.node)
              1 42 3 (Demo.start Ganache.fresh) Demo.after_three Hrun)
    as (contract & sender & before & log & rows
        & Hlog & Hbefore & Hrl & Hdec & Hids & Hall).
  split; [exact Hrun|]. split; [exact Hall|].
  split; [vm_compute; reflexivity|].
  split; [vm_compute; reflexivity|].
  exists rows. split; [|exact Hids].
  rewrite Hlog, !app_assoc. apply last_snoc.
Defined.

(** C8. If the node does not answer, or answers but has no account,
    [run_full] raises before its first run: the error is the one of the
    failed check, the generator is left in the state in which seeding put
    it (nothing was drawn), and the only calls made are the checks
    themselves: no transaction was submitted, no decision among them, and
    no table was written. *)
Theorem C8_fatal_before_any_run {R} {RS : RandomSource R} {W}
    {CO : Collaborators W} fuel seed_value (n : Z)
    (st : state R (W * list event)) (w' : W) :
  w3_is_connected (fst (world st)) = (false, w') \/
  (exists w1, w3_is_connected (fst (world st)) = (true, w1) /\
              w3_eth_accounts w1 = (Ok [], w')) ->
  exists e log,
    run_all (CO := Logged W) fuel seed_value n st
    = (Raise e, {| rng := random_seed seed_value;
                   world := (w', (snd (world st) ++ log)%list) |}) /\
    (e = ConnectionError "Could not connect to Ganache." /\
     log = [EvIsConnected false] \/
     e = RuntimeError "No accounts available in Ganache." /\
     log = [EvIsConnected true; EvAccounts (Ok [])]) /\
    filter is_transaction log = [] /\
    decisions_submitted log = [] /\
    tables_written log = [].
Proof.
  intros [Hc | (w1 & Hc & Ha)].
  - exists (ConnectionError "Could not connect to Ganache."),
      [EvIsConnected false].
    split; [|split; [left|]; repeat split].
    unfold run_all, set_seed, connect_ganache, lift_total, lift_world, total,
      bind, raise.
    destruct st as [r [w l]]. cbn [world rng fst snd] in *.
    cbn [w3_is_connected Logged]. unfold logging. cbn [fst snd].
    rewrite Hc. reflexivity.
  - exists (RuntimeError "No accounts available in Ganache."),
      [EvIsConnected true; EvAccounts (Ok [])].
    split; [|split; [right|]; repeat split].
    unfold run_all, set_seed, connect_ganache, lift_total, lift_world, total,
      bind, raise, ret.
    destruct st as [r [w l]]. cbn [world rng fst snd] in *.
    cbn [w3_is_connected w3_eth_accounts Logged]. unfold logging.
    cbn [fst snd]. rewrite Hc. cbn [negb world rng fst snd]. rewrite Ha.
    cbn [world rng fst snd]. now rewrite <- app_assoc.
Qed.

(** A node that does not answer, and a node without accounts. *)
Lemma C8_fatal_before_any_run_witness :
  run_all (RS := Demo.quiet) (CO := Demo.logged) 1 42 3
    (Demo.start Ganache.unreachable)
  = (Raise (ConnectionError "Could not connect to Ganache."),
     {| rng := []; world := (Ganache.unreachable, [EvIsConnected false]) |}) /\
  run_all (RS := Demo.quiet) (CO := Demo.logged) 1 42 3
    (Demo.start Ganache.no_account)
  = (Raise (RuntimeError "No accounts available in Ganache."),
     {| rng := [];
        world := (Ganache.no_account,
                  [EvIsConnected true; EvAccounts (Ok [])]) |}).
Proof.
  split.
  - destruct (C8_fatal_before_any_run (RS := Demo.quiet) (CO := Ganache.node)
                1 42 3 (Demo.start Ganache.unreachable) Ganache.unreachable)
      as (e & log & Hrun & [[-> ->] | [-> ->]] & _).
    + left. reflexivity.
    + exact Hrun.
    + vm_compute in Hrun. discriminate Hrun.
  - destruct (C8_fatal_before_any_run (RS := Demo.quiet) (CO := Ganache.node)
                1 42 3 (Demo.start Ganache.no_account) Ganache.no_account)
      as (e & log & Hrun & [[-> ->] | [-> ->]] & _).
    + right. exists Ganache.no_account. split; reflexivity.
    + vm_compute in Hrun. discriminate Hrun.
    + exact Hrun.
Defined.

(** ** Two executions from the same seed *)

Section Agreement.
Context {R : Type} {RS : RandomSource R}.

(** Two unrollings of the rejection loop that both return, from the same
    generator state, return the same value and leave the same state. *)
Lemma truncated_normal_agree mu sigma low high fuel1 fuel2 r x1 r1 x2 r2 :
  truncated_normal fuel1 mu sigma low high r = (Ok x1, r1) ->
  truncated_normal fuel2 mu sigma low high r = (Ok x2, r2) ->
  x1 = x2 /\ r1 = r2.
Proof.
  intros H1 H2.
  apply (truncated_normal_fuel_mono _ _ _ _ fuel1 (Nat.max fuel1 fuel2))
    in H1; [|lia].
  apply (truncated_normal_fuel_mono _ _ _ _ fuel2 (Nat.max fuel1 fuel2))
    in H2; [|lia].
  rewrite H1 in H2. now injection H2.
Qed.

Lemma synthesize_agree fuel1 fuel2 s r m1 r1 m2 r2 :
  synthesize fuel1 s r = (Ok m1, r1) ->
  synthesize fuel2 s r = (Ok m2, r2) ->
  m1 = m2 /\ r1 = r2.
Proof.
  intros H1 H2.
  apply synthesize_Ok in H1 as (a1 & a2 & a3 & a4 & A1 & A2 & A3 & A4 & A5).
  apply synthesize_Ok in H2 as (b1 & b2 & b3 & b4 & B1 & B2 & B3 & B4 & B5).
  destruct (truncated_normal_agree _ _ _ _ _ _ _ _ _ _ _ A1 B1) as [E1 <-].
  destruct (truncated_normal_agree _ _ _ _ _ _ _ _ _ _ _ A2 B2) as [E2 <-].
  destruct (truncated_normal_agree _ _ _ _ _ _ _ _ _ _ _ A3 B3) as [E3 <-].
  destruct (truncated_normal_agree _ _ _ _ _ _ _ _ _ _ _ A4 B4) as [E4 <-].
  destruct (truncated_normal_agree _ _ _ _ _ _ _ _ _ _ _ A5 B5) as [E5 <-].
  split; [|reflexivity].
  destruct m1, m2. simpl in *. congruence.
Qed.

(** Two loops over the same labels and indices, on any two sets of
    collaborators, that start from the same generator state and both
    succeed, synthesize the same metrics, row by row, and leave the same
    generator state. *)
Lemma loop_run_agree {W1} {CO1 : Collaborators W1} {W2} {CO2 : Collaborators W2}
    fuel1 fuel2 contract1 contract2 sender1 sender2 seq indices
    (st1 st1' : state R W1) (st2 st2' : state R W2) rows1 rows2 :
  loop_run fuel1 contract1 sender1 seq indices st1 rows1 st1' ->
  loop_run fuel2 contract2 sender2 seq indices st2 rows2 st2' ->
  rng st1 = rng st2 ->
  map synthesized_fields rows1 = map synthesized_fields rows2 /\
  rng st1' = rng st2'.
Proof.
  intros H1. revert st2 st2' rows2.
  induction H1 as [st1 | i indices st1 label r1 st1a rows1 st1' Hl Hs _ IH];
    intros st2 st2' rows2 H2 Hr; inversion H2; subst.
  - split; [reflexivity | exact Hr].
  - match goal with
    | Hl' : py_index seq (i - 1) = Some ?l |- _ =>
        rewrite Hl in Hl'; injection Hl' as <-
    end.
    match goal with
    | Hs' : simulate_one fuel2 _ _ _ _ _ = _ |- _ =>
        apply simulate_one_Ok in Hs'
          as (s2 & rc2 & p2 & m2 & Hd2 & _ & Hm2 & ->)
    end.
    apply simulate_one_Ok in Hs as (s1 & rc1 & p1 & m1 & Hd1 & _ & Hm1 & ->).
    rewrite Hd1 in Hd2. injection Hd2 as <-. rewrite Hr in Hm1.
    destruct (synthesize_agree _ _ _ _ _ _ _ _ Hm1 Hm2) as [<- Hr'].
    match goal with
    | Hrest : loop_run fuel2 _ _ _ _ _ _ _ |- _ =>
        destruct (IH _ _ _ Hrest Hr') as [IHrows IHr]
    end.
    split; [|exact IHr]. simpl map. f_equal. exact IHrows.
Qed.
End Agreement.

(** The table of a successful [run_full] holds the rows of its loop, which
    started from the seeded generator. *)
Lemma run_all_table {R} {RS : RandomSource R} {W} {CO : Collaborators W}
    fuel seed_value n (st st' : state R (W * list event)) :
  run_all (CO := Logged W) fuel seed_value n st = (Ok tt, st') ->
  exists contract sender rows w1 st2,
    tables_written (snd (world st'))
    = (tables_written (snd (world st)) ++ [rows])%list /\
    loop_run (CO := CO) fuel contract sender (dao_sequence n) (one_to n)
      {| rng := random_seed seed_value; world := w1 |} rows st2 /\
    rng st' = rng st2.
Proof.
  intros H. apply run_all_logged in H
    as (sender & others & abi & bytecode & h & rc & log & rows
        & Hlog & Hrl & w1 & st2 & Hrun & Hr).
  rewrite py_range_one_to in Hrl, Hrun.
  destruct (run_log_reading n _ _ _ _ _ Hrl (one_to_bounds n))
    as (_ & Htab & _).
  exists {| contract_address := contractAddress rc; contract_abi := abi |},
    sender, rows, w1, st2.
  split; [|split; assumption].
  rewrite Hlog, !tables_written_app, Htab. reflexivity.
Qed.

(** C4. Two executions of [run_full] with the same seed and the same number
    of runs, on any two sets of collaborators and from any two states,
    that both succeed write tables whose synthesized fields (latency,
    compliance, off-chain cost, total cost, ROI) agree row by row, and
    leave the generator in the same state: the metrics are drawn from the
    stream that [set_seed] starts, by [truncated_normal] alone, and nothing
    that the collaborators answer reaches them. *)
Theorem C4_determinism {R} {RS : RandomSource R}
    {W1} {CO1 : Collaborators W1} {W2} {CO2 : Collaborators W2}
    fuel1 fuel2 seed_value (n : Z)
    (st1 st1' : state R (W1 * list event))
    (st2 st2' : state R (W2 * list event)) :
  run_all (CO := Logged W1) fuel1 seed_value n st1 = (Ok tt, st1') ->
  run_all (CO := Logged W2) fuel2 seed_value n st2 = (Ok tt, st2') ->
  exists rows1 rows2,
    tables_written (snd (world st1'))
    = (tables_written (snd (world st1)) ++ [rows1])%list /\
    tables_written (snd (world st2'))
    = (tables_written (snd (world st2)) ++ [rows2])%list /\
    map synthesized_fields rows1 = map synthesized_fields rows2 /\
    rng st1' = rng st2'.
Proof.
  intros H1 H2.
  apply run_all_table in H1
    as (c1 & s1 & rows1 & w1 & st1a & Ht1 & Hrun1 & Hr1).
  apply run_all_table in H2
    as (c2 & s2 & rows2 & w2 & st2a & Ht2 & Hrun2 & Hr2).
  exists rows1, rows2. split; [exact Ht1|]. split; [exact Ht2|].
  destruct (loop_run_agree _ _ _ _ _ _ _ _ _ _ _ _ _ _ Hrun1 Hrun2 eq_refl)
    as [Hrows Hr].
  split; [exact Hrows|]. now rewrite Hr1, Hr2.
Qed.

(** Three runs on two different nodes, the second started from another
    generator state and unrolled deeper: the synthesized fields agree,
    although the gas costs do not. *)
Lemma C4_determinism_witness :
  run_all (RS := Demo.noisy) (CO := Demo.logged) 2 42 3
    (Demo.start Ganache.fresh) = (Ok tt, Demo.noisy_on_fresh) /\
  run_all (RS := Demo.noisy) (CO := Demo.logged) 5 42 3 Demo.busy_start
  = (Ok tt, Demo.noisy_on_busy) /\
  exists rows1 rows2,
    tables_written (snd (world Demo.noisy_on_fresh)) = [rows1] /\
    tables_written (snd (world Demo.noisy_on_busy)) = [rows2] /\
    map synthesized_fields rows1 = map synthesized_fields rows2 /\
    map (row_get "Gas Cost (ETH)") rows1 <> map (row_get "Gas Cost (ETH)") rows2.
Proof.
  assert (H1 : run_all (RS := Demo.noisy) (CO := Demo.logged) 2 42 3
                 (Demo.start Ganache.fresh) = (Ok tt, Demo.noisy_on_fresh))
    by (vm_compute; reflexivity).
  assert (H2 : run_all (RS := Demo.noisy) (CO := Demo.logged) 5 42 3
                 Demo.busy_start = (Ok tt, Demo.noisy_on_busy))
    by (vm_compute; reflexivity).
  destruct (C4_determinism (RS := Demo.noisy) (CO1 := Ganache.node)
              (CO2 := Ganache.node) 2 5 42 3 _ _ _ _ H1 H2)
    as (rows1 & rows2 & Ht1 & Ht2 & Hrows & _).
  split; [exact H1|]. split; [exact H2|].
  exists rows1, rows2. split; [exact Ht1|]. split; [exact Ht2|].
  split; [exact Hrows|].
  vm_compute in Ht1. injection Ht1 as <-.
  vm_compute in Ht2. injection Ht2 as <-.
  vm_compute. discriminate.
Defined.

(** * Further properties of the code *)

(** ** The sampler *)

(** X1. [truncated_normal] returns [x] and leaves the generator in [r']
    exactly when [x] is the first draw of the stream that the guard
    accepts and [r'] is the state right after that draw: the refused draws
    are discarded and nothing is drawn past the accepted one. *)
Theorem truncated_normal_first_accepted {R} {RS : RandomSource R}
    (mu sigma low high : Q) (fuel : nat) (r : R) (x : Q) (r' : R) :
  truncated_normal fuel mu sigma low high r = (Ok x, r') <->
  exists k, (k < fuel)%nat /\
    nth_draw mu sigma k r = (x, r') /\
    accepted low high x = true /\
    forall j, (j < k)%nat ->
      accepted low high (fst (nth_draw mu sigma j r)) = false.
Proof.
  split.
  - apply truncated_normal_first.
  - intros (k & Hk & Hd & Ha & Hrej).
    rewrite (truncated_normal_returns mu sigma low high k fuel r Hrej);
      [now rewrite Hd | now rewrite Hd | exact Hk].
Qed.

(** ** The sequence of labels *)

(** X2. [dao_sequence(n)] has [n] labels when [n] is positive and none
    when [n] is zero or negative. *)
Theorem dao_sequence_length_any (n : Z) :
  length (dao_sequence n) = Z.to_nat n.
Proof.
  destruct (Z.le_gt_cases 0 n) as [Hn | Hn]; [now apply dao_sequence_length|].
  unfold dao_sequence, py_list_mul, py_slice_to.
  assert (E : Z.to_nat (n / 3 + 1) = 0%nat).
  { assert (n / 3 < 0) by (apply Z.div_lt_upper_bound; lia). lia. }
  rewrite E. simpl. destruct (0 <=? n); rewrite ?take_nil; simpl; lia.
Qed.

(** X3. For every index [i] of the loop of [run_full], [seq[i - 1]] exists
    and is a key of [DAO_STATS], and the profile under it has the id
    [(i - 1) mod 3 + 1]: the two lookups of the loop body cannot raise. *)
Theorem dao_sequence_lookups_succeed (n i : Z) :
  1 <= i <= n ->
  exists label s,
    py_index (dao_sequence n) (i - 1) = Some label /\
    DAO_STATS !! label = Some s /\
    id s = dao_id_for i.
Proof.
  intros Hi. exists (label_for i).
  assert (Hs : exists s, DAO_STATS !! label_for i = Some s).
  { unfold label_for. destruct ((i - 1) mod 3) as [|[q|q|]|q];
      eexists; vm_compute; reflexivity. }
  destruct Hs as [s Hs]. exists s.
  split; [now apply dao_sequence_item|]. split; [exact Hs|].
  now apply dao_id_of_label.
Qed.

Lemma dao_sequence_lookups_succeed_witness :
  exists s,
    py_index (dao_sequence 1000) (1000 - 1) = Some "DAO 1.0" /\
    DAO_STATS !! "DAO 1.0" = Some s /\ id s = 1.
Proof.
  destruct (dao_sequence_lookups_succeed 1000 1000 ltac:(lia))
    as (label & s & Hl & Hs & Hid).
  assert (E : label = "DAO 1.0").
  { rewrite dao_sequence_item in Hl by lia. now injection Hl as <-. }
  subst label. exists s. split; [exact Hl|]. split; [exact Hs | exact Hid].
Defined.

(** X4. The labels of a shorter sequence are the first labels of a longer
    one: asking for more runs does not change the label of any earlier
    run. *)
Theorem dao_sequence_prefix (m n : Z) :
  0 <= m <= n -> dao_sequence m = take (Z.to_nat m) (dao_sequence n).
Proof.
  intros Hmn. apply list_eq. intros k.
  destruct (Nat.lt_ge_cases k (Z.to_nat m)) as [Hlt | Hge].
  - rewrite lookup_take_lt by exact Hlt.
    pose proof (dao_sequence_item m (Z.of_nat k + 1) ltac:(lia)) as H1.
    pose proof (dao_sequence_item n (Z.of_nat k + 1) ltac:(lia)) as H2.
    unfold py_index in H1, H2.
    destruct (Z.leb_spec 0 (Z.of_nat k + 1 - 1)); [|lia].
    replace (Z.to_nat (Z.of_nat k + 1 - 1)) with k in H1, H2 by lia.
    now rewrite H1, H2.
  - rewrite lookup_ge_None_2 by (rewrite dao_sequence_length; lia).
    rewrite lookup_ge_None_2; [reflexivity|].
    rewrite length_take. lia.
Qed.

Lemma dao_sequence_prefix_witness :
  dao_sequence 4 = take 4 (dao_sequence 1000).
Proof. exact (dao_sequence_prefix 4 1000 ltac:(lia)). Defined.

Lemma one_to_succ (n : Z) : 0 <= n -> one_to (n + 1) = (one_to n ++ [n + 1])%list.
Proof.
  intros Hn. unfold one_to.
  replace (Z.to_nat (n + 1)) with (S (Z.to_nat n)) by lia.
  rewrite seq_S, map_app. simpl. do 2 f_equal. lia.
Qed.

(** X5. The three labels share the runs evenly: among the [n] labels,
    DAO 1.0 occurs [(n + 2) / 3] times, DAO 2.0 [(n + 1) / 3] times and
    DAO 3.0 [n / 3] times (334, 333 and 333 for the 1000 runs). *)
Theorem dao_sequence_balanced (n : Z) :
  0 <= n ->
  Z.of_nat (count_occ String.string_dec (dao_sequence n) "DAO 1.0") = (n + 2) / 3 /\
  Z.of_nat (count_occ String.string_dec (dao_sequence n) "DAO 2.0") = (n + 1) / 3 /\
  Z.of_nat (count_occ String.string_dec (dao_sequence n) "DAO 3.0") = n / 3.
Proof.
  intros Hn. rewrite dao_sequence_cycle by exact Hn.
  revert n Hn. apply natlike_ind; [repeat split|].
  intros n Hn (IH1 & IH2 & IH3). unfold Z.succ.
  rewrite one_to_succ, map_app, !count_occ_app by exact Hn.
  rewrite !Nat2Z.inj_add, IH1, IH2, IH3.
  change (map label_for [n + 1]) with [label_for (n + 1)].
  unfold label_for. replace (n + 1 - 1) with n by lia.
  pose proof (Z.mod_pos_bound n 3 ltac:(lia)) as Hb.
  destruct (n mod 3) as [|[q|q|]|q] eqn:E; simpl count_occ;
    repeat match goal with
    | |- context [String.string_dec ?a ?b] =>
        destruct (String.string_dec a b); try discriminate; try congruence
    end;
    simpl Z.of_nat; repeat split; Z.div_mod_to_equations; lia.
Qed.

Lemma dao_sequence_balanced_witness :
  Z.of_nat (count_occ String.string_dec (dao_sequence NUM_RUNS) "DAO 1.0") = 334 /\
  Z.of_nat (count_occ String.string_dec (dao_sequence NUM_RUNS) "DAO 2.0") = 333 /\
  Z.of_nat (count_occ String.string_dec (dao_sequence NUM_RUNS) "DAO 3.0") = 333.
Proof. exact (dao_sequence_balanced NUM_RUNS ltac:(unfold NUM_RUNS; lia)). Defined.

(** ** One run *)

(** X6. For a label that is not a key of [DAO_STATS], [simulate_one]
    raises [KeyError] at its first line: the state is the one it was
    called in, so no transaction was sent and nothing was drawn. *)
Theorem simulate_one_unknown_label {R} {RS : RandomSource R} {W}
    {CO : Collaborators W} fuel contract idx label sender (st : state R W) :
  DAO_STATS !! label = None ->
  simulate_one fuel contract idx label sender st = (Raise (KeyError label), st).
Proof.
  intros H. unfold simulate_one, bind, dict_item. now rewrite H.
Qed.

Lemma simulate_one_unknown_label_witness :
  simulate_one (RS := Demo.quiet) (CO := Demo.logged) 1 Demo.contract 4
    "DAO 4.0" Demo.sender (Demo.start Demo.deployed)
  = (Raise (KeyError "DAO 4.0"), Demo.start Demo.deployed).
Proof.
  apply (simulate_one_unknown_label (RS := Demo.quiet) (CO := Demo.logged)).
  vm_compute. reflexivity.
Defined.

(** X8. Away from the thresholds the stored values tell the flags: a
    record whose stored compliance is below 80.0 is flagged Y and one whose
    stored compliance is above 80.0 is flagged N; a stored ROI below 0 or
    a stored compliance below 65 goes with Rejected, and a stored ROI above
    0 with a stored compliance above 65 goes with Accepted.  Only a stored
    value equal to a threshold leaves the flag open. *)
Theorem flags_follow_stored_values {R} {RS : RandomSource R} {W}
    {CO : Collaborators W} fuel contract idx label sender
    (st st' : state R W) (rec : row) :
  simulate_one fuel contract idx label sender st = (Ok rec, st') ->
  exists comp roi violation outcome,
    row_get "Compliance (%)" rec = Some (PFloat comp) /\
    row_get "ROI (%)" rec = Some (PFloat roi) /\
    row_get "Compliance Violation" rec = Some (PStr violation) /\
    row_get "Decision Outcome" rec = Some (PStr outcome) /\
    ((comp < 80)%Q -> violation = "Y") /\
    ((80 < comp)%Q -> violation = "N") /\
    ((roi < 0)%Q \/ (comp < 65)%Q -> outcome = "Rejected") /\
    ((0 < roi)%Q /\ (65 < comp)%Q -> outcome = "Accepted").
Proof.
  intros H.
  apply simulate_one_Ok in H as (s & rc & p & m & Hs & _ & Hm & ->).
  apply synthesize_Ok in Hm as (r1 & r2 & r3 & r4 & _ & H2 & _ & _ & H5).
  apply truncated_normal_in_range in H2, H5.
  unfold COMPLIANCE_MIN, COMPLIANCE_MAX in H2. unfold ROI_MIN, ROI_MAX in H5.
  change (inject_Z 60) with 60%Q in H2. change (inject_Z 100) with 100%Q in H2.
  destruct H2 as [H2l H2h], H5 as [H5l H5h].
  exists (py_round (m_comp m) 1), (py_round (m_roi m) 2),
    (violation_of (m_comp m)), (outcome_of (m_roi m) (m_comp m)).
  do 4 (split; [reflexivity|]).
  assert (Hc80 : (py_round (m_comp m) 1 < 80 -> m_comp m < 80)%Q).
  { intros Hlt. destruct (Qlt_le_dec (m_comp m) 80) as [Hd | Hd]; [exact Hd|].
    pose proof (py_round_between (m_comp m) 80 100 1 800 1000
                  ltac:(reflexivity) ltac:(reflexivity) ltac:(split; lra)). lra. }
  assert (Hc80' : (80 < py_round (m_comp m) 1 -> 80 <= m_comp m)%Q).
  { intros Hlt. destruct (Qlt_le_dec (m_comp m) 80) as [Hd | Hd]; [|exact Hd].
    pose proof (py_round_between (m_comp m) 60 80 1 600 800
                  ltac:(reflexivity) ltac:(reflexivity) ltac:(split; lra)). lra. }
  assert (Hc65 : (py_round (m_comp m) 1 < 65 -> m_comp m < 65)%Q).
  { intros Hlt. destruct (Qlt_le_dec (m_comp m) 65) as [Hd | Hd]; [exact Hd|].
    pose proof (py_round_between (m_comp m) 65 100 1 650 1000
                  ltac:(reflexivity) ltac:(reflexivity) ltac:(split; lra)). lra. }
  assert (Hc65' : (65 < py_round (m_comp m) 1 -> 65 <= m_comp m)%Q).
  { intros Hlt. destruct (Qlt_le_dec (m_comp m) 65) as [Hd | Hd]; [|exact Hd].
    pose proof (py_round_between (m_comp m) 60 65 1 600 650
                  ltac:(reflexivity) ltac:(reflexivity) ltac:(split; lra)). lra. }
  assert (Hr0 : (py_round (m_roi m) 2 < 0 -> m_roi m < 0)%Q).
  { intros Hlt. destruct (Qlt_le_dec (m_roi m) 0) as [Hd | Hd]; [exact Hd|].
    pose proof (py_round_between (m_roi m) 0 9.0 2 0 900
                  ltac:(reflexivity) ltac:(reflexivity) ltac:(split; lra)). lra. }
  assert (Hr0' : (0 < py_round (m_roi m) 2 -> 0 <= m_roi m)%Q).
  { intros Hlt. destruct (Qlt_le_dec (m_roi m) 0) as [Hd | Hd]; [|exact Hd].
    pose proof (py_round_between (m_roi m) (-0.5) 0 2 (-50) 0
                  ltac:(reflexivity) ltac:(reflexivity) ltac:(split; lra)). lra. }
  split; [intros Hlt; apply violation_of_Y; apply Hc80 in Hlt; lra|].
  split; [intros Hlt; apply violation_of_N; apply Hc80' in Hlt; lra|].
  split.
  - intros [Hlt | Hlt]; apply outcome_of_Rejected; [left | right]; auto.
  - intros [Hlt1 Hlt2]. apply outcome_of_Accepted. split; auto.
Qed.

(** The first run on the demo chain: 71.0 is stored, below 80. *)
Lemma flags_follow_stored_values_witness :
  simulate_one (RS := Demo.quiet) (CO := Ganache.node)
    1 Demo.contract 1 "DAO 1.0" Demo.sender (Demo.ready [])
  = (Ok Demo.first_row, Demo.after_first) /\
  row_get "Compliance Violation" Demo.first_row = Some (PStr "Y") /\
  row_get "Decision Outcome" Demo.first_row = Some (PStr "Accepted").
Proof.
  assert (Hrun : simulate_one (RS := Demo.quiet) (CO := Ganache.node)
                   1 Demo.contract 1 "DAO 1.0" Demo.sender (Demo.ready [])
                 = (Ok Demo.first_row, Demo.after_first))
    by (vm_compute; reflexivity).
  destruct (flags_follow_stored_values (RS := Demo.quiet) (CO := Ganache.node)
              _ _ _ _ _ _ _ _ Hrun)
    as (comp & roi & v & o & Hc & Hr & Hv & Ho & HY & _ & _ & HA).
  vm_compute in Hc. injection Hc as <-.
  vm_compute in Hr. injection Hr as <-.
  split; [exact Hrun|]. split.
  - rewrite Hv, HY; [reflexivity | reflexivity].
  - rewrite Ho, HA; [reflexivity | split; reflexivity].
Defined.

(** ** Executions that do not succeed *)

Lemma last_error_snoc (l : list event) (ev : event) :
  last_error (l ++ [ev]) = event_error ev.
Proof. unfold last_error. now rewrite last_snoc. Qed.

Lemma last_error_app (l1 l2 : list event) :
  l2 <> [] -> last_error (l1 ++ l2) = last_error l2.
Proof.
  intros Hne. unfold last_error.
  destruct (exists_last Hne) as (l & ev & ->).
  now rewrite app_assoc, !last_snoc.
Qed.

Section AnyOutcome.
Context {R : Type} {RS : RandomSource R} {W : Type} {CO : Collaborators W}.

(** The sampler stage raises nothing. *)
Lemma synthesize_no_raise fuel s (r : R) e r' :
  synthesize fuel s r <> (Raise e, r').
Proof.
  unfold synthesize, bind, ret. intros H.
  repeat match type of H with
  | context [truncated_normal ?f ?a ?b ?c ?d ?x] =>
      let E := fresh "E" in
      destruct (truncated_normal f a b c d x) as [[?| ? |] ?] eqn:E;
        [| injection H as -> ->; now apply truncated_normal_no_raise in E
         | discriminate H]
  end.
  discriminate H.
Qed.

(** Whatever its outcome, the ledger stage of a run submits the decision of
    the run, once, to the contract and from the sender it was given; it
    writes no table; and an exception it raises is the answer of the last
    call it made. *)
Lemma orchestrate_any contract proposal_id dao_id sender (wl : W * list event) :
  exists evs,
    snd (snd (orchestrate (CO := Logged W) contract proposal_id dao_id sender wl))
    = (snd wl ++ evs)%list /\
    decisions_submitted evs = [(proposal_id, dao_id)] /\
    decision_targets evs = [(contract, sender)] /\
    tables_written evs = [] /\
    forall e,
      fst (orchestrate (CO := Logged W) contract proposal_id dao_id sender wl)
      = Raise e ->
      last_error evs = Some e.
Proof.
  unfold orchestrate, bind, total, ret.
  cbn [time_time executeDecision_transact w3_eth_wait_for_transaction_receipt
       w3_eth_gas_price Logged].
  unfold logging. destruct wl as [w l]. cbn [fst snd].
  destruct (time_time w) as [t0 w1]. cbn [fst snd].
  destruct (executeDecision_transact contract proposal_id dao_id sender w1)
    as [[h|e1|] w2]; cbn [fst snd];
    try (eexists; split; [rewrite <- !app_assoc; reflexivity|];
         repeat split; intros e [= <-]; reflexivity).
  destruct (w3_eth_wait_for_transaction_receipt h w2) as [[rc|e2|] w3];
    cbn [fst snd];
    try (eexists; split; [rewrite <- !app_assoc; reflexivity|];
         repeat split; intros e [= <-]; reflexivity).
  destruct (time_time w3) as [t1 w4]. cbn [fst snd].
  destruct (w3_eth_gas_price w4) as [[p|e3|] w5]; cbn [fst snd];
    eexists; (split; [rewrite <- !app_assoc; reflexivity|]);
    repeat split; intros e [= <-]; reflexivity.
Qed.

(** ... and so does the whole run, whose sampler stage calls nobody. *)
Lemma simulate_one_any fuel contract idx label sender s
    (st st' : state R (W * list event)) res :
  DAO_STATS !! label = Some s ->
  simulate_one (CO := Logged W) fuel contract idx label sender st = (res, st') ->
  exists evs,
    snd (world st') = (snd (world st) ++ evs)%list /\
    decisions_submitted evs = [(idx, id s)] /\
    decision_targets evs = [(contract, sender)] /\
    tables_written evs = [] /\
    forall e, res = Raise e -> last_error evs = Some e.
Proof.
  intros Hs. rewrite simulate_one_stages.
  unfold staged, bind, dict_item. rewrite Hs. unfold ret at 1.
  unfold lift_world, lift_rng.
  destruct (orchestrate_any contract idx (id s) sender (world st))
    as (evs & Hlog & Hd & Ht & Htab & Herr).
  destruct (orchestrate contract idx (id s) sender (world st))
    as [[[rc p]|e0|] wl'] eqn:Ho; cbn [fst snd rng world] in *.
  - destruct (synthesize fuel s (rng st)) as [[m|e1|] r'] eqn:Hm;
      cbn [fst snd rng world].
    + unfold ret. intros [= <- <-]. exists evs. cbn [world].
      repeat split; try assumption. discriminate.
    + now apply synthesize_no_raise in Hm.
    + intros [= <- <-]. exists evs. cbn [world].
      repeat split; try assumption. discriminate.
  - intros [= <- <-]. exists evs. cbn [world].
    repeat split; try assumption. intros e [= <-]. now apply Herr.
  - intros [= <- <-]. exists evs. cbn [world].
    repeat split; try assumption. discriminate.
Qed.
End AnyOutcome.

Lemma decision_targets_app (l1 l2 : list event) :
  decision_targets (l1 ++ l2)
  = (decision_targets l1 ++ decision_targets l2)%list.
Proof.
  induction l1 as [|ev l1 IH]; [reflexivity|].
  simpl. destruct ev; try exact IH. simpl. now rewrite IH.
Qed.

Section AnyOutcomeLoop.
Context {R : Type} {RS : RandomSource R} {W : Type} {CO : Collaborators W}.

(** Whatever its outcome, the loop over indices between 1 and [n] submits
    the decisions of a first part of its indices, in order and one each,
    writes no table, raises only what the last call answered, and leaves
    the generator alone as long as it has submitted nothing. *)
Lemma run_full_loop_any fuel contract sender (n : Z) indices rows
    (st st' : state R (W * list event)) res :
  Forall (fun i => 1 <= i <= n) indices ->
  run_full_loop (CO := Logged W) fuel contract sender (dao_sequence n)
    indices rows st = (res, st') ->
  exists evs k,
    snd (world st') = (snd (world st) ++ evs)%list /\
    (k <= length indices)%nat /\
    decisions_submitted evs
    = map (fun i => (i, dao_id_for i)) (take k indices) /\
    decision_targets evs = replicate k (contract, sender) /\
    tables_written evs = [] /\
    (forall e, res = Raise e -> last_error evs = Some e) /\
    (forall out, res = Ok out -> k = length indices) /\
    (decisions_submitted evs = [] -> rng st' = rng st).
Proof.
  revert rows st res st'.
  induction indices as [|i indices IH]; intros rows st res st' Hall H.
  - injection H as <- <-. exists [], 0%nat. rewrite app_nil_r.
    repeat split; try reflexivity; try discriminate; simpl; lia.
  - apply Forall_cons in Hall as [Hi Hall].
    assert (Hs : exists s, DAO_STATS !! label_for i = Some s).
    { unfold label_for. destruct ((i - 1) mod 3) as [|[q|q|]|q];
        eexists; vm_compute; reflexivity. }
    destruct Hs as [s Hs]. pose proof (dao_id_of_label i s Hs) as Hid.
    simpl in H. unfold bind at 1, list_item in H.
    rewrite (dao_sequence_item n i Hi) in H. unfold ret at 1 in H.
    unfold bind at 1 in H.
    destruct (simulate_one fuel contract i (label_for i) sender st)
      as [[r|e0|] st1] eqn:Hsim;
      destruct (simulate_one_any _ _ _ _ _ _ _ _ _ Hs Hsim)
        as (evs & Hlog & Hd & Ht & Htab & Herr); rewrite Hid in Hd.
    + destruct (IH _ _ _ _ Hall H)
        as (evs' & k & Hlog' & Hk & Hd' & Ht' & Htab' & Herr' & Hok' & _).
      exists (evs ++ evs')%list, (S k).
      rewrite Hlog', Hlog, <- app_assoc, decisions_submitted_app,
        decision_targets_app, tables_written_app, Hd, Hd', Ht, Ht', Htab, Htab'.
      split; [reflexivity|]. split; [simpl; lia|].
      split; [reflexivity|]. split; [reflexivity|]. split; [reflexivity|].
      split; [|split; [|discriminate]].
      * intros e He. specialize (Herr' e He).
        destruct evs' as [|ev evs']; [discriminate Herr'|].
        now rewrite last_error_app.
      * intros out Hout. simpl. f_equal. now apply (Hok' out).
    + injection H as <- <-. exists evs, 1%nat.
      split; [exact Hlog|]. split; [simpl; lia|].
      split; [exact Hd|]. split; [exact Ht|]. split; [exact Htab|].
      split; [intros e [= <-]; now apply Herr|]. split; [discriminate|].
      rewrite Hd. discriminate.
    + injection H as <- <-. exists evs, 1%nat.
      split; [exact Hlog|]. split; [simpl; lia|].
      split; [exact Hd|]. split; [exact Ht|]. split; [exact Htab|].
      split; [discriminate|]. split; [discriminate|].
      rewrite Hd. discriminate.
Qed.
End AnyOutcomeLoop.

Section AnyOutcomeRun.
Context {R : Type} {RS : RandomSource R} {W : Type} {CO : Collaborators W}.

Ltac close_branch :=
  intros [= <- <-]; eexists;
  split; [cbn [fst snd]; rewrite <- ?app_assoc; reflexivity|];
  split; [reflexivity|]; split; [reflexivity|]; split; [reflexivity|];
  let e := fresh "e" in
  let He := fresh "He" in
  intros e He; try discriminate He; injection He as <-;
  first [ left; left; split; reflexivity
        | left; right; split; reflexivity
        | right; reflexivity ].

(** Whatever its outcome, the set-up submits no decision and writes no
    table, and an exception it raises is one of the two start-up errors or
    the answer of the last call made. *)
Lemma setup_any (wl wl' : W * list event)
    (res : result (contract_handle * address)) :
  setup (CO := Logged W) wl = (res, wl') ->
  exists evs,
    snd wl' = (snd wl ++ evs)%list /\
    decisions_submitted evs = [] /\
    decision_targets evs = [] /\
    tables_written evs = [] /\
    forall e, res = Raise e -> startup_failure e evs \/ last_error evs = Some e.
Proof.
  unfold setup, bind, total, ret, raise.
  cbn [w3_is_connected w3_eth_accounts install_solc compile_standard
       constructor_transact w3_eth_wait_for_transaction_receipt path_mkdir
       Logged].
  unfold logging. destruct wl as [w l]. cbn [fst snd].
  destruct (w3_is_connected w) as [[|] w1]; cbn [fst snd negb];
    [|close_branch].
  destruct (w3_eth_accounts w1) as [[[|sender others]|e1|] w2];
    cbn [fst snd]; try close_branch.
  destruct (install_solc SOLC_VERSION w2) as [[[]|e2|] w3];
    cbn [fst snd]; try close_branch.
  destruct (compile_standard CONTRACT_SOURCE SOLC_VERSION w3)
    as [[[abi bytecode]|e3|] w4]; cbn [fst snd]; try close_branch.
  destruct (constructor_transact abi bytecode sender w4) as [[h|e4|] w5];
    cbn [fst snd]; try close_branch.
  destruct (w3_eth_wait_for_transaction_receipt h w5) as [[rc|e5|] w6];
    cbn [fst snd]; try close_branch.
  destruct (path_mkdir "data" w6) as [[[]|e6|] w7];
    cbn [fst snd]; close_branch.
Qed.

(** Whatever the outcome of [run_full], the calls it made are known up to
    the point where it stopped. *)
Lemma run_all_any fuel seed_value (n : Z)
    (st st' : state R (W * list event)) (res : result unit) :
  run_all (CO := Logged W) fuel seed_value n st = (res, st') ->
  exists evs k,
    snd (world st') = (snd (world st) ++ evs)%list /\
    (k <= Z.to_nat n)%nat /\
    decisions_submitted evs
    = map (fun i => (i, dao_id_for i)) (take k (one_to n)) /\
    (exists contract sender,
        decision_targets evs = replicate k (contract, sender)) /\
    (res <> Ok tt -> tables_written evs = []) /\
    (forall e, res = Raise e ->
               startup_failure e evs \/ last_error evs = Some e) /\
    (decisions_submitted evs = [] -> rng st' = random_seed seed_value).
Proof.
  rewrite run_all_stages. unfold run_all_staged, bind at 1, set_seed.
  unfold bind at 1, lift_world at 1. cbn [world rng].
  destruct (setup (world st)) as [[[contract sender]|e0|] wl1] eqn:Hsetup;
    destruct (setup_any _ _ _ Hsetup) as (evs0 & Hlog0 & Hd0 & Ht0 & Htab0 & Herr0).
  - unfold bind at 1. cbn [fst snd].
    destruct (run_full_loop fuel contract sender (dao_sequence n)
                (py_range 1 (n + 1)) []
                {| rng := random_seed seed_value; world := wl1 |})
      as [[rows|e1|] st2] eqn:Hloop;
      rewrite py_range_one_to in Hloop;
      destruct (run_full_loop_any _ _ _ _ _ _ _ _ _ (one_to_bounds n) Hloop)
        as (evs1 & k & Hlog1 & Hk & Hd1 & Ht1 & Htab1 & Herr1 & Hok1 & Hrng1);
      rewrite one_to_length in Hk; cbn [world rng] in Hlog1, Hrng1.
    + unfold lift_world. cbn [to_excel Logged]. unfold logging.
      destruct (to_excel rows OUTPUT_XLSX (fst (world st2))) as [a w3] eqn:Hx.
      intros [= <- <-]. cbn [world rng fst snd].
      exists (evs0 ++ evs1 ++ [EvToExcel rows OUTPUT_XLSX a])%list, k.
      rewrite Hlog1, Hlog0, <- !app_assoc, !decisions_submitted_app,
        !decision_targets_app, !tables_written_app, Hd0, Hd1, Ht0, Ht1,
        Htab0, Htab1.
      cbn [decisions_submitted decision_targets app]. rewrite !app_nil_r.
      split; [reflexivity|]. split; [exact Hk|]. split; [reflexivity|].
      split; [eauto|]. split; [|split].
      * intros Hne. destruct a as [[]|e2|]; [congruence|reflexivity..].
      * intros e ->. right.
        rewrite app_assoc. apply last_error_snoc.
      * intros Hnil. rewrite Hnil in Hd1. now apply Hrng1.
    + intros [= <- <-].
      exists (evs0 ++ evs1)%list, k.
      rewrite Hlog1, Hlog0, <- !app_assoc, !decisions_submitted_app,
        !decision_targets_app, !tables_written_app, Hd0, Hd1, Ht0, Ht1,
        Htab0, Htab1.
      cbn [app].
      split; [reflexivity|]. split; [exact Hk|]. split; [reflexivity|].
      split; [eauto|]. split; [reflexivity|]. split.
      * intros e [= <-]. right.
        specialize (Herr1 e1 eq_refl).
        destruct evs1 as [|ev evs1]; [discriminate Herr1|].
        now rewrite last_error_app.
      * intros Hnil. rewrite Hnil in Hd1. now apply Hrng1.
    + intros [= <- <-].
      exists (evs0 ++ evs1)%list, k.
      rewrite Hlog1, Hlog0, <- !app_assoc, !decisions_submitted_app,
        !decision_targets_app, !tables_written_app, Hd0, Hd1, Ht0, Ht1,
        Htab0, Htab1.
      cbn [app].
      split; [reflexivity|]. split; [exact Hk|]. split; [reflexivity|].
      split; [eauto|]. split; [reflexivity|]. split; [discriminate|].
      intros Hnil. rewrite Hnil in Hd1. now apply Hrng1.
  - intros [= <- <-]. exists evs0, 0%nat. cbn [world rng take map replicate].
    split; [exact Hlog0|]. split; [lia|]. split; [exact Hd0|].
    split; [exists {| contract_address := 0; contract_abi := "" |}, 0;
            exact Ht0|].
    split; [intros _; exact Htab0|]. split; [|reflexivity].
    intros e [= <-]. now apply Herr0.
  - intros [= <- <-]. exists evs0, 0%nat. cbn [world rng take map replicate].
    split; [exact Hlog0|]. split; [lia|]. split; [exact Hd0|].
    split; [exists {| contract_address := 0; contract_abi := "" |}, 0;
            exact Ht0|].
    split; [intros _; exact Htab0|]. split; [discriminate | reflexivity].
Qed.
End AnyOutcomeRun.

(** ** [run_full], whatever its outcome *)

(** X9. All or nothing: when [run_full] does not return normally, because a
    call raised at any point or because a draw never landed, no table has
    been written; the rows of the runs already made are lost. *)
Theorem run_full_writes_nothing_on_failure {R} {RS : RandomSource R} {W}
    {CO : Collaborators W} fuel seed_value (n : Z)
    (st st' : state R (W * list event)) (res : result unit) :
  run_all (CO := Logged W) fuel seed_value n st = (res, st') ->
  res <> Ok tt ->
  tables_written (snd (world st')) = tables_written (snd (world st)).
Proof.
  intros H Hne. apply run_all_any in H
    as (evs & k & Hlog & _ & _ & _ & Htab & _).
  rewrite Hlog, tables_written_app, (Htab Hne). apply app_nil_r.
Qed.

(** Five runs of which the third times out: two rows were made, none is
    written. *)
Lemma run_full_writes_nothing_on_failure_witness :
  run_all (RS := Demo.quiet)
    (CO := Logged Ganache.chain (CO := Demo.faulty true 3)) 1 42 5
    (Demo.start Ganache.fresh)
  = (Raise (CollaboratorError "timeout"), Demo.after_timeout) /\
  tables_written (snd (world Demo.after_timeout)) = [] /\
  Ganache.decisionCount (fst (world Demo.after_timeout)) = 2.
Proof.
  assert (Hrun : run_all (RS := Demo.quiet)
                   (CO := Logged Ganache.chain (CO := Demo.faulty true 3))
                   1 42 5 (Demo.start Ganache.fresh)
                 = (Raise (CollaboratorError "timeout"), Demo.after_timeout))
    by (vm_compute; reflexivity).
  split; [exact Hrun|]. split; [|vm_compute; reflexivity].
  apply (run_full_writes_nothing_on_failure (RS := Demo.quiet)
           (CO := Demo.faulty true 3) _ _ _ _ _ _ Hrun).
  discriminate.
Defined.

(** X10. Whatever the outcome of [run_full], the decisions it submitted are
    those of the runs 1, 2, ..., k for some [k <= n], in this order and
    once each, run [i] carrying [i] and the generation id of its turn, and
    all were sent to one contract from one sender: no run is skipped,
    repeated or retried. *)
Theorem decisions_in_order_whatever_happens {R} {RS : RandomSource R} {W}
    {CO : Collaborators W} fuel seed_value (n : Z)
    (st : state R (W * list event)) :
  exists k contract sender,
    (k <= Z.to_nat n)%nat /\
    decisions_submitted
      (snd (world (snd (run_all (CO := Logged W) fuel seed_value n st))))
    = (decisions_submitted (snd (world st))
       ++ map (fun i => (i, dao_id_for i)) (take k (one_to n)))%list /\
    decision_targets
      (snd (world (snd (run_all (CO := Logged W) fuel seed_value n st))))
    = (decision_targets (snd (world st))
       ++ replicate k (contract, sender))%list.
Proof.
  destruct (run_all (CO := Logged W) fuel seed_value n st) as [res st'] eqn:H.
  apply run_all_any in H
    as (evs & k & Hlog & Hk & Hd & (contract & sender & Ht) & _).
  exists k, contract, sender. cbn [snd].
  rewrite Hlog, decisions_submitted_app, decision_targets_app, Hd, Ht.
  auto.
Qed.



(** X12. Nothing is drawn before the first decision is submitted: when
    [run_full] ends, however it ends, without having submitted a decision,
    the generator is in the state in which seeding put it.  This covers
    every failure of the set-up: connection, accounts, compiler,
    compilation, deployment, receipt and directory. *)
Theorem no_draw_before_first_decision {R} {RS : RandomSource R} {W}
    {CO : Collaborators W} fuel seed_value (n : Z)
    (st st' : state R (W * list event)) (res : result unit) :
  run_all (CO := Logged W) fuel seed_value n st = (res, st') ->
  decisions_submitted (snd (world st')) = decisions_submitted (snd (world st)) ->
  rng st' = random_seed seed_value.
Proof.
  intros H Hsame. apply run_all_any in H
    as (evs & k & Hlog & _ & _ & _ & _ & _ & Hrng).
  apply Hrng. rewrite Hlog, decisions_submitted_app in Hsame.
  rewrite <- (app_nil_r (decisions_submitted (snd (world st)))) in Hsame at 2.
  now apply app_inv_head in Hsame.
Qed.

(** The compiler is missing: the execution stops at [install_solc], and the
    stream of seed 42 is untouched. *)
Lemma no_draw_before_first_decision_witness :
  run_all (RS := Demo.noisy)
    (CO := Logged Ganache.chain (CO := Demo.faulty false 3)) 2 42 5
    Demo.busy_start
  = (Raise (CollaboratorError "no solc"), Demo.after_no_solc) /\
  rng Demo.after_no_solc = [30; 0.5; -1; 0.25; 0; 1]%Q.
Proof.
  assert (Hrun : run_all (RS := Demo.noisy)
                   (CO := Logged Ganache.chain (CO := Demo.faulty false 3))
                   2 42 5 Demo.busy_start
                 = (Raise (CollaboratorError "no solc"), Demo.after_no_solc))
    by (vm_compute; reflexivity).
  split; [exact Hrun|].
  rewrite (no_draw_before_first_decision (RS := Demo.noisy)
             (CO := Demo.faulty false 3) _ _ _ _ _ _ Hrun);
    [reflexivity | vm_compute; reflexivity].
Defined.

(** X7. The ledger comes first: a run that raises, be it for an unknown
    label, a transaction refused, a receipt not obtained or a gas price not
    read, has drawn nothing; the generator is as the run found it. *)
Theorem simulate_one_raises_before_drawing {R} {RS : RandomSource R} {W}
    {CO : Collaborators W} fuel contract idx label sender
    (st st' : state R W) (e : exn) :
  simulate_one fuel contract idx label sender st = (Raise e, st') ->
  rng st' = rng st.
Proof.
  rewrite simulate_one_stages. unfold staged, bind, dict_item.
  destruct (DAO_STATS !! label) as [s|]; [|now intros [= _ <-]].
  unfold ret at 1, lift_world, lift_rng.
  destruct (orchestrate contract idx (id s) sender (world st))
    as [[[rc p]|e0|] w']; cbn [fst snd rng world].
  - destruct (synthesize fuel s (rng st)) as [[m|e1|] r'] eqn:Hm;
      [discriminate | now apply synthesize_no_raise in Hm | discriminate].
  - now intros [= _ <-].
  - discriminate.
Qed.

(** A transaction sent to an address where no contract lives. *)
Lemma simulate_one_raises_before_drawing_witness :
  simulate_one (RS := Demo.quiet) (CO := Ganache.node) 1 Demo.contract 1
    "DAO 1.0" Demo.sender {| rng := [1]%Q; world := Ganache.fresh |}
  = (Raise (CollaboratorError "no contract"),
     {| rng := [1]%Q; world := snd (Ganache.tick Ganache.fresh) |}) /\
  rng {| rng := [1]%Q; world := snd (Ganache.tick Ganache.fresh) |} = [1]%Q.
Proof.
  assert (Hrun : simulate_one (RS := Demo.quiet) (CO := Ganache.node) 1
                   Demo.contract 1 "DAO 1.0" Demo.sender
                   {| rng := [1]%Q; world := Ganache.fresh |}
                 = (Raise (CollaboratorError "no contract"),
                    {| rng := [1]%Q;
                       world := snd (Ganache.tick Ganache.fresh) |}))
    by (vm_compute; reflexivity).
  split; [exact Hrun|].
  exact (simulate_one_raises_before_drawing (RS := Demo.quiet)
           (CO := Ganache.node) _ _ _ _ _ _ _ _ Hrun).
Defined.

(** ** [run_full] returns when nothing fails *)

Lemma DAO_STATS_Some (label : string) (s : profile) :
  DAO_STATS !! label = Some s ->
  label = "DAO 1.0" /\ s = DAO_1_0 \/
  label = "DAO 2.0" /\ s = DAO_2_0 \/
  label = "DAO 3.0" /\ s = DAO_3_0.
Proof.
  unfold DAO_STATS. intros H.
  apply lookup_insert_Some in H as [[<- <-] | [_ H]]; [auto|].
  apply lookup_insert_Some in H as [[<- <-] | [_ H]]; [auto|].
  apply lookup_insert_Some in H as [[<- <-] | [_ H]]; [auto|].
  now rewrite lookup_empty in H.
Qed.

Lemma fst_logging {W A} (f : W -> A * W) (ev : A -> event) wl :
  fst (logging f ev wl) = fst (f (fst wl)).
Proof. unfold logging. now destruct (f (fst wl)). Qed.

Lemma snd_logging {W A} (f : W -> A * W) (ev : A -> event) wl :
  fst (snd (logging f ev wl)) = snd (f (fst wl)).
Proof. unfold logging. now destruct (f (fst wl)). Qed.

(** The dialogue of a ledger, seen under the log. *)
Lemma cooperative_Logged {W} {CO : Collaborators W} (n : Z) (d : dialogue W) :
  cooperative (CO := CO) n d ->
  cooperative (CO := Logged W) n
    {| up wl := up d (fst wl);
       deploying h abi wl := deploying d h abi (fst wl);
       serving c k wl := serving d c k (fst wl);
       deciding c k h wl := deciding d c k h (fst wl) |}.
Proof.
  unfold cooperative, leads.
  intros (H1 & H2 & H3 & H4 & H5 & H6 & H7 & H8 & H9 & H10 & H11 & H12).
  cbn [w3_is_connected w3_eth_accounts w3_eth_gas_price
       w3_eth_wait_for_transaction_receipt constructor_transact
       executeDecision_transact install_solc compile_standard path_mkdir
       time_time to_excel Logged up deploying serving deciding].
  repeat split; intros; rewrite ?fst_logging, ?snd_logging; eauto;
    try (now apply H1).
Qed.

Lemma dao_sequence_lookups_succeed_aux (n i : Z) :
  1 <= i <= n ->
  exists s,
    py_index (dao_sequence n) (i - 1) = Some (label_for i) /\
    DAO_STATS !! label_for i = Some s.
Proof.
  intros Hi.
  assert (Hs : exists s, DAO_STATS !! label_for i = Some s).
  { unfold label_for. destruct ((i - 1) mod 3) as [|[q|q|]|q];
      eexists; vm_compute; reflexivity. }
  destruct Hs as [s Hs]. exists s. split; [now apply dao_sequence_item | exact Hs].
Qed.

Section Totality.
Context {R : Type} {RS : RandomSource R} {W : Type} {CO : Collaborators W}.
Variables (n : Z) (d : dialogue W).
Hypothesis Hcoop : cooperative n d.
Variables (fuel : nat) (seed_value : Z) (good : R -> Prop).
Hypothesis Hsampler : sampler_returns fuel seed_value good.

(** Applies a hypothesis of the form [leads P f Q] at a world of [P]. *)
Ltac answer H Hw a w' E HQ :=
  let Ha := fresh "Ha" in
  destruct (H _ Hw) as (a & Ha & HQ);
  match type of Ha with
  | fst ?c = _ =>
      destruct c as [? w'] eqn:E; cbn [fst snd] in Ha, HQ; subst
  end.

Lemma orchestrate_total contract k proposal_id dao_id sender (w : W) :
  serving d contract (S k) w ->
  1 <= proposal_id <= n -> 1 <= dao_id <= 3 ->
  exists rc p w',
    orchestrate contract proposal_id dao_id sender w = (Ok (rc, p), w') /\
    serving d contract k w'.
Proof.
  intros Hw Hi Hv.
  destruct Hcoop as (_ & _ & _ & _ & _ & _ & _ & H8 & H9 & H10 & H11 & _).
  pose proof (H8 _ _ _ Hw) as Hw1.
  destruct (time_time w) as [t0 w1] eqn:E0. cbn [snd] in Hw1.
  answer (H9 contract k proposal_id dao_id sender Hi Hv) Hw1 h w2 E1 Hw2.
  answer (H10 contract k h) Hw2 rc w3 E2 Hw3.
  pose proof (H8 _ _ _ Hw3) as Hw4.
  destruct (time_time w3) as [t1 w4] eqn:E3. cbn [snd] in Hw4.
  answer (H11 contract k) Hw4 p w5 E4 Hw5.
  exists rc, p, w5. split; [|exact Hw5].
  eapply orchestrate_intro; eassumption.
Qed.

Lemma simulate_one_total contract k idx label sender s (st : state R W) :
  DAO_STATS !! label = Some s ->
  serving d contract (S k) (world st) -> good (rng st) ->
  1 <= idx <= n ->
  exists row st',
    simulate_one fuel contract idx label sender st = (Ok row, st') /\
    serving d contract k (world st') /\ good (rng st').
Proof.
  intros Hs Hw Hr Hi.
  assert (Hv : 1 <= id s <= 3).
  { apply DAO_STATS_Some in Hs as [[_ ->] | [[_ ->] | [_ ->]]]; simpl; lia. }
  destruct (orchestrate_total contract k idx (id s) sender (world st) Hw Hi Hv)
    as (rc & p & w' & Ho & Hw').
  destruct Hsampler as [_ Hdraw].
  destruct (Hdraw label s (rng st) Hs Hr) as (m & Hm & Hr').
  destruct (synthesize fuel s (rng st)) as [a r'] eqn:E.
  cbn [fst snd] in Hm, Hr'. subst a.
  eexists _, _. split; [eapply simulate_one_intro; eassumption|].
  split; assumption.
Qed.

Lemma run_full_loop_total contract sender indices rows (st : state R W) :
  Forall (fun i => 1 <= i <= n) indices ->
  serving d contract (length indices) (world st) -> good (rng st) ->
  exists out st',
    run_full_loop fuel contract sender (dao_sequence n) indices rows st
    = (Ok out, st') /\
    serving d contract 0 (world st').
Proof.
  revert rows st. induction indices as [|i indices IH]; intros rows st Hall Hw Hr.
  - eexists _, _. split; [reflexivity | exact Hw].
  - apply Forall_cons in Hall as [Hi Hall].
    destruct (dao_sequence_lookups_succeed_aux n i Hi) as (s & Hl & Hs).
    destruct (simulate_one_total contract (length indices) i (label_for i)
                sender s st Hs Hw Hr Hi)
      as (r & st1 & Hsim & Hw1 & Hr1).
    destruct (IH (rows ++ [r])%list st1 Hall Hw1 Hr1) as (out & st' & Hloop & Hw').
    exists out, st'. split; [|exact Hw']. simpl. unfold bind, list_item.
    rewrite Hl. unfold ret at 1. now rewrite Hsim.
Qed.

Lemma setup_total (w : W) :
  up d w ->
  exists contract sender w',
    setup w = (Ok (contract, sender), w') /\
    serving d contract (Z.to_nat n) w'.
Proof.
  intros Hw.
  destruct Hcoop as (H1 & H2 & H3 & H4 & H5 & H6 & H7 & _).
  destruct (H1 _ Hw) as [Hc Hw1].
  destruct (w3_is_connected w) as [c w1] eqn:E0. cbn [fst snd] in Hc, Hw1.
  subst c.
  answer H2 Hw1 accounts w2 E1 Hw2. destruct Hw2 as [Hne Hw2].
  destruct accounts as [|sender others]; [congruence|].
  answer (H3 SOLC_VERSION) Hw2 u w3 E2 Hw3. destruct u.
  answer (H4 CONTRACT_SOURCE SOLC_VERSION) Hw3 ab w4 E3 Hw4.
  destruct ab as [abi bytecode].
  answer (H5 abi bytecode sender) Hw4 h w5 E4 Hw5.
  answer (H6 h abi) Hw5 rc w6 E5 Hw6.
  answer (H7 {| contract_address := contractAddress rc; contract_abi := abi |}
            (Z.to_nat n) "data") Hw6 u w7 E6 Hw7. destruct u.
  eexists _, sender, w7. split; [|exact Hw7].
  eapply setup_intro; eassumption.
Qed.

Lemma run_all_total (st : state R W) :
  up d (world st) ->
  exists st', run_all fuel seed_value n st = (Ok tt, st').
Proof.
  intros Hw.
  destruct Hcoop as (_ & _ & _ & _ & _ & _ & _ & _ & _ & _ & _ & H12).
  rewrite run_all_stages. unfold run_all_staged, bind at 1, set_seed.
  unfold bind at 1, lift_world at 1. cbn [world rng].
  destruct (setup_total (world st) Hw) as (contract & sender & w1 & Hsetup & Hw1).
  rewrite Hsetup. unfold bind at 1. cbn [fst snd].
  destruct (run_full_loop_total contract sender (py_range 1 (n + 1)) []
              {| rng := random_seed seed_value; world := w1 |})
    as (rows & st2 & Hloop & Hw2).
  { rewrite py_range_one_to. apply one_to_bounds. }
  { rewrite py_range_one_to, one_to_length. exact Hw1. }
  { apply Hsampler. }
  rewrite Hloop. unfold lift_world.
  answer (H12 contract rows OUTPUT_XLSX) Hw2 u w3 E HT. destruct u.
  eexists. reflexivity.
Qed.
End Totality.


(** The single-node chain keeps its part of the dialogue over any number of
    runs that fits a [uint256]. *)
Lemma py_index_snoc {A} (l : list A) (x : A) :
  py_index (l ++ [x]) (Z.of_nat (length l)) = Some x.
Proof.
  unfold py_index. destruct (Z.leb_spec 0 (Z.of_nat (length l))); [|lia].
  rewrite Nat2Z.id, lookup_app_r, Nat.sub_diag by lia. reflexivity.
Qed.

Lemma node_cooperative (n : Z) :
  n <= Ganache.uint256_max ->
  cooperative (CO := Ganache.node) n Demo.node_dialogue.
Proof.
  intros Hn.
  assert (Hmax0 : 0 <= Ganache.uint256_max) by (vm_compute; discriminate).
  unfold cooperative, leads.
  cbn [w3_is_connected w3_eth_accounts w3_eth_gas_price
       w3_eth_wait_for_transaction_receipt constructor_transact
       executeDecision_transact install_solc compile_standard path_mkdir
       time_time to_excel Ganache.node up deploying serving deciding
       Demo.node_dialogue].
  split; [|split; [|split; [|split; [|split; [|split; [|split; [|split;
    [|split; [|split; [|split]]]]]]]]]].
  - intros w [Hr Ha]. cbn. auto.
  - intros w [Hr Ha]. exists (Ganache.accounts w). cbn. auto.
  - intros version w H. exists tt. cbn. auto.
  - intros source version w H. eexists. cbn. auto.
  - intros abi bytecode sender w [Hr Ha]. unfold Ganache.deploy.
    rewrite Hr. cbn [negb]. eexists. split; [reflexivity|].
    cbn [fst snd Ganache.mine Ganache.reachable Ganache.receipts
         Ganache.deployed_at Ganache.decisionCount].
    split; [exact Hr|]. split; [lia|].
    eexists. split; [apply py_index_snoc|]. split; reflexivity.
  - intros h abi w (Hr & Hh & rc & Hidx & Hd & Hc).
    unfold Ganache.wait_for_receipt. rewrite Hidx.
    destruct (Z.leb_spec 0 h); [|lia]. exists rc. cbn [fst snd contract_address].
    split; [reflexivity|]. split; [exact Hr|]. split; [exact Hd|]. lia.
  - intros c k path w H. exists tt. cbn. auto.
  - intros c k w H. exact H.
  - intros c k i v sender Hi Hv w (Hr & Hd & H0 & Hmax).
    unfold Ganache.executeDecision. rewrite Hr, Hd. cbn [negb].
    rewrite bool_decide_eq_true_2 by reflexivity. cbn [negb].
    assert (Hfit : (0 <=? i) && (i <=? Ganache.uint256_max) && (0 <=? v)
                   && (v <=? Ganache.uint8_max) = true).
    { rewrite !andb_true_iff, !Z.leb_le. unfold Ganache.uint8_max.
      change (2 ^ 8 - 1) with 255. lia. }
    rewrite Hfit. cbn [negb].
    destruct (Z.ltb_spec Ganache.uint256_max (Ganache.decisionCount w + 1));
      [lia|].
    eexists. split; [reflexivity|].
    cbn [fst snd Ganache.mine Ganache.reachable Ganache.receipts
         Ganache.deployed_at Ganache.decisionCount].
    split; [repeat split; try assumption; lia|].
    split; [lia|]. eexists. apply py_index_snoc.
  - intros c k h w (Hs & Hh & rc & Hidx).
    unfold Ganache.wait_for_receipt. rewrite Hidx.
    destruct (Z.leb_spec 0 h); [|lia]. exists rc. cbn. auto.
  - intros c k w H. eexists. cbn. auto.
  - intros c rows path w H. exists tt. cbn. auto.
Qed.

(** Between two runs the generator [noisy] is in a state from which two
    unrollings suffice. *)
Lemma noisy_returns :
  sampler_returns (RS := Demo.noisy) 2 42 Demo.noisy_between_runs.
Proof.
  split; [left; reflexivity|].
  intros label s r Hs [-> | ->];
    apply DAO_STATS_Some in Hs as [[_ ->] | [[_ ->] | [_ ->]]];
    eexists; (split; [vm_compute; reflexivity | right; reflexivity]).
Qed.


(** ** Where the decisions go *)

Lemma run_log_targets contract sender seq indices rows log :
  run_log contract sender seq indices rows log ->
  decision_targets log = replicate (length indices) (contract, sender) /\
  length (filter is_transaction log) = length indices.
Proof.
  induction 1 as [|i indices r rows log label s t0 h rc t1 p
                    Hl Hs Hid Hgen Hgas _ [IH1 IH2]]; [split; reflexivity|].
  rewrite decision_targets_app, filter_app, length_app, IH1, IH2.
  split; reflexivity.
Qed.

(** X14. In a successful [run_full] every decision is sent to the contract
    found at the address that the receipt of this execution's deployment
    gives, with the ABI the compiler returned, and from the first account
    of the node; the execution submits [n + 1] transactions in all, the
    deployment and one per run. *)
Theorem decisions_go_to_the_deployed_contract {R} {RS : RandomSource R} {W}
    {CO : Collaborators W} fuel seed_value (n : Z)
    (st st' : state R (W * list event)) :
  run_all (CO := Logged W) fuel seed_value n st = (Ok tt, st') ->
  exists sender others abi bytecode h rc evs rows,
    snd (world st')
    = (snd (world st)
       ++ setup_events sender others abi bytecode h rc
       ++ evs ++ [EvToExcel rows OUTPUT_XLSX (Ok tt)])%list /\
    decision_targets evs
    = replicate (Z.to_nat n)
        ({| contract_address := contractAddress rc; contract_abi := abi |},
         sender) /\
    length (filter is_transaction
              (setup_events sender others abi bytecode h rc ++ evs
               ++ [EvToExcel rows OUTPUT_XLSX (Ok tt)])%list)
    = S (Z.to_nat n).
Proof.
  intros H. apply run_all_logged in H
    as (sender & others & abi & bytecode & h & rc & log & rows
        & Hlog & Hrl & _).
  rewrite py_range_one_to in Hrl.
  apply run_log_targets in Hrl as [Ht Hn]. rewrite one_to_length in Ht, Hn.
  exists sender, others, abi, bytecode, h, rc, log, rows.
  split; [exact Hlog|]. split; [exact Ht|].
  rewrite !filter_app, !length_app, Hn.
  change (length (filter is_transaction
                    (setup_events sender others abi bytecode h rc)))
    with 1%nat.
  change (length (filter is_transaction [EvToExcel rows OUTPUT_XLSX (Ok tt)]))
    with 0%nat.
  lia.
Qed.

Lemma decisions_go_to_the_deployed_contract_witness :
  run_all (RS := Demo.quiet) (CO := Demo.logged) 1 42 3
    (Demo.start Ganache.fresh) = (Ok tt, Demo.after_three) /\
  (exists contract sender,
      decision_targets (snd (world Demo.after_three))
      = replicate 3 (contract, sender)) /\
  length (filter is_transaction (snd (world Demo.after_three))) = 4%nat.
Proof.
  assert (Hrun : run_all (RS := Demo.quiet) (CO := Demo.logged) 1 42 3
                   (Demo.start Ganache.fresh) = (Ok tt, Demo.after_three))
    by (vm_compute; reflexivity).
  destruct (decisions_go_to_the_deployed_contract (RS := Demo.quiet)
              (CO := Ganache.node) _ _ _ _ _ Hrun)
    as (sender & others & abi & bytecode & h & rc & evs & rows
        & Hlog & Ht & Hn).
  split; [exact Hrun|]. cbn [app Demo.start world snd] in Hlog.
  rewrite Hlog. split; [|exact Hn].
  eexists _, sender.
  rewrite !decision_targets_app, Ht. cbn [decision_targets setup_events app].
  apply app_nil_r.
Defined.

(** ** What depends on what *)

Section Independence.

(** Two successful loops on any two sets of collaborators, from the same
    generator state: the rows agree but for their gas cost. *)
Lemma loop_run_agree_but_gas {R} {RS : RandomSource R}
    {W1} {CO1 : Collaborators W1} {W2} {CO2 : Collaborators W2}
    fuel1 fuel2 contract1 contract2 sender1 sender2 seq indices
    (st1 st1' : state R W1) (st2 st2' : state R W2) rows1 rows2 :
  loop_run fuel1 contract1 sender1 seq indices st1 rows1 st1' ->
  loop_run fuel2 contract2 sender2 seq indices st2 rows2 st2' ->
  rng st1 = rng st2 ->
  map (row_without "Gas Cost (ETH)") rows1
  = map (row_without "Gas Cost (ETH)") rows2.
Proof.
  intros H1. revert st2 st2' rows2.
  induction H1 as [st1 | i indices st1 label r1 st1a rows1 st1' Hl Hs _ IH];
    intros st2 st2' rows2 H2 Hr; inversion H2; subst; [reflexivity|].
  match goal with
  | Hl' : py_index seq (i - 1) = Some ?l |- _ =>
      rewrite Hl in Hl'; injection Hl' as <-
  end.
  match goal with
  | Hs' : simulate_one fuel2 _ _ _ _ _ = _ |- _ =>
      apply simulate_one_Ok in Hs'
        as (s2 & rc2 & p2 & m2 & Hd2 & _ & Hm2 & ->)
  end.
  apply simulate_one_Ok in Hs as (s1 & rc1 & p1 & m1 & Hd1 & _ & Hm1 & ->).
  rewrite Hd1 in Hd2. injection Hd2 as <-. rewrite Hr in Hm1.
  destruct (synthesize_agree _ _ _ _ _ _ _ _ Hm1 Hm2) as [<- Hr'].
  simpl map. f_equal.
  match goal with
  | Hrest : loop_run fuel2 _ _ _ _ _ _ _ |- _ => exact (IH _ _ _ Hrest Hr')
  end.
Qed.

(** Two successful loops on the same collaborators, from the same world,
    with any two random sources: the collaborators end in the same world,
    and the gas costs agree. *)
Lemma loop_run_same_ledger {R1} {RS1 : RandomSource R1}
    {R2} {RS2 : RandomSource R2} {W} {CO : Collaborators W}
    fuel1 fuel2 contract sender seq indices
    (st1 st1' : state R1 W) (st2 st2' : state R2 W) rows1 rows2 :
  loop_run fuel1 contract sender seq indices st1 rows1 st1' ->
  loop_run fuel2 contract sender seq indices st2 rows2 st2' ->
  world st1 = world st2 ->
  world st1' = world st2' /\
  map (row_get "Gas Cost (ETH)") rows1 = map (row_get "Gas Cost (ETH)") rows2.
Proof.
  intros H1. revert st2 st2' rows2.
  induction H1 as [st1 | i indices st1 label r1 st1a rows1 st1' Hl Hs _ IH];
    intros st2 st2' rows2 H2 Hw; inversion H2; subst; [split; auto|].
  match goal with
  | Hl' : py_index seq (i - 1) = Some ?l |- _ =>
      rewrite Hl in Hl'; injection Hl' as <-
  end.
  match goal with
  | Hs' : simulate_one fuel2 _ _ _ _ _ = _ |- _ =>
      apply simulate_one_Ok in Hs'
        as (s2 & rc2 & p2 & m2 & Hd2 & Ho2 & _ & ->)
  end.
  apply simulate_one_Ok in Hs as (s1 & rc1 & p1 & m1 & Hd1 & Ho1 & _ & ->).
  rewrite Hd1 in Hd2. injection Hd2 as <-.
  rewrite Hw, Ho2 in Ho1. injection Ho1 as <- <- Hw'.
  match goal with
  | Hrest : loop_run fuel2 _ _ _ _ _ _ _ |- _ =>
      destruct (IH _ _ _ Hrest (eq_sym Hw')) as [IHw IHg]
  end.
  split; [exact IHw|]. simpl map. now rewrite IHg.
Qed.
End Independence.

(** X15. Only the gas cost depends on the ledger: two successful
    executions with the same seed and the same number of runs, on any two
    sets of collaborators, write tables whose rows agree in every field
    but Gas Cost (ETH): ids, labels, the five metrics and the two flags. *)
Theorem only_the_gas_cost_depends_on_the_ledger {R} {RS : RandomSource R}
    {W1} {CO1 : Collaborators W1} {W2} {CO2 : Collaborators W2}
    fuel1 fuel2 seed_value (n : Z)
    (st1 st1' : state R (W1 * list event))
    (st2 st2' : state R (W2 * list event)) :
  run_all (CO := Logged W1) fuel1 seed_value n st1 = (Ok tt, st1') ->
  run_all (CO := Logged W2) fuel2 seed_value n st2 = (Ok tt, st2') ->
  exists rows1 rows2,
    tables_written (snd (world st1'))
    = (tables_written (snd (world st1)) ++ [rows1])%list /\
    tables_written (snd (world st2'))
    = (tables_written (snd (world st2)) ++ [rows2])%list /\
    map (row_without "Gas Cost (ETH)") rows1
    = map (row_without "Gas Cost (ETH)") rows2.
Proof.
  intros H1 H2.
  apply run_all_table in H1
    as (c1 & s1 & rows1 & w1 & st1a & Ht1 & Hrun1 & _).
  apply run_all_table in H2
    as (c2 & s2 & rows2 & w2 & st2a & Ht2 & Hrun2 & _).
  exists rows1, rows2. split; [exact Ht1|]. split; [exact Ht2|].
  exact (loop_run_agree_but_gas _ _ _ _ _ _ _ _ _ _ _ _ _ _
           Hrun1 Hrun2 eq_refl).
Qed.

Lemma only_the_gas_cost_depends_on_the_ledger_witness :
  run_all (RS := Demo.noisy) (CO := Demo.logged) 2 42 3
    (Demo.start Ganache.fresh) = (Ok tt, Demo.noisy_on_fresh) /\
  run_all (RS := Demo.noisy) (CO := Demo.logged) 5 42 3 Demo.busy_start
  = (Ok tt, Demo.noisy_on_busy) /\
  exists rows1 rows2,
    tables_written (snd (world Demo.noisy_on_fresh)) = [rows1] /\
    tables_written (snd (world Demo.noisy_on_busy)) = [rows2] /\
    map (row_without "Gas Cost (ETH)") rows1
    = map (row_without "Gas Cost (ETH)") rows2 /\
    rows1 <> rows2.
Proof.
  assert (H1 : run_all (RS := Demo.noisy) (CO := Demo.logged) 2 42 3
                 (Demo.start Ganache.fresh) = (Ok tt, Demo.noisy_on_fresh))
    by (vm_compute; reflexivity).
  assert (H2 : run_all (RS := Demo.noisy) (CO := Demo.logged) 5 42 3
                 Demo.busy_start = (Ok tt, Demo.noisy_on_busy))
    by (vm_compute; reflexivity).
  destruct (only_the_gas_cost_depends_on_the_ledger (RS := Demo.noisy)
              (CO1 := Ganache.node) (CO2 := Ganache.node)
              2 5 42 3 _ _ _ _ H1 H2)
    as (rows1 & rows2 & Ht1 & Ht2 & Hrows).
  split; [exact H1|]. split; [exact H2|].
  exists rows1, rows2. split; [exact Ht1|]. split; [exact Ht2|].
  split; [exact Hrows|].
  vm_compute in Ht1. injection Ht1 as <-.
  vm_compute in Ht2. injection Ht2 as <-.
  discriminate.
Defined.

(** X16. The ledger never sees the random stream: two successful
    executions on the same collaborators from the same world, with any two
    random sources, seeds and unrolling depths, make the same calls with
    the same answers up to the writing of the table, and store the same
    gas costs. *)
Theorem the_ledger_never_sees_the_draws
    {R1} {RS1 : RandomSource R1} {R2} {RS2 : RandomSource R2}
    {W} {CO : Collaborators W} fuel1 fuel2 seed1 seed2 (n : Z)
    (st1 st1' : state R1 (W * list event))
    (st2 st2' : state R2 (W * list event)) :
  run_all (RS := RS1) (CO := Logged W) fuel1 seed1 n st1 = (Ok tt, st1') ->
  run_all (RS := RS2) (CO := Logged W) fuel2 seed2 n st2 = (Ok tt, st2') ->
  world st1 = world st2 ->
  exists calls rows1 rows2,
    snd (world st1') = (calls ++ [EvToExcel rows1 OUTPUT_XLSX (Ok tt)])%list /\
    snd (world st2') = (calls ++ [EvToExcel rows2 OUTPUT_XLSX (Ok tt)])%list /\
    map (row_get "Gas Cost (ETH)") rows1
    = map (row_get "Gas Cost (ETH)") rows2.
Proof.
  intros H1 H2 Hw.
  apply run_all_Ok in H1
    as (c1 & s1 & wl1 & rows1 & st1a & Hsetup1 & Hrun1 & Hx1 & _).
  apply run_all_Ok in H2
    as (c2 & s2 & wl2 & rows2 & st2a & Hsetup2 & Hrun2 & Hx2 & _).
  rewrite Hw, Hsetup2 in Hsetup1. injection Hsetup1 as <- <- <-.
  destruct (loop_run_same_ledger _ _ _ _ _ _ _ _ _ _ _ _ Hrun1 Hrun2 eq_refl)
    as [Hsame Hgas].
  apply logging_inv in Hx1 as [_ Hl1], Hx2 as [_ Hl2].
  exists (snd (world st1a)), rows1, rows2.
  split; [exact Hl1|]. split; [now rewrite Hsame|exact Hgas].
Qed.

(** The fresh node under two generators and two seeds. *)
Lemma the_ledger_never_sees_the_draws_witness :
  run_all (RS := Demo.noisy) (CO := Demo.logged) 2 42 3
    (Demo.start Ganache.fresh) = (Ok tt, Demo.noisy_on_fresh) /\
  run_all (RS := Demo.quiet) (CO := Demo.logged) 1 7 3
    (Demo.start Ganache.fresh) = (Ok tt, Demo.after_three) /\
  exists calls rows1 rows2,
    snd (world Demo.noisy_on_fresh)
    = (calls ++ [EvToExcel rows1 OUTPUT_XLSX (Ok tt)])%list /\
    snd (world Demo.after_three)
    = (calls ++ [EvToExcel rows2 OUTPUT_XLSX (Ok tt)])%list /\
    map (row_get "Gas Cost (ETH)") rows1
    = map (row_get "Gas Cost (ETH)") rows2.
Proof.
  assert (H1 : run_all (RS := Demo.noisy) (CO := Demo.logged) 2 42 3
                 (Demo.start Ganache.fresh) = (Ok tt, Demo.noisy_on_fresh))
    by (vm_compute; reflexivity).
  assert (H2 : run_all (RS := Demo.quiet) (CO := Demo.logged) 1 7 3
                 (Demo.start Ganache.fresh) = (Ok tt, Demo.after_three))
    by (vm_compute; reflexivity).
  split; [exact H1|]. split; [exact H2|].
  exact (the_ledger_never_sees_the_draws (RS1 := Demo.noisy)
           (RS2 := Demo.quiet) (CO := Ganache.node) 2 1 42 7 3 _ _ _ _
           H1 H2 eq_refl).
Defined.

(** ** The contract *)

Module DAOGovernanceFacts.
Import Ganache DAOGovernance.

Lemma executeDecision_Some (c : call) (s s' : storage) i ev :
  executeDecision c s = Some (i, ev, s') ->
  fits c = true /\ count s + 1 <= uint256_max /\
  i = count s + 1 /\
  s' = {| count := count s + 1;
          mapping := <[count s + 1 := decision_of c]> (mapping s) |} /\
  ev = {| ev_decisionId := count s + 1;
          ev_proposalId := arg_proposalId c;
          ev_daoVersion := arg_daoVersion c;
          ev_executor := msg_sender c;
          ev_timestamp := block_timestamp c |}.
Proof.
  unfold executeDecision.
  destruct (fits c); [|discriminate]. simpl.
  destruct (Z.ltb_spec uint256_max (count s + 1)); [discriminate|].
  intros [= <- <- <-]. repeat split; lia.
Qed.

(** The calls of a sequence that does not revert are stored one after the
    other above what was there, which stays as it was. *)
Lemma execute_all_register (calls : list call) (s0 s : storage) :
  execute_all calls s0 = Some s ->
  count s = count s0 + Z.of_nat (length calls) /\
  (forall j c, calls !! j = Some c ->
     mapping s !! (count s0 + Z.of_nat j + 1) = Some (decision_of c)) /\
  (forall k, k <= count s0 \/ count s0 + Z.of_nat (length calls) < k ->
     mapping s !! k = mapping s0 !! k).
Proof.
  revert s0. induction calls as [|c calls IH]; intros s0 H.
  - injection H as <-. simpl. split; [lia|]. split; [|reflexivity].
    intros j c Hj. now rewrite lookup_nil in Hj.
  - simpl in H.
    destruct (executeDecision c s0) as [[[i ev] s1]|] eqn:E; [|discriminate].
    apply executeDecision_Some in E as (_ & _ & _ & -> & _).
    apply IH in H as (Hc & Hstored & Hframe). simpl in Hc, Hstored, Hframe.
    split; [simpl length; lia|]. split.
    + intros [|j] c' Hj; simpl in Hj.
      * injection Hj as <-. rewrite Hframe by lia.
        replace (count s0 + Z.of_nat 0 + 1) with (count s0 + 1) by lia.
        apply lookup_insert_eq.
      * apply Hstored in Hj. rewrite <- Hj. f_equal. lia.
    + intros k Hk. simpl length in Hk. rewrite Hframe by lia.
      apply lookup_insert_ne. lia.
Qed.

Lemma execute_all_succeeds (calls : list call) (s0 : storage) :
  Forall (fun c => fits c = true) calls ->
  count s0 + Z.of_nat (length calls) <= uint256_max ->
  exists s, execute_all calls s0 = Some s.
Proof.
  revert s0. induction calls as [|c calls IH]; intros s0 Hfit Hmax.
  - eexists. reflexivity.
  - apply Forall_cons in Hfit as [Hc Hfit]. simpl in *.
    unfold executeDecision. rewrite Hc. simpl.
    destruct (Z.ltb_spec uint256_max (count s0 + 1)); [lia|].
    apply IH; [exact Hfit | simpl; lia].
Qed.

End DAOGovernanceFacts.

(** X18. The contract is a register that only grows: after a sequence of
    calls on a freshly deployed contract, none of which reverted,
    [decisionCount] is the number of calls, [decisions(j)] holds the data
    of the [j]-th call for [j] from 1 to this number, and every other key,
    0 included, reads as zeros.  No decision is overwritten. *)
Theorem decisions_are_kept_in_order_of_arrival
    (calls : list DAOGovernance.call) (s : DAOGovernance.storage) :
  DAOGovernance.execute_all calls DAOGovernance.deployed = Some s ->
  DAOGovernance.count s = Z.of_nat (length calls) /\
  (forall j c, calls !! j = Some c ->
     DAOGovernance.decisions_at s (Z.of_nat j + 1)
     = DAOGovernance.decision_of c) /\
  (forall k, k < 1 \/ Z.of_nat (length calls) < k ->
     DAOGovernance.decisions_at s k = DAOGovernance.zero).
Proof.
  intros H. apply DAOGovernanceFacts.execute_all_register in H
    as (Hc & Hstored & Hframe). simpl in Hc, Hstored, Hframe.
  split; [exact Hc|]. unfold DAOGovernance.decisions_at. split.
  - intros j c Hj. pose proof (Hstored j c Hj) as E.
    replace (0 + Z.of_nat j + 1) with (Z.of_nat j + 1) in E by lia.
    now rewrite E.
  - intros k Hk. rewrite Hframe by lia. now rewrite lookup_empty.
Qed.

Lemma decisions_are_kept_in_order_of_arrival_witness :
  exists s,
    DAOGovernance.execute_all
      [ {| DAOGovernance.msg_sender := 7;
           DAOGovernance.block_timestamp := 1700000001;
           DAOGovernance.arg_proposalId := 41;
           DAOGovernance.arg_daoVersion := 2 |};
        {| DAOGovernance.msg_sender := 9;
           DAOGovernance.block_timestamp := 1700000002;
           DAOGovernance.arg_proposalId := 41;
           DAOGovernance.arg_daoVersion := 3 |} ]
      DAOGovernance.deployed = Some s /\
    DAOGovernance.count s = 2 /\
    Ganache.daoVersion (DAOGovernance.decisions_at s 1) = 2 /\
    Ganache.daoVersion (DAOGovernance.decisions_at s 2) = 3 /\
    DAOGovernance.decisions_at s 0 = DAOGovernance.zero.
Proof.
  set (calls := [_; _]).
  destruct (DAOGovernance.execute_all calls DAOGovernance.deployed)
    as [s|] eqn:E; [|vm_compute in E; discriminate E].
  exists s. split; [reflexivity|].
  destruct (decisions_are_kept_in_order_of_arrival calls s E)
    as (Hc & Hstored & Hzero).
  split; [exact Hc|].
  split; [exact (f_equal Ganache.daoVersion (Hstored 0%nat _ eq_refl))|].
  split; [exact (f_equal Ganache.daoVersion (Hstored 1%nat _ eq_refl))|].
  apply Hzero. lia.
Defined.

(** ** The engine and the contract together *)

(** The data of calls whose arguments are those of the runs 1, ..., n. *)
Lemma calls_of_the_runs (n : Z) (calls : list DAOGovernance.call) :
  map (fun c => (DAOGovernance.arg_proposalId c, DAOGovernance.arg_daoVersion c))
    calls
  = map (fun i => (i, dao_id_for i)) (one_to n) ->
  length calls = Z.to_nat n /\
  forall j c, calls !! j = Some c ->
    DAOGovernance.arg_proposalId c = Z.of_nat j + 1 /\
    DAOGovernance.arg_daoVersion c = dao_id_for (Z.of_nat j + 1) /\
    (j < Z.to_nat n)%nat.
Proof.
  intros Hargs.
  assert (Hlen : length calls = Z.to_nat n).
  { apply (f_equal length) in Hargs.
    now rewrite !length_map, one_to_length in Hargs. }
  split; [exact Hlen|]. intros j c Hj.
  assert (Hlt : (j < Z.to_nat n)%nat).
  { rewrite <- Hlen. apply lookup_lt_is_Some. eauto. }
  apply (f_equal (fun l => l !! j)) in Hargs.
  change (map ?f ?l) with (f <$> l) in Hargs.
  rewrite !list_lookup_fmap, Hj, lookup_one_to in Hargs by exact Hlt.
  simpl in Hargs. injection Hargs as H1 H2. auto.
Qed.

(** X19. The contract ends with one decision per run: the decisions that a
    successful [run_full] over [n] runs submits, executed in this order on
    a freshly deployed [DAOGovernance] by whatever senders and at whatever
    times, do not revert, and leave [decisionCount = n] and, for each run
    [i], under the key [i], a decision whose [proposalId] is [i] and whose
    [daoVersion] is the generation id of run [i]: the key of a decision is
    the Simulation ID of its row. *)
Theorem the_contract_holds_one_decision_per_run {R} {RS : RandomSource R}
    {W} {CO : Collaborators W} fuel seed_value (n : Z)
    (st st' : state R (W * list event)) (calls : list DAOGovernance.call) :
  run_all (CO := Logged W) fuel seed_value n st = (Ok tt, st') ->
  n <= Ganache.uint256_max ->
  decisions_submitted (snd (world st'))
  = (decisions_submitted (snd (world st))
     ++ map (fun c => (DAOGovernance.arg_proposalId c,
                       DAOGovernance.arg_daoVersion c)) calls)%list ->
  exists s,
    DAOGovernance.execute_all calls DAOGovernance.deployed = Some s /\
    DAOGovernance.count s = Z.of_nat (Z.to_nat n) /\
    forall i, 1 <= i <= n ->
      Ganache.proposalId (DAOGovernance.decisions_at s i) = i /\
      Ganache.daoVersion (DAOGovernance.decisions_at s i) = dao_id_for i.
Proof.
  intros H Hmax Hcalls.
  apply run_all_logged in H
    as (sender & others & abi & bytecode & h & rc & log & rows
        & Hlog & Hrl & _).
  rewrite py_range_one_to in Hrl.
  destruct (run_log_reading n _ _ _ _ _ Hrl (one_to_bounds n)) as (Hdec & _).
  rewrite Hlog, !decisions_submitted_app, Hdec in Hcalls.
  cbn [decisions_submitted setup_events app] in Hcalls.
  rewrite app_nil_r in Hcalls. apply app_inv_head in Hcalls.
  symmetry in Hcalls.
  destruct (calls_of_the_runs n calls Hcalls) as [Hlen Hdata].
  destruct (DAOGovernanceFacts.execute_all_succeeds calls DAOGovernance.deployed)
    as [s Hs].
  { apply Forall_lookup. intros j c Hj.
    destruct (Hdata j c Hj) as (Hp & Hv & Hlt).
    unfold DAOGovernance.fits. rewrite Hp, Hv.
    unfold dao_id_for, Ganache.uint8_max.
    pose proof (Z.mod_pos_bound (Z.of_nat j + 1 - 1) 3 ltac:(lia)).
    change (2 ^ 8 - 1) with 255.
    rewrite !andb_true_iff, !Z.leb_le. lia. }
  { assert (0 <= Ganache.uint256_max) by now vm_compute.
    cbn [DAOGovernance.count DAOGovernance.deployed]. lia. }
  exists s. split; [exact Hs|].
  apply DAOGovernanceFacts.execute_all_register in Hs
    as (Hc & Hstored & _). simpl in Hc, Hstored.
  split; [lia|]. intros i Hi.
  assert (Hlt : (Z.to_nat (i - 1) < length calls)%nat) by lia.
  apply lookup_lt_is_Some in Hlt as [c Hj].
  destruct (Hdata _ c Hj) as (Hp & Hv & _).
  apply Hstored in Hj.
  replace (0 + Z.of_nat (Z.to_nat (i - 1)) + 1) with i in Hj by lia.
  unfold DAOGovernance.decisions_at. rewrite Hj. simpl.
  rewrite Hp, Hv. split; [lia | f_equal; lia].
Qed.

(** The three decisions of three runs, sent by account 7 in three blocks. *)
Lemma the_contract_holds_one_decision_per_run_witness :
  run_all (RS := Demo.quiet) (CO := Demo.logged) 1 42 3
    (Demo.start Ganache.fresh) = (Ok tt, Demo.after_three) /\
  exists s,
    DAOGovernance.count s = 3 /\
    Ganache.proposalId (DAOGovernance.decisions_at s 2) = 2 /\
    Ganache.daoVersion (DAOGovernance.decisions_at s 2) = 2.
Proof.
  assert (Hrun : run_all (RS := Demo.quiet) (CO := Demo.logged) 1 42 3
                   (Demo.start Ganache.fresh) = (Ok tt, Demo.after_three))
    by (vm_compute; reflexivity).
  split; [exact Hrun|].
  set (calls := map (fun i => {| DAOGovernance.msg_sender := 7;
                                 DAOGovernance.block_timestamp := 1700000000 + i;
                                 DAOGovernance.arg_proposalId := i;
                                 DAOGovernance.arg_daoVersion := i |})
                  [1; 2; 3]).
  assert (Hmax : 3 <= Ganache.uint256_max) by (vm_compute; discriminate).
  assert (Hcalls : decisions_submitted (snd (world Demo.after_three))
                   = (decisions_submitted
                        (snd (world (Demo.start Ganache.fresh)))
                      ++ map (fun c => (DAOGovernance.arg_proposalId c,
                                        DAOGovernance.arg_daoVersion c))
                           calls)%list)
    by (vm_compute; reflexivity).
  destruct (the_contract_holds_one_decision_per_run (RS := Demo.quiet)
              (CO := Ganache.node) 1 42 3 (Demo.start Ganache.fresh)
              Demo.after_three calls Hrun Hmax Hcalls)
    as (s & _ & Hc & Hd).
  exists s. split; [exact Hc|]. apply (Hd 2). lia.
Defined.

(** ** The table *)

Lemma loop_run_columns {R} {RS : RandomSource R} {W} {CO : Collaborators W}
    fuel contract sender seq indices (st st' : state R W) rows :
  loop_run fuel contract sender seq indices st rows st' ->
  Forall (fun r => row_keys r = columns) rows.
Proof.
  induction 1 as [st | i indices st label r st1 rows st2 Hl Hs _ IH];
    constructor; [|exact IH].
  now apply simulate_one_Ok in Hs as (s & rc & p & m & _ & _ & _ & ->).
Qed.

(** X20. The table that a successful [run_full] hands to the spreadsheet
    writer is uniform: each of its rows has the same ten keys in the same
    order, so the sheet has these ten columns and no cell is missing. *)
Theorem every_row_has_the_ten_columns {R} {RS : RandomSource R} {W}
    {CO : Collaborators W} fuel seed_value (n : Z)
    (st st' : state R (W * list event)) :
  run_all (CO := Logged W) fuel seed_value n st = (Ok tt, st') ->
  exists rows,
    last (snd (world st')) = Some (EvToExcel rows OUTPUT_XLSX (Ok tt)) /\
    Forall (fun r => row_keys r = columns) rows.
Proof.
  intros H. apply run_all_logged in H
    as (sender & others & abi & bytecode & h & rc & log & rows
        & Hlog & _ & w1 & st2 & Hrun & _).
  exists rows. split.
  - rewrite Hlog, !app_assoc. apply last_snoc.
  - exact (loop_run_columns _ _ _ _ _ _ _ _ Hrun).
Qed.

Lemma every_row_has_the_ten_columns_witness :
  run_all (RS := Demo.quiet) (CO := Demo.logged) 1 42 6
    (Demo.start Ganache.fresh) = (Ok tt, Demo.after_six) /\
  exists rows,
    last (snd (world Demo.after_six))
    = Some (EvToExcel rows OUTPUT_XLSX (Ok tt)) /\
    Forall (fun r => row_keys r = columns) rows.
Proof.
  assert (Hrun : run_all (RS := Demo.quiet) (CO := Demo.logged) 1 42 6
                   (Demo.start Ganache.fresh) = (Ok tt, Demo.after_six))
    by (vm_compute; reflexivity).
  split; [exact Hrun|].
  exact (every_row_has_the_ten_columns (RS := Demo.quiet)
           (CO := Ganache.node) _ _ _ _ _ Hrun).
Defined.
